(** * ANALYZER: upload, summarise and render tabular data

    A shallow embedding of [app.py].  The script is a single request
    handler around three libraries (pandas, ReportLab, werkzeug).  What the
    script itself decides is modelled by executable definitions that follow
    its text line by line; where it calls a library, the call is modelled by
    the library's behaviour, and what the libraries compute from the data
    (means, quantiles, the text of floats and dates, the layout of pages)
    is an operation of a class, so that nothing here depends on its value.
    The script pins no versions; the libraries are taken as they are now:
    pandas 2 (where [describe] takes date columns with the numeric ones and
    an [Index] keeps the labels of a sheet's header as they are),
    ReportLab 4 and werkzeug 3. *)

From Stdlib Require Import Ascii String DecimalString DecimalNat.
From Stdlib Require Import Floats.
From Stdlib Require Import Bool Arith ZArith NArith Lia List.
Import ListNotations.

Set Implicit Arguments.
Open Scope string_scope.
Open Scope list_scope.
Open Scope nat_scope.

(** ** Python strings

    A [str] is the sequence of its code points.  The embedding covers code
    points below 256, held in [ascii]; on this range [str.lower] and the
    white space of [str.strip] are given by the tables below. *)

Definition str := list ascii.

Definition lit (s : string) : str := list_ascii_of_string s.
Coercion lit : string >-> str.

Definition code (c : ascii) : N := N_of_ascii c.

Definition in_range (lo hi : N) (c : ascii) : bool :=
  ((lo <=? code c) && (code c <=? hi))%N.

(** [str.isspace] on one code point: TAB..CR, FS..US, SPACE, NEL, NBSP. *)
Definition is_space (c : ascii) : bool :=
  in_range 9 13 c || in_range 28 32 c
  || (code c =? 133)%N || (code c =? 160)%N.

(** [str.lower] on one code point: A-Z, and the Latin-1 capitals
    U+00C0..U+00DE without the multiplication sign U+00D7. *)
Definition lower_char (c : ascii) : ascii :=
  if in_range 65 90 c
     || (in_range 192 222 c && negb (code c =? 215)%N)
  then ascii_of_N (code c + 32)
  else c.

Definition lower (s : str) : str := map lower_char s.

Fixpoint lstrip (s : str) : str :=
  match s with
  | c :: t => if is_space c then lstrip t else s
  | [] => []
  end.

Definition rstrip (s : str) : str := rev (lstrip (rev s)).

Definition strip (s : str) : str := rstrip (lstrip s).

(** [s.rsplit('.', 1)]: [None] when [s] holds no dot (the result is the
    one-element list [[s]]), otherwise the text before and after the last
    dot. *)
Definition is_dot (c : ascii) : bool := (code c =? 46)%N.

Fixpoint rsplit_dot (s : str) : option (str * str) :=
  match s with
  | [] => None
  | c :: t =>
      match rsplit_dot t with
      | Some (pre, post) => Some (c :: pre, post)
      | None => if is_dot c then Some ([], t) else None
      end
  end.

(** ** Regular expressions used by the script

    Both patterns are character classes.  [re_sub_each p r] is
    [re.sub('[class]', r, s)], [re_sub_runs p r] is
    [re.sub('[class]+', r, s)]: matches are found left to right, and [+] is
    greedy, so each maximal run of class members is one match. *)

Section Regex.
Variable p : ascii -> bool.
Variable r : str.

Fixpoint re_sub_each (s : str) : str :=
  match s with
  | [] => []
  | c :: t => (if p c then r else [c]) ++ re_sub_each t
  end.

(** [in_run] holds while the scan is inside a match. *)
Fixpoint re_sub_scan (in_run : bool) (s : str) : str :=
  match s with
  | [] => []
  | c :: t =>
      if p c
      then (if in_run then [] else r) ++ re_sub_scan true t
      else c :: re_sub_scan false t
  end.

Definition re_sub_runs (s : str) : str := re_sub_scan false s.
End Regex.

Definition underscore : ascii := "_"%char.

Definition is_underscore (c : ascii) : bool := (code c =? 95)%N.

(** [[a-z0-9]] *)
Definition is_lower_alnum (c : ascii) : bool :=
  in_range 97 122 c || in_range 48 57 c.

(** [[a-z0-9_]] *)
Definition is_word (c : ascii) : bool := is_lower_alnum c || is_underscore c.

(** [[^a-z0-9_]] *)
Definition not_word (c : ascii) : bool := negb (is_word c).

(** ** Column-name sanitising (app.py, lines 204-206)

    [df.columns.str.strip().str.lower()
       .str.replace(r'[^a-z0-9_]', '_', regex=True)
       .str.replace(r'_+', '_', regex=True)], on one name. *)
Definition normalize (name : str) : str :=
  re_sub_runs is_underscore [underscore]
    (re_sub_each not_word [underscore]
       (lower (strip name))).

(** The normalisation as the specification words it: trim, lowercase, then
    every maximal run of characters outside [[a-z0-9_]] becomes one
    underscore and every other character is kept. *)
Definition spec_normalize (name : str) : str :=
  re_sub_runs not_word [underscore] (lower (strip name)).

(** ** Exceptions

    A call that can raise returns a [result]; [Raise] carries the exception
    class and [str(e)]. *)

Inductive exn_class :=
| ValueError | IndexError | AttributeError
| EmptyDataError | ParserError | LayoutError | OtherError.

Record exn := Exn { exn_kind : exn_class; exn_msg : str }.

Inductive result (A : Type) :=
| Ok (a : A)
| Raise (e : exn).
Arguments Ok {A} a.
Arguments Raise {A} e.

Definition rbind {A B} (m : result A) (k : A -> result B) : result B :=
  match m with
  | Ok a => k a
  | Raise e => Raise e
  end.

Notation "x <- m ;; k" := (rbind m (fun x => k))
  (at level 61, m at next level, right associativity).


(** ** Frames (the subset of pandas the script touches)

    A column is a typed sequence of values.  The dtypes are those that the
    two parsers give with their default arguments: [int64], [float64],
    [bool], [datetime64] (spreadsheets only) and [object].  An object column
    holds text and missing values (a spreadsheet column that mixes numbers
    and text is outside the embedding).  A missing value is the float NaN,
    and [NaT] in a date column.

    Column labels.  [read_csv] labels every column with a [str].
    [read_excel] labels a column with the value of its header cell, which can
    also be a number, a boolean or a date.  Line 205 of the script replaces
    the labels, and from there on every label is a [str] or NaN.  The frame
    that a parser returns is a [ParsedFrame]; the frame after line 205, the
    one that the generators are called with, is a [DataFrame]. *)

Inductive dtype := Int64 | Float64 | Bool | Datetime | Object.

Inductive cell :=
| CInt (n : Z)
| CFloat (x : float)
| CBool (b : bool)
| CStr (s : str)
| CTime (t : Z)              (* a Timestamp *)
| CNaT.

Definition nan_cell : cell := CFloat nan.

Inductive label :=
| Text (s : str)
| NaNLabel.
Coercion Text : str >-> label.

Record Series := { name : label; dtype_of : dtype; values : list cell }.

(** A frame with the default [RangeIndex]: [len(df)] is [index_len]. *)
Record DataFrame := { series : list Series; index_len : nat }.

Definition columns (df : DataFrame) : list label := map name (series df).

Definition len (df : DataFrame) : nat := index_len df.

(** [df.iloc[i:j]] for [0 <= i], [0 <= j]: positions [min i n .. min j n). *)
Definition slice {A} (i j : nat) (l : list A) : list A :=
  firstn (j - i) (skipn i l).

Definition iloc (df : DataFrame) (i j : nat) : DataFrame :=
  {| series :=
       map (fun c => {| name := name c; dtype_of := dtype_of c;
                        values := slice i j (values c) |}) (series df);
     index_len := Nat.min j (index_len df) - Nat.min i (index_len df) |}.

(** [df.empty]: some axis has length 0. *)
Definition empty (df : DataFrame) : bool :=
  match series df with
  | [] => true
  | _ => Nat.eqb (index_len df) 0
  end.

Fixpoint str_eqb (a b : str) : bool :=
  match a, b with
  | [], [] => true
  | x :: a', y :: b' => Ascii.eqb x y && str_eqb a' b'
  | _, _ => false
  end.

Definition mem_str (a : str) (l : list str) : bool := existsb (str_eqb a) l.

(** [s == label] and [s in df.columns] for a [str] [s]: NaN is no [str]. *)
Definition label_is (s : str) (l : label) : bool :=
  match l with
  | Text t => str_eqb s t
  | NaNLabel => false
  end.

Definition mem_label (s : str) (l : list label) : bool :=
  existsb (label_is s) l.

(** [df.rename(columns={old: new})] *)
Definition rename_column (old new : str) (df : DataFrame) : DataFrame :=
  {| series :=
       map (fun c => {| name := if label_is old (name c) then Text new
                                else name c;
                        dtype_of := dtype_of c;
                        values := values c |}) (series df);
     index_len := index_len df |}.

(** *** Parsed frames and line 205 *)

Inductive header_cell :=
| HText (s : str)
| HInt (n : Z)
| HFloat (x : float)
| HBool (b : bool)
| HDate (t : Z).

Record ParsedColumn := {
  p_label : header_cell;
  p_dtype : dtype;
  p_values : list cell
}.

Record ParsedFrame := { p_columns : list ParsedColumn; p_len : nat }.

Definition p_labels (df : ParsedFrame) : list header_cell :=
  map p_label (p_columns df).

Definition is_htext (h : header_cell) : bool :=
  match h with
  | HText _ => true
  | _ => false
  end.

Definition is_hnumber (h : header_cell) : bool :=
  match h with
  | HInt _ | HFloat _ => true
  | _ => false
  end.

Definition is_hbool (h : header_cell) : bool :=
  match h with
  | HBool _ => true
  | _ => false
  end.

Definition is_hdate (h : header_cell) : bool :=
  match h with
  | HDate _ => true
  | _ => false
  end.

(** [df.columns.str]: the accessor is refused (an [AttributeError]) unless
    the labels are inferred to be strings or of mixed kinds.  Labels that
    are all numbers make a numeric index, all booleans a boolean one, all
    dates a [DatetimeIndex], and a frame without columns (an empty sheet)
    has a [RangeIndex]: these are refused.  Every other list of labels makes
    an object index that is inferred as [string], [mixed] or
    [mixed-integer], and is accepted. *)
Definition str_accessor_ok (labels : list header_cell) : bool :=
  negb (forallb is_hnumber labels
        || forallb is_hbool labels
        || forallb is_hdate labels).

(** One method of the accessor on one label: a label that is no [str]
    becomes NaN. *)
Definition str_method (f : str -> str) (h : header_cell) : label :=
  match h with
  | HText s => Text (f s)
  | _ => NaNLabel
  end.

(** [df.columns = df.columns.str.f()], once the accessor is granted.  (The
    four methods of line 205 are applied one after the other; after the
    first one every label is a [str] or NaN, on which the accessor is
    granted again.) *)
Definition set_columns (df : ParsedFrame) (f : str -> str) : DataFrame :=
  {| series :=
       map (fun c => {| name := str_method f (p_label c);
                        dtype_of := p_dtype c;
                        values := p_values c |}) (p_columns df);
     index_len := p_len df |}.

(** A frame as a parser would return it. *)
Definition as_parsed (df : DataFrame) : ParsedFrame :=
  {| p_columns :=
       map (fun c => {| p_label := match name c with
                                   | Text s => HText s
                                   | NaNLabel => HFloat nan
                                   end;
                        p_dtype := dtype_of c;
                        p_values := values c |}) (series df);
     p_len := index_len df |}.

(** ** Library kernels

    The value of one statistic over one column, the conversion of an
    integer to a double and the text of a float or of a date are computed
    by pandas and NumPy.  They are operations of this class.  The laws are
    what [to_csv] needs of these texts: a float's text is made of digits,
    sign, point, exponent mark and the letters of [inf]; a date's text
    begins with a digit and holds no carriage return. *)

Inductive stat := Count | Mean | Std | Min | Q25 | Q50 | Q75 | Max.

Inductive ostat := OCount | OUnique | OTop | OFreq.

Definition is_float_char (c : ascii) : bool :=
  in_range 48 57 c || existsb (Ascii.eqb c) (lit "+-.eEinf").

Definition is_cr (c : ascii) : bool := (code c =? 13)%N.

Definition is_date_text (s : str) : bool :=
  match s with
  | d :: rest => in_range 48 57 d && forallb (fun c => negb (is_cr c)) rest
  | [] => false
  end.

Class Kernels := {
  (** [Series.count/mean/std/min/quantile/max] of a numeric column,
      skipping NaN *)
  numeric_stat : stat -> list cell -> float;
  (** the same of a date column: the count, and dates *)
  datetime_stat : stat -> list cell -> cell;
  (** [count], [unique], [top], [freq] of any other column *)
  object_stat : ostat -> list cell -> cell;
  (** an [int64] as a [float64] *)
  float_of_int : Z -> float;
  (** an item of [tolist()] of a [datetime64] array *)
  datetime_item : cell -> cell;
  (** text of a float that is not NaN *)
  float_repr : float -> str;
  (** text that [to_csv] writes for a date of a column (it depends on the
      other dates of the column) *)
  time_repr : Series -> Z -> str;
  float_repr_chars : forall x, forallb is_float_char (float_repr x) = true;
  time_repr_text : forall c t, is_date_text (time_repr c t) = true
}.

(** ** [DataFrame.describe()] with default arguments *)

Definition stat_label (s : stat) : str :=
  match s with
  | Count => "count" | Mean => "mean" | Std => "std" | Min => "min"
  | Q25 => "25%" | Q50 => "50%" | Q75 => "75%" | Max => "max"
  end.

Definition ostat_label (s : ostat) : str :=
  match s with
  | OCount => "count" | OUnique => "unique" | OTop => "top" | OFreq => "freq"
  end.

Definition numeric_stats : list stat :=
  [Count; Mean; Std; Min; Q25; Q50; Q75; Max].

(** A date column has no standard deviation. *)
Definition timestamp_stats : list stat :=
  [Count; Mean; Min; Q25; Q50; Q75; Max].

Definition object_stats : list ostat := [OCount; OUnique; OTop; OFreq].

Definition numeric_labels : list str := map stat_label numeric_stats.

Definition timestamp_labels : list str := map stat_label timestamp_stats.

Definition object_labels : list str := map ostat_label object_stats.

(** [np.number]: booleans are not numbers here. *)
Definition is_numeric (c : Series) : bool :=
  match dtype_of c with
  | Int64 | Float64 => true
  | _ => false
  end.

Definition is_datetime (c : Series) : bool :=
  match dtype_of c with
  | Datetime => true
  | _ => false
  end.

(** The columns that [describe] keeps when there is one of them:
    [select_dtypes(include=[np.number, "datetime"])]. *)
Definition is_described (c : Series) : bool := is_numeric c || is_datetime c.

(** The description of one column: labelled values and their dtype
    ([describe_numeric_1d], [describe_timestamp_1d],
    [describe_categorical_1d]). *)
Record Described1 := { d_dtype : dtype; d_items : list (str * cell) }.

Definition describe_1d `{Kernels} (c : Series) : Described1 :=
  if is_numeric c
  then {| d_dtype := Float64;
          d_items := map (fun s => (stat_label s,
                                    CFloat (numeric_stat s (values c))))
                         numeric_stats |}
  else if is_datetime c
  then {| d_dtype := Object;
          d_items := map (fun s => (stat_label s, datetime_stat s (values c)))
                         timestamp_stats |}
  else {| d_dtype := Object;
          d_items := map (fun s => (ostat_label s, object_stat s (values c)))
                         object_stats |}.

(** [_select_data]: the numeric and the date columns, or every column when
    there is none of them. *)
Definition select_data (cols : list Series) : list Series :=
  match filter is_described cols with
  | [] => cols
  | described => described
  end.

(** [reorder_columns]: the label lists, shortest first (a stable sort), merged
    without repeats. *)
Fixpoint insert_by_length (x : list str) (l : list (list str)) :=
  match l with
  | [] => [x]
  | y :: t =>
      if length x <? length y then x :: l else y :: insert_by_length x t
  end.

Definition sort_by_length (l : list (list str)) : list (list str) :=
  fold_left (fun acc x => insert_by_length x acc) l [].

Definition merge_labels (ls : list (list str)) : list str :=
  fold_left
    (fun names l =>
       fold_left (fun names x => if mem_str x names then names
                                 else names ++ [x]) l names)
    ls [].

Definition reorder_columns (ldesc : list Described1) : list str :=
  merge_labels (sort_by_length (map (fun d => map fst (d_items d)) ldesc)).

Fixpoint lookup_label (x : str) (items : list (str * cell)) : cell :=
  match items with
  | [] => nan_cell
  | (k, v) :: t => if str_eqb x k then v else lookup_label x t
  end.

(** A described frame: its index is the list of statistic labels. *)
Record Described := { d_index : list str; d_series : list Series }.

Definition describe `{Kernels} (df : DataFrame) : result Described :=
  match series df with
  | [] => Raise (Exn ValueError "Cannot describe a DataFrame without columns")
  | _ =>
      let data := select_data (series df) in
      let ldesc := map describe_1d data in
      let labels := reorder_columns ldesc in
      Ok {| d_index := labels;
            d_series :=
              map (fun cd =>
                     {| name := name (fst cd);
                        dtype_of := d_dtype (snd cd);
                        values := map (fun l => lookup_label l
                                                  (d_items (snd cd))) labels |})
                  (combine data ldesc) |}
  end.

(** [reset_index()] of a frame whose index has no name: the index becomes
    the first column, named [index], or [level_0] when a column [index]
    exists; inserting a name that is already a column raises. *)
Definition reset_index (d : Described) : result DataFrame :=
  let names := map name (d_series d) in
  let default : str := if mem_label "index" names then "level_0" else "index" in
  if mem_label default names
  then Raise (Exn ValueError
                (lit "cannot insert " ++ default ++ lit ", already exists"))
  else Ok {| series := {| name := Text default; dtype_of := Object;
                          values := map CStr (d_index d) |} :: d_series d;
             index_len := length (d_index d) |}.

(** [rename(columns={'index': 'Statistic'})] *)
Definition rename_index (df : DataFrame) : DataFrame :=
  rename_column "index" "Statistic" df.

(** [numpy.rint]: the nearest integer, a tie going to the even one.  Below
    [2^52] in magnitude, adding and subtracting [2^52] rounds a double to
    an integer; from there on every double is an integer. *)
Definition two52 : float := 4503599627370496%float.

Definition rint (x : float) : float :=
  (if abs x <? two52
   then if x <? 0 then - ((- x + two52) - two52)
        else if 0 <? x then (x + two52) - two52
        else x
   else x)%float.

(** [numpy.round(x, 2)]: [rint(x * 100) / 100]. *)
Definition round2 (x : float) : float := (rint (x * 100) / 100)%float.

(** [round(2)]: float columns are rounded, the others are left alone. *)
Definition round_cell (c : cell) : cell :=
  match c with
  | CFloat x => CFloat (round2 x)
  | _ => c
  end.

Definition round_frame (df : DataFrame) : DataFrame :=
  {| series :=
       map (fun c =>
              match dtype_of c with
              | Float64 => {| name := name c; dtype_of := Float64;
                              values := map round_cell (values c) |}
              | _ => c
              end) (series df);
     index_len := index_len df |}.

(** app.py, lines 41-45 *)
Definition generate_summary_df `{Kernels} (df : DataFrame)
  : result DataFrame :=
  d <- describe df ;;
  summary_df <- reset_index d ;;
  Ok (round_frame (rename_index summary_df)).

(** ** [df.values.tolist()]

    [df.values] is one array of one dtype, the common dtype of the columns:
    integers and floats together are floats; booleans with numbers, dates
    with anything else and everything with an object column are objects,
    whose items are the values as they are.  [tolist()] gives one list per
    index position. *)

Definition join_dtype (a b : dtype) : dtype :=
  match a, b with
  | Int64, Int64 => Int64
  | Int64, Float64 | Float64, Int64 | Float64, Float64 => Float64
  | Bool, Bool => Bool
  | Datetime, Datetime => Datetime
  | _, _ => Object
  end.

Definition common_dtype (cols : list Series) : dtype :=
  match map dtype_of cols with
  | [] => Object
  | d :: ds => fold_left join_dtype ds d
  end.

Definition as_dtype `{Kernels} (d : dtype) (v : cell) : cell :=
  match d, v with
  | Float64, CInt n => CFloat (float_of_int n)
  | Datetime, _ => datetime_item v
  | _, _ => v
  end.

Definition row_at (cols : list Series) (i : nat) : list cell :=
  map (fun c => nth i (values c) nan_cell) cols.

Definition values_tolist `{Kernels} (df : DataFrame) : list (list cell) :=
  map (fun i => map (as_dtype (common_dtype (series df)))
                    (row_at (series df) i))
      (seq 0 (index_len df)).

(** ** Decimal text of integers ([str(n)]) *)

Definition str_of_nat (n : nat) : str :=
  lit (NilEmpty.string_of_uint (Nat.to_uint n)).

Definition str_of_Z (z : Z) : str :=
  lit (NilEmpty.string_of_int (Z.to_int z)).

(** ** ReportLab documents

    A document is its page size and its story, the list of flowables handed
    to [doc.build].  Lengths are in tenths of a millimetre (ReportLab keeps
    the same lengths in points).  The layout itself is ReportLab's:
    [build] is [doc.build(story)], which raises (a [LayoutError]) when a
    flowable does not fit, as a table row taller than the page.  What it
    raises is no error of pandas' parsers. *)

Definition pagesize := (Z * Z)%type.

Definition A4 : pagesize := (2100, 2970)%Z.
Definition A3 : pagesize := (2970, 4200)%Z.
Definition A2 : pagesize := (4200, 5940)%Z.
Definition A1 : pagesize := (5940, 8400)%Z.

(** [reportlab.lib.pagesizes.landscape] *)
Definition landscape (p : pagesize) : pagesize :=
  let (a, b) := p in if (a <? b)%Z then (b, a) else (a, b).

(** The three [TableStyle]s of the script: the summary table (header
    background and grid), the full-data header table (background, grid, box,
    font size 6, centred, padding 2, bold header) and the full-data chunk
    tables (the same without background and bold header). *)
Inductive table_style := SummaryStyle | HeaderStyle | ChunkStyle.

Inductive flowable :=
| Paragraph (text : str) (style : str)
| Spacer (width height : Z)
| Table (data : list (list cell)) (style : table_style).

Record pdf_document := { doc_pagesize : pagesize; story : list flowable }.

Definition is_parser_error (k : exn_class) : bool :=
  match k with
  | EmptyDataError | ParserError => true
  | _ => false
  end.

Class ReportLab := {
  build : pdf_document -> result unit;
  build_raises : forall d e,
    build d = Raise e -> is_parser_error (exn_kind e) = false
}.

(** [doc.build(story); buffer.seek(0); return buffer] *)
Definition built `{ReportLab} (doc : pdf_document) : result pdf_document :=
  done <- build doc ;; Ok doc.

(** [Table(data)] followed by [setStyle]: with ReportLab's default
    [emptyTableAction = 'error'] a table needs at least a row and a column.
    (The message is ReportLab's, without the table's identity.) *)
Definition new_table (data : list (list cell)) (style : table_style)
  : result flowable :=
  if (length data =? 0) || (list_max (map (@length cell) data) =? 0)
  then Raise (Exn ValueError "must have at least a row and column")
  else Ok (Table data style).

Definition is_table (f : flowable) : bool :=
  match f with
  | Table _ _ => true
  | _ => false
  end.

Definition str_cells (l : list str) : list cell := map CStr l.

(** [list(df.columns)] as cells of a table *)
Definition label_cell (l : label) : cell :=
  match l with
  | Text s => CStr s
  | NaNLabel => nan_cell
  end.

Definition label_cells (l : list label) : list cell := map label_cell l.

(** app.py, lines 48-75; [now] is the text of
    [datetime.now().strftime('%Y-%m-%d %H:%M')]. *)
Definition generate_reportlab_pdf `{Kernels} `{ReportLab} (now : str)
    (df : DataFrame) (filename : str) : result pdf_document :=
  let story :=
    [ Paragraph (lit "<b>Data Analysis Report: " ++ filename ++ lit "</b>")
                "Title";
      Paragraph (lit "<i>Generated on: " ++ now ++ lit "</i>") "Normal";
      Spacer 1 12;
      Paragraph (lit "<b>Total Records:</b> " ++ str_of_nat (len df)) "Normal";
      Spacer 1 24 ] in
  numeric_summary <- generate_summary_df df ;;
  let numeric_data :=
    label_cells (columns numeric_summary) :: values_tolist numeric_summary in
  if negb (empty numeric_summary)
  then
    table <- new_table numeric_data SummaryStyle ;;
    built {| doc_pagesize := A4;
             story := story ++
                      [ Paragraph "<b>Numeric Column Statistics:</b>" "h2";
                        table ] |}
  else
    built {| doc_pagesize := A4;
             story := story ++
                      [ Paragraph "<i>No numeric columns found.</i>"
                                  "Italic" ] |}.

(** [range(start, stop, step)] for [step > 0]: its length is
    [ceil((stop - start) / step)] and its [k]-th item [start + k * step]. *)
Definition py_range (start stop step : nat) : list nat :=
  map (fun k => start + k * step)
      (seq 0 ((stop - start + (step - 1)) / step)).

Fixpoint mapM {A B} (f : A -> result B) (l : list A) : result (list B) :=
  match l with
  | [] => Ok []
  | a :: t => b <- f a ;; bs <- mapM f t ;; Ok (b :: bs)
  end.

Definition chunk_size : nat := 5000.

(** app.py, lines 78-142 *)
Definition generate_full_data_pdf `{Kernels} `{ReportLab} (now : str)
    (df : DataFrame) (filename : str) (page_size : pagesize)
  : result pdf_document :=
  let story :=
    [ Paragraph (lit "<b>Full Data Report: " ++ filename ++ lit "</b>") "Title";
      Paragraph (lit "<i>Generated on: " ++ now ++ lit "</i>") "Normal";
      Spacer 1 12 ] in
  let header_data := [label_cells (columns df)] in
  header_table <- new_table header_data HeaderStyle ;;
  let total_rows := len df in
  chunk_tables <-
    mapM (fun i =>
            let chunk_df := iloc df i (i + chunk_size) in
            let chunk_data := values_tolist chunk_df in
            new_table chunk_data ChunkStyle)
         (py_range 0 total_rows chunk_size) ;;
  built {| doc_pagesize := page_size;
           story := story ++ [header_table] ++ chunk_tables |}.

(** The data of the tables of a story, in order: in a full-data document
    the header table, then the data chunks. *)
Definition tables_of (d : pdf_document) : list (list (list cell)) :=
  flat_map (fun f => match f with
                     | Table data _ => [data]
                     | _ => []
                     end) (story d).

(** ** Writing CSV ([DataFrame.to_csv(buffer, index=False)])

    pandas hands the header and each row to Python's [csv.writer] with the
    defaults: delimiter comma, quote char double quote, doubled quotes,
    minimal quoting, and the line terminator [os.linesep], taken here to be
    a newline.  A field is quoted when it holds the delimiter, the quote
    char or a character of the line terminator (recent Pythons also quote on
    a carriage return; the properties below are stated for text without
    one, where both agree).  A missing value is written as the empty
    text; a date as pandas formats the dates of its column. *)

Definition comma : ascii := ","%char.
Definition dquote : ascii := ascii_of_N 34.
Definition newline : ascii := ascii_of_N 10.

Definition is_comma (c : ascii) : bool := (code c =? 44)%N.
Definition is_quote (c : ascii) : bool := (code c =? 34)%N.
Definition is_newline (c : ascii) : bool := (code c =? 10)%N.

(** The characters that make the writer quote a field. *)
Definition needs_quoting (c : ascii) : bool :=
  is_comma c || is_quote c || is_newline c.

Definition escape_quotes (f : str) : str :=
  flat_map (fun c => if is_quote c then [c; c] else [c]) f.

Definition write_field (f : str) : str :=
  if existsb needs_quoting f
  then dquote :: escape_quotes f ++ [dquote]
  else f.

Fixpoint join (sep : ascii) (l : list str) : str :=
  match l with
  | [] => []
  | [x] => x
  | x :: t => x ++ sep :: join sep t
  end.

(** [writer.writerow]: a record that would be empty although it has a field
    (a single empty field) is written as a pair of quotes. *)
Definition writerow (fields : list str) : str :=
  let line := join comma (map write_field fields) in
  match fields, line with
  | _ :: _, [] => [dquote; dquote; newline]
  | _, _ => line ++ [newline]
  end.

(** The text of one value of a column. *)
Definition csv_field `{Kernels} (c : Series) (v : cell) : str :=
  match v with
  | CInt n => str_of_Z n
  | CFloat x => if is_nan x then [] else float_repr x
  | CBool b => if b then lit "True" else lit "False"
  | CStr s => s
  | CTime t => time_repr c t
  | CNaT => []
  end.

(** The fields of the records after the header, column by column. *)
Definition csv_records `{Kernels} (df : DataFrame) : list (list str) :=
  map (fun i => map (fun c => csv_field c (nth i (values c) nan_cell))
                    (series df))
      (seq 0 (index_len df)).

(** The fields of the header: a NaN label is written as the empty text. *)
Definition label_text (l : label) : str :=
  match l with
  | Text s => s
  | NaNLabel => []
  end.

Definition csv_header (df : DataFrame) : list str :=
  map label_text (columns df).

Definition to_csv `{Kernels} (df : DataFrame) : str :=
  writerow (csv_header df) ++ flat_map writerow (csv_records df).

(** ** Reading CSV ([pandas.read_csv(buffer)] with default arguments)

    The C tokenizer of pandas, for the defaults (delimiter comma, quote char
    double quote, doubled quotes, no escape or comment character, blank lines
    skipped, line terminators LF, CR and CRLF), run on the decoded text: every
    character it tests is ASCII, so this is the same as tokenizing the UTF-8
    bytes and decoding the fields.  The reader below stops at the shape of
    the frame, its column names and its rows of fields; [read_csv] goes on to
    infer each column's dtype, which changes neither. *)

Inductive tok_state :=
| START_RECORD | START_FIELD | IN_FIELD
| IN_QUOTED_FIELD | QUOTE_IN_QUOTED_FIELD
| EAT_CRNL | EAT_CRNL_NOP | WHITESPACE_LINE.

(** [cur_field] and [cur_line] are kept in reverse, [done_lines] too.  In
    [WHITESPACE_LINE], [cur_field] holds the blanks read so far on the line:
    the tokenizer backs up over them when the line turns out not to be
    blank.  [file_lines] counts the lines of the text that are behind the
    tokenizer, the skipped blank lines among them; a line break inside
    quotes does not count. *)
Record parser := {
  state : tok_state;
  cur_field : str;
  cur_line : list str;
  done_lines : list (list str);
  file_lines : nat
}.

Definition init_parser : parser :=
  {| state := START_RECORD; cur_field := []; cur_line := [];
     done_lines := []; file_lines := 0 |}.

Definition set_state (p : parser) (s : tok_state) : parser :=
  {| state := s; cur_field := cur_field p; cur_line := cur_line p;
     done_lines := done_lines p; file_lines := file_lines p |}.

Definition push_char (p : parser) (c : ascii) (s : tok_state) : parser :=
  {| state := s; cur_field := c :: cur_field p; cur_line := cur_line p;
     done_lines := done_lines p; file_lines := file_lines p |}.

Definition end_field (p : parser) (s : tok_state) : parser :=
  {| state := s; cur_field := [];
     cur_line := rev (cur_field p) :: cur_line p;
     done_lines := done_lines p; file_lines := file_lines p |}.

(** A blank line is skipped: [self->file_lines++] and the next state. *)
Definition skip_line (p : parser) (s : tok_state) : parser :=
  {| state := s; cur_field := []; cur_line := cur_line p;
     done_lines := done_lines p; file_lines := S (file_lines p) |}.

(** The header is line 0 ([header_end = 0]). *)
Definition header_end : nat := 0.

(** [end_line]: from the second data line on, a line with more fields than
    the line before it is an error, reported with its line number in the
    text (from 1); from the first data line on, a shorter line is padded
    with empty fields. *)
Definition end_line (p : parser) (s : tok_state) : result parser :=
  let fields := length (cur_line p) in
  let lines := length (done_lines p) in
  let ex_fields := match done_lines p with
                   | prev :: _ => length prev
                   | [] => 0
                   end in
  if negb (lines <=? header_end + 1) && (ex_fields <? fields)
  then Raise (Exn ParserError
                (lit "Error tokenizing data. C error: Expected "
                 ++ str_of_nat ex_fields ++ lit " fields in line "
                 ++ str_of_nat (S (file_lines p)) ++ lit ", saw "
                 ++ str_of_nat fields
                 ++ [newline]))
  else
    let padded :=
      if (header_end + 1 <=? lines) && (fields <? ex_fields)
      then rev (cur_line p) ++ repeat [] (ex_fields - fields)
      else rev (cur_line p) in
    Ok {| state := s; cur_field := []; cur_line := [];
          done_lines := padded :: done_lines p;
          file_lines := S (file_lines p) |}.

Definition is_blank (c : ascii) : bool :=
  (code c =? 32)%N || (code c =? 9)%N.

Definition step_start_field (p : parser) (c : ascii) : result parser :=
  if is_newline c then end_line (end_field p START_FIELD) START_RECORD
  else if is_cr c then Ok (end_field p EAT_CRNL)
  else if is_quote c then Ok (set_state p IN_QUOTED_FIELD)
  else if is_comma c then Ok (end_field p START_FIELD)
  else Ok (push_char p c IN_FIELD).

Definition step_in_field (p : parser) (c : ascii) : result parser :=
  if is_newline c then end_line (end_field p IN_FIELD) START_RECORD
  else if is_cr c then Ok (end_field p EAT_CRNL)
  else if is_comma c then Ok (end_field p START_FIELD)
  else Ok (push_char p c IN_FIELD).

Definition step_start_record (p : parser) (c : ascii) : result parser :=
  if is_newline c then Ok (skip_line p START_RECORD)
  else if is_cr c then Ok (skip_line p EAT_CRNL_NOP)
  else if is_blank c then Ok (push_char p c WHITESPACE_LINE)
  else step_start_field p c.

Definition step (p : parser) (c : ascii) : result parser :=
  match state p with
  | START_RECORD => step_start_record p c
  | WHITESPACE_LINE =>
      if is_newline c then Ok (skip_line p START_RECORD)
      else if is_cr c then Ok (skip_line p EAT_CRNL_NOP)
      else if is_blank c then Ok (push_char p c WHITESPACE_LINE)
      else step_in_field p c
  | START_FIELD => step_start_field p c
  | IN_FIELD => step_in_field p c
  | IN_QUOTED_FIELD =>
      if is_quote c then Ok (set_state p QUOTE_IN_QUOTED_FIELD)
      else Ok (push_char p c IN_QUOTED_FIELD)
  | QUOTE_IN_QUOTED_FIELD =>
      if is_quote c then Ok (push_char p c IN_QUOTED_FIELD)
      else if is_comma c then Ok (end_field p START_FIELD)
      else if is_newline c
      then end_line (end_field p QUOTE_IN_QUOTED_FIELD) START_RECORD
      else if is_cr c then Ok (end_field p EAT_CRNL)
      else Ok (push_char p c IN_FIELD)
  | EAT_CRNL =>
      if is_newline c then end_line p START_RECORD
      else if is_comma c
      then p' <- end_line p START_FIELD ;; Ok (end_field p' START_FIELD)
      else p' <- end_line p START_RECORD ;; step_start_record p' c
  | EAT_CRNL_NOP =>
      if is_newline c || is_comma c then Ok (set_state p START_RECORD)
      else step_start_record (set_state p START_RECORD) c
  end.

(** [parser_handle_eof] *)
Definition handle_eof (p : parser) : result parser :=
  match state p with
  | START_RECORD | WHITESPACE_LINE | EAT_CRNL_NOP => Ok p
  | IN_QUOTED_FIELD =>
      Raise (Exn ParserError
               (lit "Error tokenizing data. C error: EOF inside string starting at row "
                ++ str_of_nat (file_lines p)))
  | IN_FIELD | START_FIELD | QUOTE_IN_QUOTED_FIELD =>
      end_line (end_field p (state p)) START_RECORD
  | EAT_CRNL => end_line p START_RECORD
  end.

(** [tokenize_bytes]: the loop over the characters of the buffer. *)
Fixpoint run (p : parser) (s : str) : result parser :=
  match s with
  | [] => Ok p
  | c :: t => p' <- step p c ;; run p' t
  end.

Definition tokenize (s : str) : result (list (list str)) :=
  p <- run init_parser s ;;
  p' <- handle_eof p ;;
  Ok (rev (done_lines p')).

(** The header names: an empty name at position [i] becomes [Unnamed: i];
    then repeated names are made distinct, given names first and the
    unnamed ones after them, as [name.1], [name.2], ...  [counts] is the
    dictionary of the loop. *)
Definition counts_get (counts : list (str * nat)) (k : str) : nat :=
  match find (fun kv => str_eqb k (fst kv)) counts with
  | Some kv => snd kv
  | None => 0
  end.

Definition counts_set (counts : list (str * nat)) (k : str) (v : nat) :=
  (k, v) :: filter (fun kv => negb (str_eqb k (fst kv))) counts.

Definition unnamed (i : nat) (name : str) : str :=
  match name with
  | [] => lit "Unnamed: " ++ str_of_nat i
  | _ => name
  end.

Fixpoint mapi_from {A B} (f : nat -> A -> B) (i : nat) (l : list A) : list B :=
  match l with
  | [] => []
  | a :: t => f i a :: mapi_from f (S i) t
  end.

(** [f"{old_col}.{cur_count}"] *)
Definition mangled (old_col : str) (cur_count : nat) : str :=
  old_col ++ "."%char :: str_of_nat cur_count.

(** The inner [while cur_count > 0] loop.  It ends after at most one round
    per header entry; [fuel] bounds the rounds. *)
Fixpoint dedup_loop (fuel : nat) (old_col col : str) (cur_count : nat)
    (header : list str) (counts : list (str * nat))
  : option (str * nat * list (str * nat)) :=
  match cur_count with
  | 0 => Some (col, cur_count, counts)
  | _ =>
      match fuel with
      | 0 => None
      | S fuel' =>
          let counts := counts_set counts old_col (cur_count + 1) in
          let col := mangled old_col cur_count in
          if mem_str col header
          then dedup_loop fuel' old_col col (cur_count + 1) header counts
          else dedup_loop fuel' old_col col (counts_get counts col)
                          header counts
      end
  end.

Fixpoint set_nth {A} (i : nat) (x : A) (l : list A) : list A :=
  match l, i with
  | [], _ => []
  | _ :: t, 0 => x :: t
  | a :: t, S i' => a :: set_nth i' x t
  end.

Fixpoint dedup_names (order : list nat) (header : list str)
    (counts : list (str * nat)) : option (list str) :=
  match order with
  | [] => Some header
  | i :: rest =>
      let col := nth i header [] in
      match dedup_loop (S (length header)) col col (counts_get counts col)
                       header counts with
      | None => None
      | Some (col', cur_count, counts') =>
          dedup_names rest (set_nth i col' header)
                      (counts_set counts' col' (cur_count + 1))
      end
  end.

Definition is_empty_str (s : str) : bool :=
  match s with
  | [] => true
  | _ => false
  end.

Definition header_names (line : list str) : option (list str) :=
  let this_header := mapi_from unnamed 0 line in
  let idx := seq 0 (length line) in
  let unnamed_idx := filter (fun i => is_empty_str (nth i line [])) idx in
  let named_idx := filter (fun i => negb (is_empty_str (nth i line []))) idx in
  dedup_names (named_idx ++ unnamed_idx) this_header [].

Record raw_frame := { raw_names : list str; raw_rows : list (list str) }.

(** The first line is the header, the others are the rows.  (The last
    branch is never taken: [header_names] always gives names.) *)

Definition read_csv_raw (text : str) : result raw_frame :=
  lines <- tokenize text ;;
  match lines with
  | [] => Raise (Exn EmptyDataError "No columns to parse from file")
  | header :: rows =>
      match header_names header with
      | Some names => Ok {| raw_names := names; raw_rows := rows |}
      | None => Raise (Exn OtherError "header")
      end
  end.

(** ** The other renderers (app.py, lines 145-167)

    [to_excel] refuses a frame that does not fit on a sheet of 1048576 rows
    and 16384 columns; an [ExcelReport] is the sheet name and the frame that
    was written.  [to_csv] refuses nothing. *)

Inductive report :=
| PdfReport (doc : pdf_document)
| CsvReport (text : str)
| ExcelReport (sheet_name : str) (frame : DataFrame).

Definition max_sheet_rows : Z := 1048576.
Definition max_sheet_cols : Z := 16384.

Definition sheet_too_large (frame : DataFrame) : bool :=
  ((Z.of_nat (len frame) >? max_sheet_rows)
   || (Z.of_nat (length (series frame)) >? max_sheet_cols))%Z.

Definition to_excel (frame : DataFrame) (sheet_name : str) : result report :=
  if sheet_too_large frame
  then Raise (Exn ValueError
                (lit "This sheet is too large! Your sheet size is: "
                 ++ str_of_nat (len frame) ++ lit ", "
                 ++ str_of_nat (length (series frame))
                 ++ lit " Max sheet size is: " ++ str_of_Z max_sheet_rows
                 ++ lit ", " ++ str_of_Z max_sheet_cols))
  else Ok (ExcelReport sheet_name frame).

Definition generate_csv_report `{Kernels} (df : DataFrame) (report_type : str)
  : result report :=
  if str_eqb report_type "summary"
  then summary_df <- generate_summary_df df ;; Ok (CsvReport (to_csv summary_df))
  else Ok (CsvReport (to_csv df)).

Definition generate_excel_report `{Kernels} (df : DataFrame)
    (report_type : str) : result report :=
  if str_eqb report_type "summary"
  then summary_df <- generate_summary_df df ;;
       to_excel summary_df "Summary"
  else to_excel df "Full Data".

(** ** The request handler (app.py, lines 170-267)

    The web framework and the parsers are collaborators: [secure_filename]
    is werkzeug's, [read_csv] and [read_excel] are pandas' (a failure is the
    exception they raise), [now] is the clock's formatted time, and
    [accessor_message] is the text of the [AttributeError] of a refused
    [.str] accessor (its wording differs between versions of pandas).  What
    is known of [read_csv]: the frame it returns has a column, and every
    label is a [str]. *)

Definition text_labelled (df : ParsedFrame) : Prop :=
  p_columns df <> [] /\ forallb is_htext (p_labels df) = true.

Class Platform := {
  secure_filename : str -> str;
  read_csv : list Byte.byte -> result ParsedFrame;
  read_excel : list Byte.byte -> result ParsedFrame;
  now : str;
  accessor_message : list header_cell -> str;
  read_csv_labels : forall b df, read_csv b = Ok df -> text_labelled df
}.

(** Lines 204-206: [df.columns = df.columns.str.strip().str.lower()
    .str.replace(...).str.replace(...)]. *)
Definition sanitize_columns `{Platform} (df : ParsedFrame) : result DataFrame :=
  if str_accessor_ok (p_labels df)
  then Ok (set_columns df normalize)
  else Raise (Exn AttributeError (accessor_message (p_labels df))).

Definition MAX_FILE_SIZE : Z := 150 * 1024 * 1024.

Definition ALLOWED_EXTENSIONS : list str := [lit "csv"; lit "xlsx"].

(** app.py, lines 36-38.  The second conjunct is evaluated only when the
    name holds a dot. *)
Definition allowed_file (filename : str) : bool :=
  existsb is_dot filename
  && match rsplit_dot filename with
     | Some (_, ext) => mem_str (lower ext) ALLOWED_EXTENSIONS
     | None => false
     end.

(** The method of a request that reaches the view: [POST], or [GET] for
    the others (the route takes GET and POST, and Flask adds HEAD, which
    the view treats as GET). *)
Inductive http_method := GET | POST.

Record upload := { filename : str; content : list Byte.byte }.

Record request := {
  method : http_method;
  files_file : option upload;          (* request.files['file'] *)
  form_report_type : option str;       (* request.form['report_type'] *)
  form_output_format : option str;
  form_page_size : option str
}.

Inductive response :=
| Page                                              (* the upload form *)
| Json (status : Z) (error : str)                   (* jsonify({'error': ..}), status *)
| SendFile (body : report) (download_name : str) (mimetype : str).

(** What the handler does to the upload and with the generators, in order. *)
Inductive event :=
| FileRead
| ParseCsv
| ParseExcel
| Generate.

(** Handler steps: a step goes on with a value, returns a response, or
    raises; the log of events is threaded through. *)
Inductive outcome (A : Type) :=
| Next (a : A)
| Return (r : response)
| Throw (e : exn).
Arguments Next {A} a.
Arguments Return {A} r.
Arguments Throw {A} e.

Definition H (A : Type) := list event -> list event * outcome A.

Definition hret {A} (a : A) : H A := fun log => (log, Next a).

Definition hbind {A B} (m : H A) (k : A -> H B) : H B :=
  fun log =>
    match m log with
    | (log', Next a) => k a log'
    | (log', Return r) => (log', Return r)
    | (log', Throw e) => (log', Throw e)
    end.

Notation "x <~ m ;; k" := (hbind m (fun x => k))
  (at level 61, m at next level, right associativity).
Notation "m ;;; k" := (hbind m (fun _ => k))
  (at level 61, right associativity).

Definition emit (e : event) : H unit := fun log => (log ++ [e], Next tt).

Definition reply {A} (r : response) : H A := fun log => (log, Return r).

Definition raise {A} (e : exn) : H A := fun log => (log, Throw e).

(** A call that may raise, outside any inner [try]. *)
Definition call {A} (m : result A) : H A :=
  match m with
  | Ok a => hret a
  | Raise e => raise e
  end.

(** [try: df = parse(bytes) except Exception as e: return 400] *)
Definition try_parse (ev : event) (what : str) (m : result ParsedFrame)
  : H ParsedFrame :=
  emit ev ;;;
  match m with
  | Ok df => hret df
  | Raise e =>
      reply (Json 400 (lit "Failed to parse " ++ what ++ lit " file: "
                       ++ exn_msg e))
  end.

Definition form_get (v : option str) (default : str) : str :=
  match v with
  | Some s => s
  | None => default
  end.

(** Lines 216-223 *)
Definition select_page_size (page_size_str : str) : pagesize :=
  if str_eqb page_size_str "A3" then landscape A3
  else if str_eqb page_size_str "A2" then landscape A2
  else if str_eqb page_size_str "A1" then landscape A1
  else A4.

Definition pdf_mime : str := "application/pdf".
Definition csv_mime : str := "text/csv".
Definition xlsx_mime : str :=
  "application/vnd.openxmlformats-officedocument.spreadsheetml.sheet".

(** Lines 182-206: read the upload, check its size, parse it by the
    extension of its secured name and sanitise the column names.  The
    result is the secured file name, its text before the last dot, and the
    frame. *)
Definition ingest `{Platform} (file : upload) : H (str * str * DataFrame) :=
  emit FileRead ;;;
  let file_bytes := content file in
  (if (Z.of_nat (length file_bytes) >? MAX_FILE_SIZE)%Z
   then reply (Json 400 (lit "File is too large. Max size is "
                         ++ str_of_Z (MAX_FILE_SIZE / (1024 * 1024))
                         ++ lit "MB."))
   else hret tt) ;;;
  let filename := secure_filename (filename file) in
  parts <~ match rsplit_dot filename with
           | Some parts => hret parts
           | None => raise (Exn IndexError "list index out of range")
           end ;;
  let file_extension := lower (snd parts) in
  df <~ (if str_eqb file_extension "csv"
         then df <~ try_parse ParseCsv "CSV" (read_csv file_bytes) ;;
              hret (Some df)
         else if str_eqb file_extension "xlsx"
         then df <~ try_parse ParseExcel "Excel" (read_excel file_bytes) ;;
              hret (Some df)
         else hret None) ;;
  match df with
  | Some df =>
      df <~ call (sanitize_columns df) ;;
      hret (filename, fst parts, df)
  | None => raise (Exn AttributeError
                     "'NoneType' object has no attribute 'columns'")
  end.

(** Lines 208-261: choose the renderer by [output_format] and
    [report_type], name the download and send it. *)
Definition report_type_of (form : request) : str :=
  lower (form_get (form_report_type form) "summary").

Definition output_format_of (form : request) : str :=
  lower (form_get (form_output_format form) "pdf").

Definition page_size_of (form : request) : str :=
  form_get (form_page_size form) "A4".

Definition respond `{Kernels} `{ReportLab} `{Platform} (form : request)
    (filename stem : str) (df : DataFrame) : H response :=
  let report_type := report_type_of form in
  let output_format := output_format_of form in
  let page_size_str := page_size_of form in
  let download_name := stem in
  out <~
    (if str_eqb output_format "pdf"
     then
       let page_size := select_page_size page_size_str in
       if str_eqb report_type "summary"
       then emit Generate ;;;
            doc <~ call (generate_reportlab_pdf now df filename) ;;
            hret (Some (PdfReport doc),
                  download_name ++ lit "_summary_report.pdf", pdf_mime)
       else if str_eqb report_type "full_data"
       then emit Generate ;;;
            doc <~ call (generate_full_data_pdf now df filename page_size) ;;
            hret (Some (PdfReport doc),
                  download_name ++ lit "_full_data.pdf", pdf_mime)
       else hret (None, download_name, pdf_mime)
     else if str_eqb output_format "csv"
     then emit Generate ;;;
          rep <~ call (generate_csv_report df report_type) ;;
          hret (Some rep,
                if str_eqb report_type "summary"
                then download_name ++ lit "_summary_report.csv"
                else download_name ++ lit "_full_data.csv",
                csv_mime)
     else if str_eqb output_format "excel"
     then emit Generate ;;;
          rep <~ call (generate_excel_report df report_type) ;;
          hret (Some rep,
                if str_eqb report_type "summary"
                then download_name ++ lit "_summary_report.xlsx"
                else download_name ++ lit "_full_data.xlsx",
                xlsx_mime)
     else reply (Json 400 "Invalid output format selected")) ;;
  match out with
  | (None, _, _) => reply (Json 500 "Failed to generate report")
  | (Some report_file, download_name, mimetype) =>
      hret (SendFile report_file download_name mimetype)
  end.

(** Lines 182-261, the body of the outer [try]. *)
Definition handle_upload `{Kernels} `{ReportLab} `{Platform} (file : upload)
    (form : request) : H response :=
  parsed <~ ingest file ;;
  let '(filename, stem, df) := parsed in
  respond form filename stem df.

(** The two [except] clauses of the outer [try]. *)
Definition on_exception (e : exn) : response :=
  match exn_kind e with
  | EmptyDataError | ParserError =>
      Json 400 (lit "Failed to parse the file: " ++ exn_msg e)
  | _ => Json 500 (lit "An unexpected error occurred: " ++ exn_msg e)
  end.

Definition upload_and_analyze `{Kernels} `{ReportLab} `{Platform}
    (req : request)
  : list event * response :=
  match method req with
  | GET => ([], Page)
  | POST =>
      match files_file req with
      | None => ([], Json 400 "No file part in the request")
      | Some file =>
          if is_empty_str (filename file)
          then ([], Json 400 "No selected file")
          else if negb (allowed_file (filename file))
          then ([], Json 400 "File type not allowed. Please upload a CSV or Excel file.")
          else
            match handle_upload file req [] with
            | (log, Next r) => (log, r)
            | (log, Return r) => (log, r)
            | (log, Throw e) => (log, on_exception e)
            end
      end
  end.

(** ** Vocabulary of the statements, and inputs for the examples *)

(** A frame of [n] rows with one integer column. *)
Definition rows_frame (n : nat) : DataFrame :=
  {| series := [ {| name := "x"; dtype_of := Int64;
                    values := map (fun i => CInt (Z.of_nat i)) (seq 0 n) |} ];
     index_len := n |}.

(** Kernels that compute nothing: enough to run the model where the values
    of the statistics do not matter. *)
Definition example_kernels : Kernels :=
  {| numeric_stat := fun _ _ => 0%float;
     datetime_stat := fun _ _ => CNaT;
     object_stat := fun _ _ => nan_cell;
     float_of_int := fun _ => 0%float;
     datetime_item := fun v => v;
     float_repr := fun _ => lit "0.0";
     time_repr := fun _ _ => lit "2024-05-01";
     float_repr_chars := fun _ => eq_refl;
     time_repr_text := fun _ _ => eq_refl |}.

(** A layout that accepts every story, and one that accepts none. *)
Definition example_layout : ReportLab :=
  {| build := fun _ => Ok tt;
     build_raises := fun _ _ E => ltac:(discriminate E) |}.

Definition failing_layout : ReportLab :=
  {| build := fun _ => Raise (Exn LayoutError "Flowable too large on page");
     build_raises := fun _ _ E => ltac:(inversion E; reflexivity) |}.

(** A frame with one text column and no numeric column. *)
Definition text_frame : DataFrame :=
  {| series := [ {| name := "city"; dtype_of := Object;
                    values := [CStr "Oslo"; CStr "Lima"] |} ];
     index_len := 2 |}.

(** A frame without columns. *)
Definition no_columns_frame : DataFrame := {| series := []; index_len := 0 |}.

(** Two numeric columns named as [reset_index] names the index column. *)
Definition index_names_frame : DataFrame :=
  {| series := [ {| name := "index"; dtype_of := Int64;
                    values := [CInt 1; CInt 2] |};
                 {| name := "level_0"; dtype_of := Float64;
                    values := [CFloat 0.5; CFloat 1.5] |} ];
     index_len := 2 |}.

(** A numeric and a text column. *)
Definition mixed_frame : DataFrame :=
  {| series := [ {| name := "city"; dtype_of := Object;
                    values := [CStr "Oslo"; CStr "Lima"] |};
                 {| name := "temp"; dtype_of := Float64;
                    values := [CFloat 4.5; CFloat 19] |} ];
     index_len := 2 |}.

(** The note of the summary PDF for a frame without numeric columns
    (app.py, line 71). *)
Definition placeholder : flowable :=
  Paragraph "<i>No numeric columns found.</i>" "Italic".

(** The selectors of a Report Request, as the specification lists them. *)
Definition valid_output_format (s : str) : bool :=
  mem_str s [lit "pdf"; lit "csv"; lit "excel"].

Definition valid_report_type (s : str) : bool :=
  mem_str s [lit "summary"; lit "full_data"].

(** An upload [data.csv] holding [mixed_frame], on a platform whose parser
    reads it; werkzeug leaves this file name as it is. *)
Definition example_csv : str :=
  lit "city,temp" ++ [newline] ++ lit "Oslo,4.5" ++ [newline]
  ++ lit "Lima,19" ++ [newline].

Definition example_upload : upload :=
  {| filename := "data.csv"; content := map byte_of_ascii example_csv |}.

(** The platform of the examples reads the frame [df] from every upload,
    whose labels are text. *)
Definition reads_text (df : DataFrame)
    (Hcols : series df <> [])
    (Htext : forallb is_htext (p_labels (as_parsed df)) = true)
    (b : list Byte.byte) (df' : ParsedFrame)
    (E : Ok (as_parsed df) = Ok df') : text_labelled df' :=
  match E in (_ = r)
        return (match r with
                | Ok d => text_labelled d
                | Raise _ => True
                end) with
  | eq_refl =>
      conj (fun E0 : map _ (series df) = [] => Hcols (map_eq_nil _ _ E0))
           Htext
  end.

Definition no_text (b : list Byte.byte) (df : ParsedFrame) (e : exn)
    (E : Raise e = Ok df) : text_labelled df :=
  match E in (_ = r)
        return (match r with
                | Ok d => text_labelled d
                | Raise _ => True
                end) with
  | eq_refl => I
  end.

Definition accessor_text : str :=
  "Can only use .str accessor with string values!".

Definition reading (secure : str -> str) (df : DataFrame)
    (Hcols : series df <> [])
    (Htext : forallb is_htext (p_labels (as_parsed df)) = true)
    (sheet : ParsedFrame) : Platform :=
  {| secure_filename := secure;
     read_csv := fun _ => Ok (as_parsed df);
     read_excel := fun _ => Ok sheet;
     now := "2024-05-01 12:00";
     accessor_message := fun _ => accessor_text;
     read_csv_labels := @reads_text df Hcols Htext |}.

Definition mixed_frame_cols : series mixed_frame <> [] :=
  fun E => ltac:(discriminate E).

Definition example_platform : Platform :=
  @reading (fun s => s) mixed_frame mixed_frame_cols eq_refl
           (as_parsed mixed_frame).

Definition example_request (report_type output_format : str)
    (page_size : option str) : request :=
  {| method := POST;
     files_file := Some example_upload;
     form_report_type := Some report_type;
     form_output_format := Some output_format;
     form_page_size := page_size |}.


(** Logs that hold no generator call. *)
Definition only_ingest_events (l : list event) : Prop :=
  Forall (fun e => e = FileRead \/ e = ParseCsv \/ e = ParseExcel) l.

(** Text that survives a CSV round trip: it holds no carriage return, and
    in a frame of a single column it is not made of spaces and tabs only
    (such a line is a blank line to the reader). *)
Definition safe_text (single : bool) (s : str) : bool :=
  forallb (fun c => negb (is_cr c)) s
  && (negb single || is_empty_str s || negb (forallb is_blank s)).

Definition safe_cell (single : bool) (c : cell) : bool :=
  match c with
  | CStr s => safe_text single s
  | _ => true
  end.

Definition csv_safe (df : DataFrame) : bool :=
  let single := length (series df) =? 1 in
  forallb (fun c => safe_text single (label_text (name c))
                    && forallb (safe_cell single) (values c))
          (series df).

(** Frames whose CSV text does not read back as written: a repeated column
    name (the headers [a b] and [a_b], sanitised), an empty column name (a
    header cell of white space, sanitised), and a single text column with a
    cell of one space. *)
Definition repeated_name_frame : DataFrame :=
  set_columns
    {| p_columns := [ {| p_label := HText "a b"; p_dtype := Int64;
                         p_values := [CInt 1] |};
                      {| p_label := HText "a_b"; p_dtype := Int64;
                         p_values := [CInt 2] |} ];
       p_len := 1 |}
    normalize.

Definition empty_name_frame : DataFrame :=
  set_columns
    {| p_columns := [ {| p_label := HText " "; p_dtype := Int64;
                         p_values := [CInt 1] |};
                      {| p_label := HText "b"; p_dtype := Int64;
                         p_values := [CInt 2] |} ];
       p_len := 1 |}
    normalize.

(** A CSV text whose first header cell is one space. *)
Definition blank_header_csv : str :=
  lit " ,b" ++ [newline] ++ lit "1,2" ++ [newline].

Definition blank_cell_frame : DataFrame :=
  {| series := [ {| name := "note"; dtype_of := Object;
                    values := [CStr "x"; CStr " "; CStr "y"] |} ];
     index_len := 3 |}.

(** A character of an unquoted field: no comma, quote or newline (the
    writer would have quoted the field) and no carriage return. *)
Definition plain (c : ascii) : bool :=
  negb (needs_quoting c) && negb (is_cr c).

(** The state in which the tokenizer is after the text of a field that
    began in [START_FIELD], and after that of the first field of a
    record. *)
Definition end_state_field (f : str) : tok_state :=
  if existsb needs_quoting f then QUOTE_IN_QUOTED_FIELD
  else match f with
       | [] => START_FIELD
       | _ => IN_FIELD
       end.

Definition end_state_first (f : str) : tok_state :=
  if existsb needs_quoting f then QUOTE_IN_QUOTED_FIELD
  else match f with
       | [] => START_RECORD
       | _ => if forallb is_blank f then WHITESPACE_LINE else IN_FIELD
       end.

Definition no_cr (f : str) : bool := forallb (fun c => negb (is_cr c)) f.


(** A character that is neither a carriage return nor a space or tab. *)
Definition quiet (c : ascii) : Prop := is_cr c = false /\ is_blank c = false.

(** A frame whose text needs quoting. *)
Definition quoted_frame : DataFrame :=
  {| series :=
       [ {| name := "remark"; dtype_of := Object;
            values := [ CStr "a,b";
                        CStr (lit "say " ++ [dquote] ++ lit "hi" ++ [dquote]);
                        CStr (lit "two" ++ [newline] ++ lit "lines") ] |};
         {| name := "n"; dtype_of := Float64;
            values := [CFloat 1.5; CFloat nan; CFloat (-2)] |} ];
     index_len := 3 |}.

(** ** More vocabulary *)

(** No two underscores in a row. *)
Fixpoint no_adjacent_underscores (s : str) : bool :=
  match s with
  | c :: t =>
      match t with
      | d :: _ => negb (is_underscore c && is_underscore d)
      | [] => true
      end && no_adjacent_underscores t
  | [] => true
  end.

Definition dot : ascii := "."%char.

Definition head_not_underscore (s : str) : Prop :=
  match s with
  | c :: _ => is_underscore c = false
  | [] => True
  end.

(** The data chunks of a frame: its rows, cut every [chunk_size] rows. *)
Definition chunks_of `{Kernels} (df : DataFrame) : list (list (list cell)) :=
  map (fun k => slice (k * chunk_size) (k * chunk_size + chunk_size)
                      (values_tolist df))
      (seq 0 ((len df + (chunk_size - 1)) / chunk_size)).

(** The story of the full-data document of a frame. *)
Definition full_data_story `{Kernels} (now filename : str) (df : DataFrame)
  : list flowable :=
  [ Paragraph (lit "<b>Full Data Report: " ++ filename ++ lit "</b>") "Title";
    Paragraph (lit "<i>Generated on: " ++ now ++ lit "</i>") "Normal";
    Spacer 1 12;
    Table [label_cells (columns df)] HeaderStyle ]
  ++ map (fun d => Table d ChunkStyle) (chunks_of df).

(** The story of the summary document of a frame whose summary is
    [summary]. *)
Definition summary_story `{Kernels} (now filename : str)
    (df summary : DataFrame) : list flowable :=
  [ Paragraph (lit "<b>Data Analysis Report: " ++ filename ++ lit "</b>")
              "Title";
    Paragraph (lit "<i>Generated on: " ++ now ++ lit "</i>") "Normal";
    Spacer 1 12;
    Paragraph (lit "<b>Total Records:</b> " ++ str_of_nat (len df)) "Normal";
    Spacer 1 24;
    Paragraph "<b>Numeric Column Statistics:</b>" "h2";
    Table (label_cells (columns summary) :: values_tolist summary)
          SummaryStyle ].

Definition rows_of (f : flowable) : list (list cell) :=
  match f with
  | Table data _ => data
  | _ => []
  end.

(** The message for an upload above the size ceiling (app.py, line 185). *)
Definition too_large_message : str := "File is too large. Max size is 150MB.".

(** What a request can leave in the log. *)
Definition request_logs : list (list event) :=
  [ []; [FileRead];
    [FileRead; ParseCsv]; [FileRead; ParseExcel];
    [FileRead; ParseCsv; Generate]; [FileRead; ParseExcel; Generate] ].

(** A platform whose parsers fail. *)
Definition failing_platform : Platform :=
  {| secure_filename := fun s => s;
     read_csv := fun _ => Raise (Exn ParserError "Error tokenizing data");
     read_excel := fun _ => Raise (Exn OtherError "File is not a zip file");
     now := "2024-05-01 12:00";
     accessor_message := fun _ => accessor_text;
     read_csv_labels :=
       fun b df =>
         @no_text b df (Exn ParserError "Error tokenizing data") |}.

(** A platform whose [secure_filename] drops leading dots, as werkzeug's
    does, and leaves the rest of the name. *)
Fixpoint drop_dots (s : str) : str :=
  match s with
  | c :: t => if is_dot c then drop_dots t else s
  | [] => []
  end.

Definition dot_dropping_platform : Platform :=
  @reading drop_dots mixed_frame mixed_frame_cols eq_refl
           (as_parsed mixed_frame).

(** A platform whose parser reads [index_names_frame]. *)
Definition index_names_cols : series index_names_frame <> [] :=
  fun E => ltac:(discriminate E).

Definition index_names_platform : Platform :=
  @reading (fun s => s) index_names_frame index_names_cols eq_refl
           (as_parsed index_names_frame).

Definition post_request (file : upload) (report_type output_format
                                         page_size : option str) : request :=
  {| method := POST;
     files_file := Some file;
     form_report_type := report_type;
     form_output_format := output_format;
     form_page_size := page_size |}.

(** Sheets with header cells that are no text: a text and two years, and
    years only. *)
Definition mixed_sheet : ParsedFrame :=
  {| p_columns := [ {| p_label := HText "Name"; p_dtype := Object;
                       p_values := [CStr "Ada"] |};
                    {| p_label := HInt 2020; p_dtype := Int64;
                       p_values := [CInt 3] |};
                    {| p_label := HInt 2021; p_dtype := Float64;
                       p_values := [CFloat 4.5] |} ];
     p_len := 1 |}.

Definition year_sheet : ParsedFrame :=
  {| p_columns := [ {| p_label := HInt 2020; p_dtype := Int64;
                       p_values := [CInt 3] |};
                    {| p_label := HInt 2021; p_dtype := Float64;
                       p_values := [CFloat 4.5] |} ];
     p_len := 1 |}.

(** The sanitised label of a header cell, in the words of the amended
    claim: a text is trimmed and lowercased and each maximal run of
    characters outside [[a-z0-9]] becomes one underscore; any other header
    cell becomes NaN. *)
Definition sanitised_label (h : header_cell) : label :=
  match h with
  | HText name =>
      Text (re_sub_runs (fun c => negb (is_lower_alnum c)) [underscore]
                        (lower (strip name)))
  | _ => NaNLabel
  end.

(** A label made of word characters, coming from [name]; or NaN. *)
Definition word_label (h : header_cell) (l : label) : Prop :=
  match h with
  | HText name =>
      exists n, l = Text n
                /\ forallb is_word n = true
                /\ (n = [] <-> forallb is_space name = true)
  | _ => l = NaNLabel
  end.

(** A selector as the request gives it: the form field, or its default when
    the form does not hold it, in lower case. *)
Definition selected (field : option str) (default : str) : str :=
  lower (match field with
         | Some s => s
         | None => default
         end).

(** [werkzeug.utils.secure_filename] on a name of ASCII characters: path
    separators become spaces, runs of white space become one underscore,
    the characters outside [[A-Za-z0-9_.-]] are dropped, and dots and
    underscores are stripped from both ends.  (Before that, werkzeug
    decomposes the characters that are not ASCII and keeps the ASCII part;
    this is not modelled, such characters are dropped here.) *)
Definition is_ascii (c : ascii) : bool := (code c <? 128)%N.

Definition is_slash (c : ascii) : bool := (code c =? 47)%N.

Definition is_filename_char (c : ascii) : bool :=
  in_range 65 90 c || in_range 97 122 c || in_range 48 57 c
  || is_underscore c || is_dot c || (code c =? 45)%N.

Fixpoint lstrip_by (p : ascii -> bool) (s : str) : str :=
  match s with
  | c :: t => if p c then lstrip_by p t else s
  | [] => []
  end.

Definition strip_by (p : ascii -> bool) (s : str) : str :=
  rev (lstrip_by p (rev (lstrip_by p s))).

Definition secure_ascii (s : str) : str :=
  let spaced := map (fun c => if is_slash c then " "%char else c)
                    (filter is_ascii s) in
  let joined := re_sub_runs is_space [underscore] (strip spaced) in
  strip_by (fun c => is_dot c || is_underscore c)
           (filter is_filename_char joined).

Definition werkzeug_platform : Platform :=
  @reading secure_ascii mixed_frame mixed_frame_cols eq_refl
           (as_parsed mixed_frame).

(** Platforms whose spreadsheet parser reads the sheets above. *)
Definition mixed_sheet_platform : Platform :=
  @reading (fun s => s) mixed_frame mixed_frame_cols eq_refl mixed_sheet.

Definition year_sheet_platform : Platform :=
  @reading (fun s => s) mixed_frame mixed_frame_cols eq_refl year_sheet.

Definition example_sheet : upload :=
  {| filename := "data.xlsx"; content := [] |}.

(** The error of [to_excel] on a frame that does not fit on a sheet. *)
Definition sheet_error (frame : DataFrame) : exn :=
  Exn ValueError
      (lit "This sheet is too large! Your sheet size is: "
       ++ str_of_nat (len frame) ++ lit ", "
       ++ str_of_nat (length (series frame))
       ++ lit " Max sheet size is: " ++ str_of_Z max_sheet_rows
       ++ lit ", " ++ str_of_Z max_sheet_cols).

(** A sheet with a date column (one date missing), a numeric and a text
    column. *)
Definition dated_frame : DataFrame :=
  {| series := [ {| name := "when"; dtype_of := Datetime;
                    values := [CTime 1714521600; CNaT] |};
                 {| name := "temp"; dtype_of := Float64;
                    values := [CFloat 4.5; CFloat 19] |};
                 {| name := "city"; dtype_of := Object;
                    values := [CStr "Oslo"; CStr "Lima"] |} ];
     index_len := 2 |}.

(** The row labels of the summary of a frame with a date column. *)
Definition dated_rows (cols : list Series) : list str :=
  [ lit "count"; lit "mean"; lit "min"; lit "25%"; lit "50%"; lit "75%";
    lit "max" ]
  ++ (if existsb is_numeric cols then [lit "std"] else []).

(** * Properties *)

(** ** Column-name sanitising *)

Lemma underscore_not_alnum c :
  is_underscore c = true -> is_lower_alnum c = false.
Proof.
  unfold is_underscore, is_lower_alnum, in_range.
  intros E. apply N.eqb_eq in E. rewrite E. reflexivity.
Qed.

(** The two passes of the script amount to one pass over the class
    [[^a-z0-9]]. *)
Lemma two_passes_one_scan (b : bool) (s : str) :
  re_sub_scan is_underscore [underscore] b
    (re_sub_each not_word [underscore] s)
  = re_sub_scan (fun c => negb (is_lower_alnum c)) [underscore] b s.
Proof.
  revert b. induction s as [|c t IH]; intros b; simpl; [reflexivity|].
  unfold not_word, is_word.
  destruct (is_lower_alnum c) eqn:Ea; simpl.
  - destruct (is_underscore c) eqn:Eu.
    + apply underscore_not_alnum in Eu. congruence.
    + now rewrite IH.
  - destruct (is_underscore c) eqn:Eu; simpl.
    + rewrite Eu. now rewrite IH.
    + now rewrite IH.
Qed.

Lemma scan_chars (p : ascii -> bool) (b : bool) (s : str) :
  Forall (fun c => c = underscore \/ p c = false)
         (re_sub_scan p [underscore] b s).
Proof.
  revert b. induction s as [|c t IH]; intros b; simpl; [constructor|].
  destruct (p c) eqn:E.
  - destruct b; simpl; [apply IH|]. constructor; [now left | apply IH].
  - constructor; [now right | apply IH].
Qed.

Lemma scan_nil (p : ascii -> bool) (s : str) :
  re_sub_scan p [underscore] false s = [] <-> s = [].
Proof.
  split; [|now intros ->].
  destruct s as [|c t]; simpl; [reflexivity|].
  destruct (p c); discriminate.
Qed.

Lemma lstrip_nil (s : str) : lstrip s = [] <-> forallb is_space s = true.
Proof.
  induction s as [|c t IH]; simpl; [tauto|].
  destruct (is_space c); simpl; [exact IH|].
  split; discriminate.
Qed.

Lemma lstrip_all_space (s : str) :
  forallb is_space (lstrip s) = forallb is_space s.
Proof.
  induction s as [|c t IH]; simpl; [reflexivity|].
  destruct (is_space c) eqn:E; simpl; [exact IH|].
  now rewrite E.
Qed.

Lemma forallb_rev {A} (f : A -> bool) (l : list A) :
  forallb f (rev l) = forallb f l.
Proof.
  induction l as [|a t IH]; simpl; [reflexivity|].
  rewrite forallb_app, IH. simpl. rewrite andb_true_r. apply andb_comm.
Qed.

Lemma strip_nil (s : str) : strip s = [] <-> forallb is_space s = true.
Proof.
  unfold strip, rstrip.
  rewrite <- (lstrip_all_space s), <- (forallb_rev is_space (lstrip s)).
  rewrite <- lstrip_nil.
  split; intros E.
  - apply (f_equal (@rev ascii)) in E. now rewrite rev_involutive in E.
  - now rewrite E.
Qed.

Lemma normalize_one_scan (name : str) :
  normalize name
  = re_sub_runs (fun c => negb (is_lower_alnum c)) [underscore]
                (lower (strip name)).
Proof. apply two_passes_one_scan. Qed.

Lemma normalize_nil (name : str) :
  normalize name = [] <-> forallb is_space name = true.
Proof.
  rewrite normalize_one_scan. unfold re_sub_runs, lower.
  rewrite scan_nil, <- strip_nil.
  split; intros E; [|now rewrite E].
  now apply map_eq_nil in E.
Qed.

Lemma normalize_word_chars (name : str) :
  forallb is_word (normalize name) = true.
Proof.
  rewrite normalize_one_scan. unfold re_sub_runs.
  apply forallb_forall. intros c Hc.
  pose proof (scan_chars (fun c => negb (is_lower_alnum c)) false
                         (lower (strip name))) as F.
  rewrite Forall_forall in F. destruct (F c Hc) as [-> | E].
  - reflexivity.
  - unfold is_word. apply negb_false_iff in E. now rewrite E.
Qed.

(** C2 (as written) fails: with existing underscores next to each other, or
    next to a replaced character, the script's second pass merges them,
    while the wording keeps existing underscores unchanged. *)
Lemma normalize_merges_existing_underscores :
  normalize "a__b" = lit "a_b" /\ spec_normalize "a__b" = lit "a__b"
  /\ normalize "a_ b" = lit "a_b" /\ spec_normalize "a_ b" = lit "a__b".
Proof. repeat split; reflexivity. Qed.

Lemma set_columns_labels (df : ParsedFrame) (f : str -> str) :
  columns (set_columns df f) = map (str_method f) (p_labels df).
Proof.
  unfold columns, set_columns, p_labels. cbn [series].
  rewrite !map_map. reflexivity.
Qed.

Lemma accessor_granted_text (labels : list header_cell) :
  labels <> [] -> forallb is_htext labels = true ->
  str_accessor_ok labels = true.
Proof.
  intros Hne Ht. destruct labels as [|h t]; [congruence|].
  cbn [forallb] in Ht. apply andb_true_iff in Ht. destruct Ht as [Hh _].
  unfold str_accessor_ok. cbn [forallb].
  destruct h; try discriminate. reflexivity.
Qed.

Lemma accessor_refused_no_text (labels : list header_cell) :
  str_accessor_ok labels = false -> existsb is_htext labels = false.
Proof.
  unfold str_accessor_ok. intros E. apply negb_false_iff in E.
  apply orb_true_iff in E. rewrite orb_true_iff in E.
  induction labels as [|h t IH]; [reflexivity|].
  cbn [forallb existsb] in *. rewrite !andb_true_iff in E.
  destruct h; cbn in *; try (apply IH; tauto);
    destruct E as [[[E _] | [E _]] | [E _]]; discriminate.
Qed.

Lemma text_labelled_granted (df : ParsedFrame) :
  text_labelled df -> str_accessor_ok (p_labels df) = true.
Proof.
  intros [Hne Ht]. apply accessor_granted_text; [|exact Ht].
  unfold p_labels. intros E. apply map_eq_nil in E. contradiction.
Qed.

(** C2 (amended): line 205 on a parsed frame.  When the labels are granted
    the [.str] accessor (they are not all numbers, all booleans or all
    dates, and there is one: so for every frame read from CSV), each label
    that is a text is normalised by exactly: trim surrounding white space,
    lowercase, then replace each maximal run of characters outside
    [[a-z0-9]] (underscores belong to the runs) by a single underscore;
    characters in [[a-z0-9]] are kept; a label that is no text becomes NaN;
    the columns keep their types and values.  Otherwise no label is a text
    and the line raises an [AttributeError]. *)
Theorem normalize_collapses_non_alnum_runs `{Platform} (df : ParsedFrame) :
  match sanitize_columns df with
  | Ok df' =>
      str_accessor_ok (p_labels df) = true
      /\ columns df' = map sanitised_label (p_labels df)
      /\ map dtype_of (series df') = map p_dtype (p_columns df)
      /\ map values (series df') = map p_values (p_columns df)
      /\ len df' = p_len df
  | Raise e =>
      str_accessor_ok (p_labels df) = false
      /\ exn_kind e = AttributeError
      /\ existsb is_htext (p_labels df) = false
  end
  /\ (text_labelled df -> exists df', sanitize_columns df = Ok df').
Proof.
  unfold sanitize_columns. split.
  - destruct (str_accessor_ok (p_labels df)) eqn:E.
    + split; [reflexivity|]. split.
      * rewrite set_columns_labels. apply map_ext. intros [name| | | |];
          try reflexivity.
        cbn [str_method sanitised_label]. f_equal. apply normalize_one_scan.
      * unfold set_columns, len. cbn [series index_len].
        rewrite !map_map. repeat split; reflexivity.
    + split; [reflexivity|]. split; [reflexivity|].
      now apply accessor_refused_no_text.
  - intros Ht. rewrite (text_labelled_granted Ht). now eexists.
Qed.

(** C8 (as written) fails: a header cell made of white space only is read
    as a column name, and its normalisation is empty; and in a sheet whose
    header cells are a text and two years, the years become NaN, which is
    no name. *)
Lemma normalize_blank_name_is_empty :
  read_csv_raw blank_header_csv
  = Ok {| raw_names := [lit " "; lit "b"];
          raw_rows := [ [lit "1"; lit "2"] ] |}
  /\ map normalize [lit " "; lit "b"] = [ []; lit "b" ]
  /\ columns empty_name_frame = [ Text []; Text "b" ]
  /\ str_accessor_ok (p_labels mixed_sheet) = true
  /\ columns (set_columns mixed_sheet normalize)
     = [ Text "name"; NaNLabel; NaNLabel ].
Proof. repeat split; reflexivity. Qed.

(** C8 (amended): after line 205 every label that was a text is a name that
    consists only of characters of [[a-z0-9_]], and it is empty exactly
    when the original name holds nothing but white space; every label that
    was no text (a number, a boolean or a date in the header of a sheet) is
    NaN.  The frame after line 205 is this one whenever the line does not
    raise, and it does not raise on a frame read from CSV. *)
Theorem normalized_names_word_chars `{Platform} (df : ParsedFrame) :
  Forall2 word_label (p_labels df) (columns (set_columns df normalize))
  /\ (forall df', sanitize_columns df = Ok df' ->
                  df' = set_columns df normalize)
  /\ (text_labelled df ->
      sanitize_columns df = Ok (set_columns df normalize)).
Proof.
  split; [|split].
  - rewrite set_columns_labels.
    induction (p_labels df) as [|h t IH]; cbn [map]; constructor; [|exact IH].
    destruct h; cbn [word_label str_method]; try reflexivity.
    eexists. split; [reflexivity|]. split.
    + apply normalize_word_chars.
    + apply normalize_nil.
  - unfold sanitize_columns. intros df'.
    destruct (str_accessor_ok (p_labels df)); [|discriminate].
    intros E. now inversion E.
  - intros Ht. unfold sanitize_columns.
    now rewrite (text_labelled_granted Ht).
Qed.

(** ** Full-data PDF: the chunked tables *)

Lemma firstn_seq_min (n start len : nat) :
  firstn n (seq start len) = seq start (Nat.min n len).
Proof.
  revert start len. induction n as [|n IH]; intros start [|len]; simpl;
    try reflexivity.
  now rewrite IH.
Qed.

Lemma map_seq_shift {A} (f : nat -> A) (i m : nat) :
  map f (seq i m) = map (fun k => f (i + k)) (seq 0 m).
Proof.
  revert i. induction m as [|m IH]; intros i; [reflexivity|].
  simpl. rewrite Nat.add_0_r. f_equal.
  rewrite (IH (S i)), <- seq_shift, map_map.
  apply map_ext. intros k. f_equal. lia.
Qed.

Lemma nth_slice {A} (l : list A) (i j k : nat) (d : A) :
  k < j - i -> nth k (slice i j l) d = nth (i + k) l d.
Proof.
  intros Hk. unfold slice. rewrite nth_firstn.
  apply Nat.ltb_lt in Hk. rewrite Hk. apply nth_skipn.
Qed.

Lemma common_dtype_iloc (df : DataFrame) (i j : nat) :
  common_dtype (series (iloc df i j)) = common_dtype (series df).
Proof.
  unfold common_dtype, iloc. cbn [series]. now rewrite map_map.
Qed.

(** [df.iloc[i:j].values.tolist()] is the slice [i:j] of
    [df.values.tolist()]: a slice of rows has the dtypes of the frame. *)
Lemma values_tolist_iloc `{Kernels} (df : DataFrame) (i j : nat) :
  values_tolist (iloc df i j) = slice i j (values_tolist df).
Proof.
  unfold values_tolist. rewrite common_dtype_iloc.
  unfold slice. cbn [iloc series index_len].
  rewrite skipn_map, firstn_map, skipn_seq, firstn_seq_min. cbn [Nat.add].
  destruct (Nat.le_gt_cases i (index_len df)) as [Hi | Hi].
  - replace (Nat.min j (index_len df) - Nat.min i (index_len df))
      with (Nat.min (j - i) (index_len df - i)) by lia.
    rewrite (map_seq_shift
               (fun k => map (as_dtype (common_dtype (series df)))
                             (row_at (series df) k)) i).
    apply map_ext_in. intros k Hk. apply in_seq in Hk. f_equal.
    unfold row_at. rewrite map_map. cbn [values].
    apply map_ext. intros c. apply nth_slice. lia.
  - replace (Nat.min j (index_len df) - Nat.min i (index_len df)) with 0 by lia.
    replace (index_len df - i) with 0 by lia.
    now rewrite Nat.min_0_r.
Qed.

Lemma length_values_tolist `{Kernels} (df : DataFrame) :
  length (values_tolist df) = len df.
Proof. unfold values_tolist. now rewrite length_map, length_seq. Qed.

Lemma length_slice {A} (l : list A) (i j : nat) :
  length (slice i j l) = Nat.min (j - i) (length l - i).
Proof. unfold slice. now rewrite length_firstn, length_skipn. Qed.

Lemma slice_shift {A} (l : list A) (s a b : nat) :
  slice (s + a) (s + b) l = slice a b (skipn s l).
Proof.
  unfold slice. rewrite skipn_skipn.
  replace (s + b - (s + a)) with (b - a) by lia.
  now rewrite (Nat.add_comm a s).
Qed.

(** Consecutive slices of width [step] that cover the list give it back. *)
Lemma concat_slices {A} (step m : nat) (l : list A) :
  length l <= m * step ->
  concat (map (fun k => slice (k * step) (k * step + step) l) (seq 0 m)) = l.
Proof.
  revert l. induction m as [|m IH]; intros l Hl.
  - simpl in *. destruct l; [reflexivity | simpl in Hl; lia].
  - rewrite <- cons_seq, <- seq_shift, map_cons, map_map. simpl concat.
    rewrite (map_ext _ (fun k => slice (k * step) (k * step + step)
                                       (skipn step l))).
    + rewrite IH.
      * unfold slice. simpl. rewrite Nat.sub_0_r. apply firstn_skipn.
      * rewrite length_skipn. simpl in Hl. lia.
    + intros k. simpl.
      replace (step + k * step + step) with (step + (k * step + step)) by lia.
      apply slice_shift.
Qed.

Lemma ceil_div_covers (n step : nat) :
  0 < step -> n <= (n + (step - 1)) / step * step.
Proof.
  intros Hs.
  pose proof (Nat.div_mod_eq (n + (step - 1)) step) as E.
  pose proof (Nat.mod_upper_bound (n + (step - 1)) step) as B.
  nia.
Qed.

Lemma ceil_div_last (n step k : nat) :
  0 < step -> k < (n + (step - 1)) / step -> k * step < n.
Proof.
  intros Hs Hk.
  pose proof (Nat.div_mod_eq (n + (step - 1)) step) as E.
  nia.
Qed.

Lemma mapM_ok {A B} (f : A -> result B) (g : A -> B) (l : list A) :
  (forall a, In a l -> f a = Ok (g a)) -> mapM f l = Ok (map g l).
Proof.
  induction l as [|a t IH]; intros Hf; simpl; [reflexivity|].
  rewrite (Hf a (or_introl eq_refl)). simpl.
  rewrite IH; [reflexivity|]. intros b Hb. apply Hf. now right.
Qed.

Lemma length_row_at (cols : list Series) (i : nat) :
  length (row_at cols i) = length cols.
Proof. unfold row_at. apply length_map. Qed.

(** A table whose first row has a cell can be built. *)
Lemma new_table_ok (row : list cell) (rows : list (list cell))
    (style : table_style) :
  row <> [] -> new_table (row :: rows) style = Ok (Table (row :: rows) style).
Proof.
  intros Hrow. unfold new_table.
  assert (E : list_max (map (@length cell) (row :: rows)) <> 0).
  { change (Nat.max (length row) (list_max (map (@length cell) rows)) <> 0).
    destruct row as [|c row]; [congruence|].
    pose proof (Nat.le_max_l (length (c :: row))
                  (list_max (map (@length cell) rows))) as L.
    simpl length in *. lia. }
  apply Nat.eqb_neq in E. rewrite E. reflexivity.
Qed.

Lemma new_table_rows_ok (df : DataFrame) (rows : list (list cell))
    (style : table_style) :
  series df <> [] -> rows <> [] ->
  Forall (fun r => length r = length (series df)) rows ->
  new_table rows style = Ok (Table rows style).
Proof.
  intros Hc Hr Hall. destruct rows as [|row rows]; [congruence|].
  apply new_table_ok. inversion Hall as [|? ? Hlen _]; subst.
  destruct row; [|discriminate]. simpl in Hlen.
  destruct (series df); [congruence | discriminate].
Qed.

Lemma rows_of_frame_width `{Kernels} (df : DataFrame) :
  Forall (fun r => length r = length (series df)) (values_tolist df).
Proof.
  apply Forall_forall. intros r Hr. unfold values_tolist in Hr.
  apply in_map_iff in Hr. destruct Hr as [i [<- _]].
  rewrite length_map. apply length_row_at.
Qed.

Lemma in_firstn {A} (x : A) (n : nat) (l : list A) :
  In x (firstn n l) -> In x l.
Proof.
  revert l. induction n as [|n IH]; intros [|a l]; simpl; try tauto.
  intros [E | H]; [now left | right; now apply IH].
Qed.

Lemma in_skipn {A} (x : A) (n : nat) (l : list A) :
  In x (skipn n l) -> In x l.
Proof.
  revert l. induction n as [|n IH]; intros [|a l]; simpl; try tauto.
  intros H. right. now apply IH.
Qed.

Lemma Forall_slice {A} (P : A -> Prop) (l : list A) (i j : nat) :
  Forall P l -> Forall P (slice i j l).
Proof.
  intros H. unfold slice. apply Forall_forall. intros x Hx.
  apply in_firstn, in_skipn in Hx.
  rewrite Forall_forall in H. now apply H.
Qed.

(** Slicing a list of [n] items into [ceil(n / step)] consecutive slices
    of width [step]. *)
Lemma chunk_slices_spec {A} (step : nat) (l : list A) :
  0 < step ->
  let chunks :=
    map (fun k => slice (k * step) (k * step + step) l)
        (seq 0 ((length l + (step - 1)) / step)) in
  concat chunks = l
  /\ Forall (fun d => 1 <= length d <= step) chunks
  /\ (step < length l ->
      1 < length chunks /\ Forall (fun d => length d < length l) chunks)
  /\ (1 <= length l <= step -> chunks = [l])
  /\ (length l = 0 -> chunks = []).
Proof.
  intros Hstep chunks. subst chunks.
  assert (Hlen : forall k, k < (length l + (step - 1)) / step ->
            length (slice (k * step) (k * step + step) l)
            = Nat.min step (length l - k * step)
            /\ k * step < length l).
  { intros k Hk. rewrite length_slice. split.
    - f_equal. lia.
    - now apply ceil_div_last. }
  split; [|split; [|split; [|split]]].
  - apply concat_slices. now apply ceil_div_covers.
  - apply Forall_forall. intros d Hd. apply in_map_iff in Hd.
    destruct Hd as [k [<- Hk]]. apply in_seq in Hk.
    destruct (Hlen k) as [-> Hlt]; lia.
  - intros Hbig. split.
    + rewrite length_map, length_seq.
      apply (Nat.div_le_lower_bound _ step 2); lia.
    + apply Forall_forall. intros d Hd. apply in_map_iff in Hd.
      destruct Hd as [k [<- Hk]]. apply in_seq in Hk.
      destruct (Hlen k) as [-> Hlt]; lia.
  - intros [H1 H2].
    assert (E : (length l + (step - 1)) / step = 1).
    { symmetry. apply Nat.div_unique with (r := length l - 1); lia. }
    rewrite E. cbn [seq map]. f_equal.
    rewrite Nat.mul_0_l, Nat.add_0_l. unfold slice.
    rewrite Nat.sub_0_r, skipn_0. now apply firstn_all2.
  - intros H0. rewrite H0, Nat.add_0_l.
    rewrite Nat.div_small by lia. reflexivity.
Qed.

(** The document that the full-data generator hands to [doc.build], for a
    frame with a column. *)
Lemma full_data_pdf_built `{Kernels} `{ReportLab} (now filename : str)
    (page_size : pagesize) (df : DataFrame) :
  series df <> [] ->
  generate_full_data_pdf now df filename page_size
  = built {| doc_pagesize := page_size;
             story := full_data_story now filename df |}.
Proof.
  intros Hcols.
  assert (Hstep : 0 < chunk_size) by (unfold chunk_size; apply Nat.lt_0_succ).
  pose proof (chunk_slices_spec (values_tolist df) Hstep) as Hspec.
  cbv zeta in Hspec. rewrite length_values_tolist in Hspec.
  destruct Hspec as (_ & Hsz & _).
  unfold generate_full_data_pdf.
  rewrite new_table_ok.
  2:{ unfold label_cells, columns.
      destruct (series df); [congruence | discriminate]. }
  cbn [rbind].
  rewrite (mapM_ok _ (fun i => Table (slice i (i + chunk_size)
                                            (values_tolist df)) ChunkStyle)).
  - cbn [rbind]. unfold py_range, full_data_story, chunks_of.
    rewrite !map_map. rewrite Nat.sub_0_r. reflexivity.
  - intros i Hi. rewrite values_tolist_iloc.
    apply (new_table_rows_ok df); [exact Hcols | | ].
    + unfold py_range in Hi. apply in_map_iff in Hi.
      destruct Hi as [k [<- Hk]]. rewrite Nat.sub_0_r in Hk.
      rewrite Forall_forall in Hsz. rewrite Nat.add_0_l.
      assert (Hin : In (slice (k * chunk_size) (k * chunk_size + chunk_size)
                              (values_tolist df))
                       (map (fun k => slice (k * chunk_size)
                                            (k * chunk_size + chunk_size)
                                            (values_tolist df))
                            (seq 0 ((len df + (chunk_size - 1))
                                    / chunk_size)))).
      { apply in_map_iff. now exists k. }
      apply Hsz in Hin. intros E. rewrite E in Hin.
      cbn [length] in Hin. lia.
    + apply Forall_slice, rows_of_frame_width.
Qed.

(** C1 (as written) fails twice: a frame without rows gets no data table
    at all, only the header table; and for a frame of one row (of any
    number of rows up to 5000) the single data table holds the entire
    dataset. *)
Lemma full_data_pdf_small_frames :
  (exists doc,
     @generate_full_data_pdf example_kernels example_layout
       "now" (rows_frame 0) "f.csv" A4 = Ok doc
     /\ tables_of doc = [ [ [CStr "x"] ] ])
  /\ (exists doc,
        @generate_full_data_pdf example_kernels example_layout
          "now" (rows_frame 1) "f.csv" A4 = Ok doc
        /\ tables_of doc = [ [ [CStr "x"] ]; [ [CInt 0] ] ]
        /\ @values_tolist example_kernels (rows_frame 1) = [ [CInt 0] ]).
Proof. split; eexists; repeat split; reflexivity. Qed.

(** C1 (amended): for every frame with at least one column, full-data PDF
    rendering appends one header-only table followed by data tables built
    from the consecutive 5000-row slices of the frame, one per started
    slice: a frame with more than 5000 rows gives more than one data table
    and none of them holds the entire dataset, a frame with 1 to 5000 rows
    gives exactly one data table, a frame without rows gives none; every
    data table holds between 1 and 5000 rows.  The document with these
    tables is what the generator hands to [doc.build], and what it returns
    when [doc.build] accepts it. *)
Theorem full_data_pdf_chunked `{Kernels} `{ReportLab} (now filename : str)
    (page_size : pagesize) (df : DataFrame) :
  series df <> [] ->
  exists doc chunks,
    generate_full_data_pdf now df filename page_size = built doc
    /\ chunk_size = 5000
    /\ tables_of doc = [label_cells (columns df)] :: chunks
    /\ chunks = map (fun k => slice (k * chunk_size)
                                    (k * chunk_size + chunk_size)
                                    (values_tolist df))
                    (seq 0 ((len df + (chunk_size - 1)) / chunk_size))
    /\ concat chunks = values_tolist df
    /\ Forall (fun d => 1 <= length d <= chunk_size) chunks
    /\ (chunk_size < len df ->
        1 < length chunks /\ Forall (fun d => length d < len df) chunks)
    /\ (1 <= len df <= chunk_size -> chunks = [values_tolist df])
    /\ (len df = 0 -> chunks = []).
Proof.
  intros Hcols.
  assert (Hstep : 0 < chunk_size) by (unfold chunk_size; apply Nat.lt_0_succ).
  pose proof (chunk_slices_spec (values_tolist df) Hstep) as Hspec.
  cbv zeta in Hspec. rewrite length_values_tolist in Hspec.
  destruct Hspec as (Hcat & Hsz & Hbig & Hone & Hzero).
  exists {| doc_pagesize := page_size;
            story := full_data_story now filename df |}, (chunks_of df).
  split; [now apply full_data_pdf_built|]. split; [reflexivity|]. split.
  - unfold tables_of, full_data_story. cbn [story app flat_map]. f_equal.
    induction (chunks_of df) as [|d t IH]; [reflexivity|].
    cbn [map flat_map app]. now rewrite IH.
  - unfold chunks_of. repeat split; auto; try apply Hbig; auto.
Qed.

(** A frame of 5001 rows: hypothesis and conclusion of the theorem, with
    two data tables of 5000 rows and of 1 row; the layout of the example
    accepts the document. *)
Lemma full_data_pdf_chunked_witness :
  series (rows_frame (chunk_size + 1)) <> []
  /\ exists doc chunks,
       @generate_full_data_pdf example_kernels example_layout
         "now" (rows_frame (chunk_size + 1)) "f.csv" (landscape A3)
       = Ok doc
       /\ tables_of doc = [ [CStr "x"] ] :: chunks
       /\ map (@length (list cell)) chunks = [chunk_size; 1].
Proof.
  split; [discriminate|].
  destruct (@full_data_pdf_chunked example_kernels example_layout
              "now" "f.csv" (landscape A3)
              (rows_frame (chunk_size + 1)))
    as (doc & chunks & Hgen & _ & Htab & Hch & _);
    [discriminate|].
  exists doc, chunks. split; [exact Hgen|]. split; [exact Htab|].
  rewrite Hch. vm_compute. reflexivity.
Defined.

(** ** The summary frame *)

Lemma str_eqb_eq (a b : str) : str_eqb a b = true <-> a = b.
Proof.
  revert b. induction a as [|x a IH]; intros [|y b]; simpl;
    try (split; [discriminate | congruence]); [tauto|].
  rewrite andb_true_iff, Ascii.eqb_eq, IH.
  split; [intros [-> ->]; reflexivity | intros E; now inversion E].
Qed.

Lemma str_eqb_refl (a : str) : str_eqb a a = true.
Proof. now apply str_eqb_eq. Qed.

Lemma mem_str_In (a : str) (l : list str) : mem_str a l = true <-> In a l.
Proof.
  unfold mem_str. rewrite existsb_exists. split.
  - intros [x [Hx E]]. apply str_eqb_eq in E. now subst.
  - intros H. exists a. split; [exact H | apply str_eqb_refl].
Qed.

Lemma label_is_eq (s : str) (l : label) :
  label_is s l = true <-> l = Text s.
Proof.
  destruct l as [t|]; cbn [label_is]; [|split; discriminate].
  rewrite str_eqb_eq. split; [now intros -> | intros E; now inversion E].
Qed.

Lemma mem_label_In (s : str) (l : list label) :
  mem_label s l = true <-> In (Text s) l.
Proof.
  unfold mem_label. rewrite existsb_exists. split.
  - intros [x [Hx E]]. apply label_is_eq in E. now subst.
  - intros Hin. exists (Text s). split; [exact Hin | now apply label_is_eq].
Qed.

Lemma mem_label_false (s : str) (l : list label) :
  mem_label s l = false <-> ~ In (Text s) l.
Proof.
  rewrite <- mem_label_In. destruct (mem_label s l); split; congruence.
Qed.

Lemma insert_same_length (L : list str) (k : nat) :
  insert_by_length L (repeat L k) = repeat L (S k).
Proof.
  induction k as [|k IH]; [reflexivity|].
  cbn [repeat insert_by_length]. rewrite Nat.ltb_irrefl, IH. reflexivity.
Qed.

Lemma sort_same_length (L : list str) (n : nat) :
  sort_by_length (repeat L n) = repeat L n.
Proof.
  unfold sort_by_length.
  enough (G : forall k, fold_left (fun acc x => insert_by_length x acc)
                                  (repeat L n) (repeat L k)
                        = repeat L (n + k)).
  { specialize (G 0). now rewrite Nat.add_0_r in G. }
  induction n as [|n IH]; intros k; [reflexivity|].
  cbn [repeat fold_left]. rewrite insert_same_length, IH.
  f_equal. lia.
Qed.

Lemma merge_numeric_labels (n : nat) :
  merge_labels (repeat numeric_labels (S n)) = numeric_labels.
Proof.
  unfold merge_labels. cbn [repeat fold_left].
  change (fold_left _ numeric_labels []) with numeric_labels.
  induction n as [|n IH]; [reflexivity|].
  cbn [repeat fold_left]. exact IH.
Qed.

Lemma filter_all_numeric (cols : list Series) :
  Forall (fun c => is_numeric c = true) (filter is_numeric cols).
Proof. apply Forall_forall. intros c Hc. now apply filter_In in Hc. Qed.

(** Without date columns, the described columns are the numeric ones. *)
Lemma filter_described_no_dates (cols : list Series) :
  filter is_datetime cols = [] ->
  filter is_described cols = filter is_numeric cols.
Proof.
  induction cols as [|c t IH]; [reflexivity|].
  cbn [filter]. unfold is_described at 1.
  destruct (is_datetime c) eqn:Ed; [discriminate|].
  intros Ht. rewrite orb_false_r. now rewrite (IH Ht).
Qed.

Lemma select_data_numeric (cols : list Series) :
  filter is_numeric cols <> [] -> filter is_datetime cols = [] ->
  select_data cols = filter is_numeric cols.
Proof.
  intros Hnum Hdate. unfold select_data.
  rewrite (filter_described_no_dates _ Hdate).
  now destruct (filter is_numeric cols).
Qed.

Lemma describe_1d_numeric `{Kernels} (c : Series) :
  is_numeric c = true ->
  describe_1d c
  = {| d_dtype := Float64;
       d_items := map (fun s => (stat_label s,
                                 CFloat (numeric_stat s (values c))))
                      numeric_stats |}.
Proof. intros E. unfold describe_1d. now rewrite E. Qed.

Lemma lookup_numeric_labels (f : stat -> cell) :
  map (fun l => lookup_label l (map (fun s => (stat_label s, f s))
                                    numeric_stats))
      numeric_labels
  = map f numeric_stats.
Proof. reflexivity. Qed.

Lemma map_const_repeat {A B} (f : A -> B) (b : B) (l : list A) :
  Forall (fun a => f a = b) l -> map f l = repeat b (length l).
Proof.
  induction 1 as [|a l E _ IH]; simpl; [reflexivity | now rewrite E, IH].
Qed.

(** [describe] of a frame with a numeric column and no date column: the
    eight statistics of each numeric column, in the fixed order. *)
Lemma describe_numeric `{Kernels} (df : DataFrame) :
  filter is_numeric (series df) <> [] ->
  filter is_datetime (series df) = [] ->
  describe df
  = Ok {| d_index := numeric_labels;
          d_series :=
            map (fun c => {| name := name c; dtype_of := Float64;
                             values := map (fun s => CFloat (numeric_stat s
                                                               (values c)))
                                           numeric_stats |})
                (filter is_numeric (series df)) |}.
Proof.
  intros Hnum Hdate. unfold describe.
  destruct (series df) as [|c0 cols] eqn:Es; [now elim Hnum|].
  rewrite <- Es in *. clear Es c0 cols.
  rewrite (select_data_numeric _ Hnum Hdate).
  set (nums := filter is_numeric (series df)) in *.
  assert (Hall : Forall (fun c => is_numeric c = true) nums)
    by apply filter_all_numeric.
  assert (Hlab : reorder_columns (map describe_1d nums) = numeric_labels).
  { unfold reorder_columns. rewrite map_map.
    rewrite map_const_repeat with (b := numeric_labels).
    - rewrite sort_same_length.
      destruct nums as [|c t]; [now elim Hnum|]. apply merge_numeric_labels.
    - eapply Forall_impl; [|exact Hall]. intros c Hc.
      rewrite (describe_1d_numeric _ Hc). reflexivity. }
  cbv zeta. rewrite Hlab. f_equal. f_equal.
  clear Hnum Hlab. induction Hall as [|c t Hc _ IH]; [reflexivity|].
  cbn [map combine]. rewrite IH. f_equal.
  cbn [fst snd]. rewrite (describe_1d_numeric _ Hc). cbn [d_dtype d_items].
  now rewrite lookup_numeric_labels.
Qed.

Lemma mem_str_false (a : str) (l : list str) :
  mem_str a l = false <-> ~ In a l.
Proof.
  rewrite <- mem_str_In. destruct (mem_str a l); split; congruence.
Qed.

(** The summary of a frame with a numeric column, when [reset_index] can
    insert its column: eight rows labelled in the fixed order, one float
    column per numeric source column, each value rounded. *)
Lemma generate_summary_df_numeric `{Kernels} (df : DataFrame) :
  let nums := filter is_numeric (series df) in
  nums <> [] ->
  filter is_datetime (series df) = [] ->
  ~ (In (Text "index") (map name nums)
     /\ In (Text "level_0") (map name nums)) ->
  generate_summary_df df
  = Ok {| series :=
            {| name := if mem_label "index" (map name nums)
                       then Text "level_0" else Text "Statistic";
               dtype_of := Object;
               values := str_cells numeric_labels |}
            :: map (fun c =>
                      {| name := if label_is "index" (name c)
                                 then Text "Statistic" else name c;
                         dtype_of := Float64;
                         values := map (fun s => CFloat (round2 (numeric_stat s
                                                                   (values c))))
                                       numeric_stats |}) nums;
          index_len := 8 |}.
Proof.
  intros nums Hnum Hdate Hfree. unfold generate_summary_df.
  rewrite (describe_numeric df Hnum Hdate). fold nums. cbn [rbind].
  unfold reset_index. cbn [d_series d_index]. rewrite map_map. cbn [name].
  change (map (fun x : Series => name x) nums) with (map name nums).
  assert (Hins : mem_label (if mem_label "index" (map name nums)
                            then lit "level_0" else lit "index")
                           (map name nums) = false).
  { destruct (mem_label "index" (map name nums)) eqn:Ei.
    - apply mem_label_false. apply mem_label_In in Ei. tauto.
    - exact Ei. }
  rewrite Hins. cbn [rbind]. f_equal.
  unfold round_frame, rename_index, rename_column.
  cbn [series index_len map name dtype_of values].
  f_equal. f_equal.
  - destruct (mem_label "index" (map name nums)); reflexivity.
  - rewrite !map_map. apply map_ext. intros c.
    cbn [name dtype_of values]. reflexivity.
Qed.

Lemma in_insert_by_length (x y : list str) (l : list (list str)) :
  In y (insert_by_length x l) <-> y = x \/ In y l.
Proof.
  induction l as [|z t IH]; simpl; [intuition congruence|].
  destruct (length x <? length z); simpl; [intuition congruence|].
  rewrite IH. intuition congruence.
Qed.

Lemma in_sort_by_length (y : list str) (l : list (list str)) :
  In y (sort_by_length l) <-> In y l.
Proof.
  unfold sort_by_length.
  enough (G : forall acc, In y (fold_left (fun acc x => insert_by_length x acc)
                                          l acc) <-> In y acc \/ In y l).
  { rewrite G. simpl. tauto. }
  induction l as [|x t IH]; intros acc; simpl; [tauto|].
  rewrite IH, in_insert_by_length. intuition congruence.
Qed.

Lemma merge_one_grows (l names : list str) (x : str) :
  In x names \/ In x l ->
  In x (fold_left (fun names x => if mem_str x names then names
                                  else names ++ [x]) l names).
Proof.
  revert names. induction l as [|y t IH]; intros names; simpl; [tauto|].
  intros [Hn | [-> | Ht]]; apply IH.
  - left. destruct (mem_str y names); [exact Hn|]. apply in_or_app. now left.
  - left. destruct (mem_str x names) eqn:E; [now apply mem_str_In|].
    apply in_or_app. right. now left.
  - now right.
Qed.

Lemma merge_labels_grows (ls : list (list str)) (l : list str) (x : str) :
  In l ls -> In x l -> In x (merge_labels ls).
Proof.
  unfold merge_labels.
  enough (G : forall names,
             In x names \/ (exists l, In l ls /\ In x l) ->
             In x (fold_left
                     (fun names l =>
                        fold_left (fun names x => if mem_str x names then names
                                                  else names ++ [x]) l names)
                     ls names)).
  { intros Hl Hx. apply G. right. now exists l. }
  induction ls as [|l0 t IH]; intros names; simpl.
  - intros [Hn | [l1 [[] _]]]. exact Hn.
  - intros [Hn | [l1 [[-> | Hl1] Hx]]]; apply IH.
    + left. apply merge_one_grows. now left.
    + left. apply merge_one_grows. now right.
    + right. now exists l1.
Qed.

Lemma describe_1d_has_count `{Kernels} (c : Series) :
  In (lit "count") (map fst (d_items (describe_1d c))).
Proof.
  unfold describe_1d.
  destruct (is_numeric c); [simpl; now left|].
  destruct (is_datetime c); simpl; now left.
Qed.

Lemma select_data_nonempty (cols : list Series) :
  cols <> [] -> select_data cols <> [].
Proof.
  unfold select_data.
  destruct (filter is_described cols); [tauto | discriminate].
Qed.

Lemma rbind_ok {A B} (m : result A) (k : A -> result B) (b : B) :
  rbind m k = Ok b -> exists a, m = Ok a /\ k a = Ok b.
Proof. destruct m as [a|e]; simpl; [now exists a | discriminate]. Qed.

Lemma describe_ok `{Kernels} (df : DataFrame) (d : Described) :
  describe df = Ok d ->
  series df <> []
  /\ d_index d = reorder_columns (map describe_1d (select_data (series df))).
Proof.
  unfold describe. destruct (series df) as [|c0 cols] eqn:Es; [discriminate|].
  rewrite <- Es. cbv zeta. intros E. inversion E; subst d; clear E.
  split; [rewrite Es; discriminate | reflexivity].
Qed.

Lemma reset_index_ok (d : Described) (df : DataFrame) :
  reset_index d = Ok df ->
  exists label, series df = label :: d_series d
                /\ index_len df = length (d_index d).
Proof.
  unfold reset_index. cbv zeta.
  destruct (mem_label (if mem_label "index" (map name (d_series d))
                       then lit "level_0" else lit "index")
                      (map name (d_series d))); [discriminate|].
  intros E. inversion E; subst df; clear E. eexists. split; reflexivity.
Qed.

(** Whenever the summary frame is produced it is not empty: it has the
    label column and at least the [count] row. *)
Lemma summary_never_empty `{Kernels} (df summary : DataFrame) :
  generate_summary_df df = Ok summary ->
  empty summary = false /\ columns summary <> [].
Proof.
  unfold generate_summary_df. intros E.
  apply rbind_ok in E. destruct E as (d & Hd & E).
  apply rbind_ok in E. destruct E as (s0 & Hs0 & E).
  inversion E; subst summary; clear E.
  apply describe_ok in Hd. destruct Hd as [Hcols Hidx].
  apply reset_index_ok in Hs0. destruct Hs0 as (label & Hser & Hlen).
  assert (Hrows : index_len s0 <> 0).
  { rewrite Hlen, Hidx. intros Hz. apply length_zero_iff_nil in Hz.
    apply select_data_nonempty in Hcols.
    destruct (select_data (series df)) as [|c t]; [now elim Hcols|].
    assert (Hin : In (lit "count")
                     (reorder_columns (map describe_1d (c :: t)))).
    { unfold reorder_columns.
      apply merge_labels_grows with (l := map fst (d_items (describe_1d c))).
      - apply in_sort_by_length. now left.
      - apply describe_1d_has_count. }
    rewrite Hz in Hin. destruct Hin. }
  unfold empty, columns, round_frame, rename_index, rename_column.
  cbn [series index_len]. rewrite Hser. cbn [map].
  split; [|discriminate].
  now apply Nat.eqb_neq.
Qed.


(** The document that the summary generator hands to [doc.build] when the
    summary is [summary]. *)
Lemma summary_pdf_built `{Kernels} `{ReportLab} (now filename : str)
    (df summary : DataFrame) :
  generate_summary_df df = Ok summary ->
  generate_reportlab_pdf now df filename
  = built {| doc_pagesize := A4;
             story := summary_story now filename df summary |}.
Proof.
  intros Es. unfold generate_reportlab_pdf. cbv zeta. rewrite Es.
  cbn [rbind].
  destruct (summary_never_empty _ Es) as [Hne Hcols].
  rewrite Hne. cbn [negb].
  rewrite new_table_ok.
  2:{ unfold label_cells. destruct (columns summary);
        [congruence|discriminate]. }
  reflexivity.
Qed.

Lemma summary_pdf_fails `{Kernels} `{ReportLab} (now filename : str)
    (df : DataFrame) (e : exn) :
  generate_summary_df df = Raise e ->
  generate_reportlab_pdf now df filename = Raise e.
Proof.
  intros Es. unfold generate_reportlab_pdf. cbv zeta. now rewrite Es.
Qed.

Lemma built_ok `{ReportLab} (doc doc' : pdf_document) :
  built doc = Ok doc' -> doc' = doc /\ build doc = Ok tt.
Proof.
  unfold built. destruct (build doc) as [[]|e]; cbn [rbind];
    [|discriminate].
  intros E. now inversion E.
Qed.

(** C3 (the code at the failing inputs): for a frame whose only column is
    text, [describe] falls back to describing that column, so the summary
    is not empty (rows count, unique, top, freq), the document that the
    summary PDF generator hands to [doc.build] shows it as a table and the
    placeholder is not used; for a frame without columns, summary CSV
    generation raises. *)
Theorem text_only_frame_summary `{Kernels} `{ReportLab} (now : str) :
  filter is_numeric (series text_frame) = []
  /\ generate_summary_df text_frame
     = Ok {| series :=
               [ {| name := "Statistic"; dtype_of := Object;
                    values := str_cells object_labels |};
                 {| name := "city"; dtype_of := Object;
                    values := map (fun s => object_stat s
                                              [CStr "Oslo"; CStr "Lima"])
                                  object_stats |} ];
             index_len := 4 |}
  /\ (exists doc,
        generate_reportlab_pdf now text_frame "cities.csv" = built doc
        /\ existsb is_table (story doc) = true
        /\ ~ In placeholder (story doc))
  /\ generate_csv_report no_columns_frame "summary"
     = Raise (Exn ValueError "Cannot describe a DataFrame without columns").
Proof.
  split; [reflexivity|]. split; [reflexivity|]. split; [|reflexivity].
  eexists. split; [reflexivity|]. split; [reflexivity|].
  unfold placeholder. simpl. intuition discriminate.
Qed.

(** C4 (the code at the failing input): two numeric columns named [index]
    and [level_0] leave [reset_index] no name for the label column; no
    summary frame is produced. *)
Theorem index_names_frame_summary `{Kernels} :
  filter is_numeric (series index_names_frame) <> []
  /\ generate_summary_df index_names_frame
     = Raise (Exn ValueError "cannot insert level_0, already exists").
Proof. split; [discriminate | reflexivity]. Qed.

(** NumPy's rounding to two decimals is [rint(x * 100) / 100]: a tie goes
    to the even hundredth, the sign of a zero is kept, and NaN and the
    infinities are left alone. *)
Lemma round2_examples :
  round2 0.125 = (12 / 100)%float
  /\ round2 0.375 = (38 / 100)%float
  /\ round2 7.5 = 7.5%float
  /\ round2 (-0.001953125) = (-0)%float
  /\ PrimFloat.is_nan (round2 nan) = true
  /\ round2 infinity = infinity.
Proof. repeat split; reflexivity. Qed.

(** Away from that clash of names, the summary of a frame with a numeric
    column and no date column has one row per statistic in the order count,
    mean, std, min, 25%, 50%, 75%, max, the label column first and then one
    float column per numeric source column, in their order; each value is
    the column's statistic rounded to two decimals as NumPy rounds,
    [rint(x * 100) / 100]. *)
Theorem summary_rows_and_columns `{Kernels} (df : DataFrame) :
  filter is_numeric (series df) <> [] ->
  filter is_datetime (series df) = [] ->
  ~ (In (Text "index") (map name (filter is_numeric (series df)))
     /\ In (Text "level_0") (map name (filter is_numeric (series df)))) ->
  exists summary label,
    generate_summary_df df = Ok summary
    /\ len summary = 8
    /\ series summary
       = {| name := label; dtype_of := Object;
            values := str_cells [ lit "count"; lit "mean"; lit "std";
                                  lit "min"; lit "25%"; lit "50%";
                                  lit "75%"; lit "max" ] |}
         :: map (fun c =>
                   {| name := if label_is "index" (name c)
                              then Text "Statistic" else name c;
                      dtype_of := Float64;
                      values :=
                        map (fun s => CFloat (round2 (numeric_stat s
                                                        (values c))))
                            [Count; Mean; Std; Min; Q25; Q50; Q75; Max] |})
                (filter is_numeric (series df))
    /\ (~ In (Text "index") (map name (filter is_numeric (series df))) ->
        label = Text "Statistic").
Proof.
  intros Hnum Hdate Hfree.
  pose proof (generate_summary_df_numeric df Hnum Hdate Hfree) as E.
  cbv zeta in E.
  eexists. eexists. split; [exact E|]. split; [reflexivity|].
  split; [reflexivity|].
  intros Hno. apply mem_label_false in Hno. now rewrite Hno.
Qed.

(** A frame with a text and a numeric column: the summary describes the
    numeric one. *)
Lemma summary_rows_and_columns_witness :
  filter is_numeric (series mixed_frame) <> []
  /\ filter is_datetime (series mixed_frame) = []
  /\ exists summary,
       @generate_summary_df example_kernels mixed_frame = Ok summary
       /\ columns summary = [Text "Statistic"; Text "temp"]
       /\ len summary = 8.
Proof.
  split; [discriminate|]. split; [reflexivity|].
  destruct (@summary_rows_and_columns example_kernels mixed_frame)
    as (summary & label & E & Hlen & Hser & Hlabel).
  - discriminate.
  - reflexivity.
  - simpl. intros [[E|[]] _]; discriminate.
  - exists summary. split; [exact E|]. split; [|exact Hlen].
    unfold columns. rewrite Hser. simpl. rewrite Hlabel; [reflexivity|].
    simpl. intros [E'|[]]. discriminate.
Defined.

(** The placeholder of the summary PDF is never used: whenever the
    document is produced, it holds the statistics table. *)
Theorem summary_pdf_has_table `{Kernels} `{ReportLab} (now filename : str)
    (df : DataFrame) (doc : pdf_document) :
  generate_reportlab_pdf now df filename = Ok doc ->
  existsb is_table (story doc) = true /\ ~ In placeholder (story doc).
Proof.
  intros E.
  destruct (generate_summary_df df) as [summary|e] eqn:Es.
  - rewrite (summary_pdf_built now filename df Es) in E.
    apply built_ok in E. destruct E as [-> _]. cbn [story].
    split; [reflexivity|].
    unfold placeholder. simpl. intuition discriminate.
  - rewrite (summary_pdf_fails now filename df Es) in E. discriminate.
Qed.

Lemma summary_pdf_has_table_witness :
  exists doc,
    @generate_reportlab_pdf example_kernels example_layout
      "now" mixed_frame "f.csv" = Ok doc
    /\ existsb is_table (story doc) = true /\ ~ In placeholder (story doc).
Proof.
  eexists. split; [reflexivity|].
  apply (@summary_pdf_has_table example_kernels example_layout
           "now" "f.csv" mixed_frame).
  reflexivity.
Defined.
(** ** The request handler *)

Ltac hsimp :=
  repeat (progress (unfold try_parse, call, hbind, emit, reply, hret, raise
                      in *;
                    cbn beta iota in *)).

Lemma size_within (n : Z) :
  (n <= MAX_FILE_SIZE)%Z -> (n >? MAX_FILE_SIZE)%Z = false.
Proof. intros Hn. rewrite Z.gtb_ltb. now apply Z.ltb_ge. Qed.

Lemma sanitize_text `{Platform} (df : ParsedFrame) :
  text_labelled df -> sanitize_columns df = Ok (set_columns df normalize).
Proof.
  intros Ht. unfold sanitize_columns.
  now rewrite (text_labelled_granted Ht).
Qed.


Lemma sanitize_raises `{Platform} (df : ParsedFrame) (e : exn) :
  sanitize_columns df = Raise e -> exn_kind e = AttributeError.
Proof.
  unfold sanitize_columns. destruct (str_accessor_ok (p_labels df));
    [discriminate|].
  intros E. now inversion E.
Qed.

(** [ingest], case by case.  A frame read from CSV is always sanitised; a
    sheet is sanitised or line 205 raises. *)
Lemma ingest_spec `{Platform} (file : upload) (log : list event) :
  ingest file log
  = if (Z.of_nat (length (content file)) >? MAX_FILE_SIZE)%Z
    then (log ++ [FileRead], Return (Json 400 too_large_message))
    else
      match rsplit_dot (secure_filename (filename file)) with
      | None =>
          (log ++ [FileRead],
           Throw (Exn IndexError "list index out of range"))
      | Some (stem, ext) =>
          if str_eqb (lower ext) "csv"
          then match read_csv (content file) with
               | Ok df =>
                   (log ++ [FileRead; ParseCsv],
                    Next (secure_filename (filename file), stem,
                          set_columns df normalize))
               | Raise e =>
                   (log ++ [FileRead; ParseCsv],
                    Return (Json 400 (lit "Failed to parse CSV file: "
                                      ++ exn_msg e)))
               end
          else if str_eqb (lower ext) "xlsx"
          then match read_excel (content file) with
               | Ok df =>
                   match sanitize_columns df with
                   | Ok df' =>
                       (log ++ [FileRead; ParseExcel],
                        Next (secure_filename (filename file), stem, df'))
                   | Raise e => (log ++ [FileRead; ParseExcel], Throw e)
                   end
               | Raise e =>
                   (log ++ [FileRead; ParseExcel],
                    Return (Json 400 (lit "Failed to parse Excel file: "
                                      ++ exn_msg e)))
               end
          else (log ++ [FileRead],
                Throw (Exn AttributeError
                         "'NoneType' object has no attribute 'columns'"))
      end.
Proof.
  unfold ingest. hsimp.
  destruct (Z.of_nat (length (content file)) >? MAX_FILE_SIZE)%Z;
    [reflexivity|].
  destruct (rsplit_dot (secure_filename (filename file))) as [[stem ext]|];
    [|reflexivity].
  cbn [fst snd].
  destruct (str_eqb (lower ext) "csv").
  - destruct (read_csv (content file)) as [df|e] eqn:Erd; hsimp;
      rewrite <- app_assoc; [|reflexivity].
    rewrite (sanitize_text (read_csv_labels _ Erd)). reflexivity.
  - destruct (str_eqb (lower ext) "xlsx"); [|reflexivity].
    destruct (read_excel (content file)) as [df|e]; hsimp;
      rewrite <- app_assoc; [|reflexivity].
    destruct (sanitize_columns df); reflexivity.
Qed.

(** What [ingest] can do: it goes on only for an upload within the size
    ceiling whose secured name has a dot, with the text before the last dot
    as stem; it returns nothing but 400 responses; it raises only outside
    the parser errors; it never calls a generator; and it does not parse an
    upload above the ceiling. *)
Lemma ingest_cases `{Platform} (file : upload) (log : list event) :
  exists l o,
    ingest file log = (log ++ l, o)
    /\ only_ingest_events l
    /\ ((MAX_FILE_SIZE < Z.of_nat (length (content file)))%Z ->
        l = [FileRead]
        /\ exists msg, o = Return (Json 400 msg) /\ msg <> [])
    /\ match o with
       | Next (fname, stem, df) =>
           fname = secure_filename (filename file)
           /\ (Z.of_nat (length (content file)) <= MAX_FILE_SIZE)%Z
           /\ exists ext, rsplit_dot fname = Some (stem, ext)
       | Return r => exists msg, r = Json 400 msg /\ msg <> []
       | Throw e => exn_kind e = IndexError \/ exn_kind e = AttributeError
       end.
Proof.
  rewrite ingest_spec. unfold only_ingest_events.
  destruct (Z.of_nat (length (content file)) >? MAX_FILE_SIZE)%Z eqn:Esz.
  - exists [FileRead]. eexists. split; [reflexivity|].
    split; [repeat constructor; tauto|]. split.
    + intros _. split; [reflexivity|]. eexists. split; [reflexivity|discriminate].
    + eexists. split; [reflexivity | discriminate].
  - assert (Hsz : (Z.of_nat (length (content file)) <= MAX_FILE_SIZE)%Z).
    { rewrite Z.gtb_ltb in Esz. now apply Z.ltb_ge in Esz. }
    destruct (rsplit_dot (secure_filename (filename file)))
      as [[stem ext]|] eqn:Esp.
    + destruct (str_eqb (lower ext) "csv") eqn:Ecsv.
      * destruct (read_csv (content file)) as [df|e] eqn:Erd.
        -- exists [FileRead; ParseCsv]. eexists. split; [reflexivity|].
           split; [repeat constructor; tauto|]. split; [lia|].
           split; [reflexivity|]. split; [exact Hsz|]. now exists ext.
        -- exists [FileRead; ParseCsv]. eexists. split; [reflexivity|].
           split; [repeat constructor; tauto|]. split; [lia|].
           eexists. split; [reflexivity | discriminate].
      * destruct (str_eqb (lower ext) "xlsx") eqn:Exl.
        -- destruct (read_excel (content file)) as [df|e] eqn:Erd.
           ++ destruct (sanitize_columns df) as [df'|e] eqn:Es.
              ** exists [FileRead; ParseExcel]. eexists.
                 split; [reflexivity|].
                 split; [repeat constructor; tauto|]. split; [lia|].
                 split; [reflexivity|]. split; [exact Hsz|]. now exists ext.
              ** exists [FileRead; ParseExcel]. eexists.
                 split; [reflexivity|].
                 split; [repeat constructor; tauto|]. split; [lia|].
                 right. now apply sanitize_raises in Es.
           ++ exists [FileRead; ParseExcel]. eexists. split; [reflexivity|].
              split; [repeat constructor; tauto|]. split; [lia|].
              eexists. split; [reflexivity | discriminate].
        -- exists [FileRead]. eexists. split; [reflexivity|].
           split; [repeat constructor; tauto|]. split; [lia|].
           right. reflexivity.
    + exists [FileRead]. eexists. split; [reflexivity|].
      split; [repeat constructor; tauto|]. split; [lia|].
      left. reflexivity.
Qed.

Lemma valid_output_format_false (fmt : str) :
  valid_output_format fmt = false ->
  str_eqb fmt "pdf" = false /\ str_eqb fmt "csv" = false
  /\ str_eqb fmt "excel" = false.
Proof.
  unfold valid_output_format, mem_str. cbn [existsb].
  rewrite !orb_false_iff. tauto.
Qed.

Lemma valid_report_type_false (rt : str) :
  valid_report_type rt = false ->
  str_eqb rt "summary" = false /\ str_eqb rt "full_data" = false.
Proof.
  unfold valid_report_type, mem_str. cbn [existsb].
  rewrite !orb_false_iff. tauto.
Qed.

Lemma generate_csv_report_kind `{Kernels} (df : DataFrame) (rt : str)
    (rep : report) :
  generate_csv_report df rt = Ok rep -> exists text, rep = CsvReport text.
Proof.
  unfold generate_csv_report. destruct (str_eqb rt "summary").
  - destruct (generate_summary_df df); simpl; [|discriminate].
    intros E. inversion E. now eexists.
  - intros E. inversion E. now eexists.
Qed.



Lemma to_excel_kind (frame : DataFrame) (sheet : str) (rep : report) :
  to_excel frame sheet = Ok rep -> rep = ExcelReport sheet frame.
Proof.
  unfold to_excel. destruct (sheet_too_large frame); [discriminate|].
  intros E. now inversion E.
Qed.

Lemma generate_excel_report_kind `{Kernels} (df : DataFrame) (rt : str)
    (rep : report) :
  generate_excel_report df rt = Ok rep ->
  exists sheet frame, rep = ExcelReport sheet frame.
Proof.
  unfold generate_excel_report. destruct (str_eqb rt "summary").
  - destruct (generate_summary_df df); simpl; [|discriminate].
    intros E. apply to_excel_kind in E. do 2 eexists. exact E.
  - intros E. apply to_excel_kind in E. do 2 eexists. exact E.
Qed.

Section Respond.
Context `{Kernels} `{ReportLab} `{Platform}.
Variables (form : request) (fname stem : str) (df : DataFrame).
Variable log : list event.

Lemma respond_invalid_format :
  valid_output_format (output_format_of form) = false ->
  respond form fname stem df log
  = (log, Return (Json 400 "Invalid output format selected")).
Proof.
  intros Hv. apply valid_output_format_false in Hv.
  destruct Hv as (E1 & E2 & E3).
  unfold respond. cbv zeta. rewrite E1, E2, E3. reflexivity.
Qed.

Lemma respond_pdf_invalid_type :
  output_format_of form = lit "pdf" ->
  valid_report_type (report_type_of form) = false ->
  respond form fname stem df log
  = (log, Return (Json 500 "Failed to generate report")).
Proof.
  intros Ef Hv. apply valid_report_type_false in Hv. destruct Hv as (E1 & E2).
  unfold respond. cbv zeta. rewrite Ef, E1, E2. reflexivity.
Qed.

Lemma respond_csv_not_summary :
  output_format_of form = lit "csv" ->
  str_eqb (report_type_of form) "summary" = false ->
  respond form fname stem df log
  = (log ++ [Generate],
     Next (SendFile (CsvReport (to_csv df))
                    (stem ++ lit "_full_data.csv") csv_mime)).
Proof.
  intros Ef E1. unfold respond, generate_csv_report. cbv zeta.
  rewrite Ef, E1. reflexivity.
Qed.

Lemma respond_excel_not_summary :
  output_format_of form = lit "excel" ->
  str_eqb (report_type_of form) "summary" = false ->
  respond form fname stem df log
  = if sheet_too_large df
    then (log ++ [Generate], Throw (sheet_error df))
    else (log ++ [Generate],
          Next (SendFile (ExcelReport "Full Data" df)
                         (stem ++ lit "_full_data.xlsx") xlsx_mime)).
Proof.
  intros Ef E1. unfold respond, generate_excel_report. cbv zeta.
  rewrite Ef, E1. cbn [str_eqb lit].
  change (str_eqb (lit "excel") (lit "pdf")) with false.
  change (str_eqb (lit "excel") (lit "csv")) with false.
  change (str_eqb (lit "excel") (lit "excel")) with true. cbv iota.
  unfold to_excel, sheet_error.
  destruct (sheet_too_large df); reflexivity.
Qed.

(** Every way [respond] sends a file. *)
Lemma respond_send_file (log' : list event) (body : report)
    (name mime : str) :
  respond form fname stem df log = (log', Next (SendFile body name mime)) ->
  (output_format_of form = lit "pdf" /\ mime = pdf_mime
   /\ ((report_type_of form = lit "summary"
        /\ name = stem ++ lit "_summary_report.pdf"
        /\ exists doc, body = PdfReport doc
                       /\ generate_reportlab_pdf now df fname = Ok doc)
       \/ (report_type_of form = lit "full_data"
           /\ name = stem ++ lit "_full_data.pdf"
           /\ exists doc,
                body = PdfReport doc
                /\ generate_full_data_pdf
                     now df fname (select_page_size (page_size_of form))
                   = Ok doc)))
  \/ (output_format_of form = lit "csv" /\ mime = csv_mime
      /\ name = stem ++ (if str_eqb (report_type_of form) "summary"
                         then lit "_summary_report.csv"
                         else lit "_full_data.csv")
      /\ exists text, body = CsvReport text)
  \/ (output_format_of form = lit "excel" /\ mime = xlsx_mime
      /\ name = stem ++ (if str_eqb (report_type_of form) "summary"
                         then lit "_summary_report.xlsx"
                         else lit "_full_data.xlsx")
      /\ exists sheet frame, body = ExcelReport sheet frame).
Proof.
  unfold respond. cbv zeta.
  destruct (str_eqb (output_format_of form) "pdf") eqn:Epdf.
  - apply str_eqb_eq in Epdf. intros E. left.
    split; [exact Epdf|].
    destruct (str_eqb (report_type_of form) "summary") eqn:Es.
    + apply str_eqb_eq in Es. hsimp.
      destruct (generate_reportlab_pdf now df fname) as [doc|e] eqn:Eg;
        hsimp; [|discriminate].
      inversion E; subst. split; [reflexivity|]. left.
      split; [exact Es|]. split; [reflexivity|]. now exists doc.
    + destruct (str_eqb (report_type_of form) "full_data") eqn:Ef.
      * apply str_eqb_eq in Ef. hsimp.
        destruct (generate_full_data_pdf now df fname
                    (select_page_size (page_size_of form)))
          as [doc|e] eqn:Eg; hsimp; [|discriminate].
        inversion E; subst. split; [reflexivity|]. right.
        split; [exact Ef|]. split; [reflexivity|]. now exists doc.
      * hsimp. discriminate.
  - destruct (str_eqb (output_format_of form) "csv") eqn:Ecsv.
    + apply str_eqb_eq in Ecsv. intros E. right. left.
      split; [exact Ecsv|]. hsimp.
      destruct (generate_csv_report df (report_type_of form)) as [rep|e] eqn:Eg;
        hsimp; [|discriminate].
      apply generate_csv_report_kind in Eg.
      destruct (str_eqb (report_type_of form) "summary");
        inversion E; subst; repeat split; auto.
    + destruct (str_eqb (output_format_of form) "excel") eqn:Exl.
      * apply str_eqb_eq in Exl. intros E. right. right.
        split; [exact Exl|]. hsimp.
        destruct (generate_excel_report df (report_type_of form))
          as [rep|e] eqn:Eg; hsimp; [|discriminate].
        apply generate_excel_report_kind in Eg.
        destruct (str_eqb (report_type_of form) "summary");
          inversion E; subst; repeat split; auto.
      * hsimp. discriminate.
Qed.

(** [respond] returns early only with an error. *)
Lemma respond_return (log' : list event) (r : response) :
  respond form fname stem df log = (log', Return r) ->
  r = Json 400 "Invalid output format selected"
  \/ r = Json 500 "Failed to generate report".
Proof.
  unfold respond. cbv zeta.
  destruct (str_eqb (output_format_of form) "pdf").
  - destruct (str_eqb (report_type_of form) "summary"); hsimp.
    + destruct (generate_reportlab_pdf now df fname); hsimp; discriminate.
    + destruct (str_eqb (report_type_of form) "full_data"); hsimp.
      * destruct (generate_full_data_pdf _ _ _ _); hsimp; discriminate.
      * intros E. inversion E. now right.
  - destruct (str_eqb (output_format_of form) "csv"); hsimp.
    + destruct (generate_csv_report _ _); hsimp; discriminate.
    + destruct (str_eqb (output_format_of form) "excel"); hsimp.
      * destruct (generate_excel_report _ _); hsimp; discriminate.
      * intros E. inversion E. now left.
Qed.
End Respond.

Lemma allowed_nonempty (name : str) :
  allowed_file name = true -> is_empty_str name = false.
Proof. destruct name; [discriminate | reflexivity]. Qed.

Lemma selected_output_format (req : request) :
  output_format_of req = selected (form_output_format req) "pdf".
Proof. reflexivity. Qed.

Lemma selected_report_type (req : request) :
  report_type_of req = selected (form_report_type req) "summary".
Proof. reflexivity. Qed.

Lemma not_str_eqb (a b : str) : a <> b -> str_eqb a b = false.
Proof.
  intros Hne. destruct (str_eqb a b) eqn:E; [|reflexivity].
  apply str_eqb_eq in E. contradiction.
Qed.

Section Handler.
Context `{Kernels} `{ReportLab} `{Platform}.

(** The handler on a POST request that carries a file with an allowed
    name. *)
Lemma handler_post (req : request) (file : upload) :
  method req = POST ->
  files_file req = Some file ->
  allowed_file (filename file) = true ->
  upload_and_analyze req
  = match handle_upload file req [] with
    | (log, Next r) => (log, r)
    | (log, Return r) => (log, r)
    | (log, Throw e) => (log, on_exception e)
    end.
Proof.
  intros Em Ef Ea. unfold upload_and_analyze.
  rewrite Em, Ef, (allowed_nonempty _ Ea), Ea. reflexivity.
Qed.

Lemma handler_accepted (req : request) (file : upload) (l : list event)
    (fname stem : str) (df : DataFrame) :
  method req = POST ->
  files_file req = Some file ->
  allowed_file (filename file) = true ->
  ingest file [] = (l, Next (fname, stem, df)) ->
  upload_and_analyze req
  = match respond req fname stem df l with
    | (log, Next r) => (log, r)
    | (log, Return r) => (log, r)
    | (log, Throw e) => (log, on_exception e)
    end.
Proof.
  intros Em Ef Ea Ei. rewrite (handler_post req Em Ef Ea).
  unfold handle_upload, hbind. rewrite Ei. reflexivity.
Qed.

(** A request is answered with a file only through [respond], after the
    upload passed every check and was parsed. *)
Lemma send_file_inv (req : request) (body : report) (name mime : str) :
  snd (upload_and_analyze req) = SendFile body name mime ->
  exists file stem ext df l l',
    method req = POST
    /\ files_file req = Some file
    /\ allowed_file (filename file) = true
    /\ rsplit_dot (secure_filename (filename file)) = Some (stem, ext)
    /\ ingest file [] = (l, Next (secure_filename (filename file), stem, df))
    /\ respond req (secure_filename (filename file)) stem df l
       = (l', Next (SendFile body name mime)).
Proof.
  unfold upload_and_analyze.
  destruct (method req) eqn:Em; [discriminate|].
  destruct (files_file req) as [file|] eqn:Ef; [|discriminate].
  destruct (is_empty_str (filename file)); [discriminate|].
  destruct (allowed_file (filename file)) eqn:Ea; [|discriminate].
  cbn [negb]. unfold handle_upload, hbind.
  destruct (ingest_cases file []) as (l & o & Ei & _ & _ & Ho).
  rewrite Ei. cbn [app].
  destruct o as [[[fname stem] df] | r | e].
  - destruct Ho as (-> & _ & ext & Esp).
    destruct (respond req (secure_filename (filename file)) stem df l)
      as [l' o'] eqn:Er.
    destruct o' as [r | r | e]; cbn [snd]; intros E.
    + subst r. exists file, stem, ext, df, l, l'. repeat split; auto.
    + apply respond_return in Er. destruct Er; subst; discriminate.
    + unfold on_exception in E. destruct (exn_kind e); discriminate.
  - destruct Ho as (msg & -> & _). discriminate.
  - cbn [snd]. unfold on_exception. destruct (exn_kind e); discriminate.
Qed.

(** C5: an upload whose file name has a disallowed extension, or whose
    content is longer than the ceiling of 150 MiB, is answered with a 400
    error that carries a message; no report is generated and the content
    is not parsed.  The extension is checked first: on a disallowed
    extension the handler does nothing with the upload at all. *)
Theorem rejected_upload (req : request) (file : upload) :
  method req = POST ->
  files_file req = Some file ->
  allowed_file (filename file) = false
  \/ (MAX_FILE_SIZE < Z.of_nat (length (content file)))%Z ->
  MAX_FILE_SIZE = (150 * 1024 * 1024)%Z
  /\ (exists msg, snd (upload_and_analyze req) = Json 400 msg /\ msg <> [])
  /\ ~ In ParseCsv (fst (upload_and_analyze req))
  /\ ~ In ParseExcel (fst (upload_and_analyze req))
  /\ ~ In Generate (fst (upload_and_analyze req))
  /\ (allowed_file (filename file) = false ->
      fst (upload_and_analyze req) = []).
Proof.
  intros Em Ef Hbad. split; [reflexivity|].
  unfold upload_and_analyze. rewrite Em, Ef.
  destruct (is_empty_str (filename file)).
  { cbn [fst snd]. repeat split; auto.
    eexists. split; [reflexivity | discriminate]. }
  destruct (allowed_file (filename file)) eqn:Ea; cbn [negb].
  2:{ cbn [fst snd]. repeat split; auto.
      eexists. split; [reflexivity | discriminate]. }
  destruct Hbad as [Hbad | Hbig]; [discriminate|].
  unfold handle_upload, hbind.
  destruct (ingest_cases file []) as (l & o & Ei & _ & Hsz & _).
  rewrite Ei. cbn [app].
  destruct (Hsz Hbig) as (-> & msg & -> & Hmsg).
  cbn [fst snd]. split; [now exists msg|].
  repeat split; try discriminate; cbn [In]; intuition discriminate.
Qed.

(** C7 (amended): whenever a file is sent, its download name is the text
    before the last dot of the secured file name (the upload's file name
    after [secure_filename], not the file name as it was sent) followed by
    [_summary_report.<ext>] for report type [summary] and by
    [_full_data.<ext>] otherwise, with [<ext>] being pdf, csv or xlsx for
    the output formats pdf, csv and excel; its MIME type is the one of the
    output format and its body a report of that format.  Report type and
    output format are the form's fields (by default summary and pdf) in
    lower case. *)
Theorem download_name_and_mimetype (req : request) (body : report)
    (name mime : str) :
  snd (upload_and_analyze req) = SendFile body name mime ->
  exists file stem ext,
    files_file req = Some file
    /\ rsplit_dot (secure_filename (filename file)) = Some (stem, ext)
    /\ ((selected (form_output_format req) "pdf" = lit "pdf"
         /\ mime = lit "application/pdf"
         /\ (exists doc, body = PdfReport doc)
         /\ name = stem ++ (if str_eqb (selected (form_report_type req)
                                                 "summary") "summary"
                            then lit "_summary_report.pdf"
                            else lit "_full_data.pdf"))
        \/ (selected (form_output_format req) "pdf" = lit "csv"
            /\ mime = lit "text/csv"
            /\ (exists text, body = CsvReport text)
            /\ name = stem ++ (if str_eqb (selected (form_report_type req)
                                                    "summary") "summary"
                               then lit "_summary_report.csv"
                               else lit "_full_data.csv"))
        \/ (selected (form_output_format req) "pdf" = lit "excel"
            /\ mime = lit "application/vnd.openxmlformats-officedocument.spreadsheetml.sheet"
            /\ (exists sheet frame, body = ExcelReport sheet frame)
            /\ name = stem ++ (if str_eqb (selected (form_report_type req)
                                                    "summary") "summary"
                               then lit "_summary_report.xlsx"
                               else lit "_full_data.xlsx"))).
Proof.
  intros E. apply send_file_inv in E.
  destruct E as (file & stem & ext & df & l & l' & _ & Ef & _ & Esp & _ & Er).
  exists file, stem, ext. split; [exact Ef|]. split; [exact Esp|].
  apply respond_send_file in Er.
  rewrite <- selected_output_format, <- selected_report_type.
  destruct Er as [(Efmt & Emime & Hpdf) | [Hcsv | Hxl]].
  - left. split; [exact Efmt|]. split; [exact Emime|].
    destruct Hpdf as [(Ert & En & doc & Eb & _) | (Ert & En & doc & Eb & _)];
      rewrite Ert, En; (split; [now exists doc | reflexivity]).
  - right. left. tauto.
  - right. right. tauto.
Qed.
End Handler.

(** C7 (as written) fails: the stem is not that of the source file name.
    With werkzeug's [secure_filename], the upload [my data.v2.csv], whose
    stem is [my data.v2], is answered with [my_data.v2_full_data.csv]. *)
Lemma download_name_not_source_stem :
  rsplit_dot (lit "my data.v2.csv") = Some (lit "my data.v2", lit "csv")
  /\ secure_ascii "my data.v2.csv" = lit "my_data.v2.csv"
  /\ @upload_and_analyze example_kernels example_layout werkzeug_platform
       (post_request {| filename := "my data.v2.csv"; content := [] |}
                     (Some (lit "full_data")) (Some (lit "csv")) None)
     = ([FileRead; ParseCsv; Generate],
        SendFile (CsvReport (@to_csv example_kernels
                               (set_columns (as_parsed mixed_frame)
                                            normalize)))
                 "my_data.v2_full_data.csv" "text/csv").
Proof. repeat split; reflexivity. Qed.

(** Requests on [data.csv] whose form holds the selectors in upper case:
    the full-data CSV is [data_full_data.csv], the summary sheet
    [data_summary_report.xlsx]. *)
Lemma download_name_and_mimetype_witness :
  (exists text file stem ext,
     snd (@upload_and_analyze example_kernels example_layout example_platform
            (example_request "FULL_DATA" "Csv" None))
     = SendFile (CsvReport text) "data_full_data.csv" "text/csv"
     /\ files_file (example_request "FULL_DATA" "Csv" None) = Some file
     /\ rsplit_dot (filename file) = Some (stem, ext)
     /\ stem = lit "data")
  /\ (exists sheet frame,
        snd (@upload_and_analyze example_kernels example_layout
               example_platform (example_request "Summary" "EXCEL" None))
        = SendFile (ExcelReport sheet frame) "data_summary_report.xlsx"
                   "application/vnd.openxmlformats-officedocument.spreadsheetml.sheet").
Proof.
  split.
  - eexists.
    destruct (@download_name_and_mimetype example_kernels example_layout
                example_platform (example_request "FULL_DATA" "Csv" None)
                _ _ _ eq_refl)
      as (file & stem & ext & Ef & Esp & _).
    exists file, stem, ext. split; [reflexivity|].
    split; [exact Ef|]. split; [exact Esp|].
    inversion Ef; subst file. cbn in Esp. now inversion Esp.
  - destruct (@download_name_and_mimetype example_kernels example_layout
                example_platform (example_request "Summary" "EXCEL" None)
                _ _ _ eq_refl)
      as (file & stem & ext & _ & _ & [(E & _) | [(E & _) | (_ & _ & Hb & _)]]);
      [discriminate E | discriminate E |].
    destruct Hb as (sheet & frame & Eb). exists sheet, frame.
    cbn in Eb. cbn. now rewrite <- Eb.
Defined.

(** An upload named [notes.txt] is rejected before it is read. *)
Lemma rejected_upload_witness :
  allowed_file "notes.txt" = false
  /\ (exists msg,
        snd (@upload_and_analyze example_kernels example_layout
               example_platform
               {| method := POST;
                  files_file := Some {| filename := "notes.txt";
                                        content := [] |};
                  form_report_type := None; form_output_format := None;
                  form_page_size := None |})
        = Json 400 msg /\ msg <> [])
  /\ fst (@upload_and_analyze example_kernels example_layout
            example_platform
            {| method := POST;
               files_file := Some {| filename := "notes.txt";
                                     content := [] |};
               form_report_type := None; form_output_format := None;
               form_page_size := None |})
     = [].
Proof.
  split; [reflexivity|].
  destruct (@rejected_upload example_kernels example_layout example_platform
              {| method := POST;
                 files_file := Some {| filename := "notes.txt";
                                       content := [] |};
                 form_report_type := None; form_output_format := None;
                 form_page_size := None |}
              {| filename := "notes.txt"; content := [] |}
              eq_refl eq_refl (or_introl eq_refl))
    as (_ & Hmsg & _ & _ & _ & Hlog).
  split; [exact Hmsg | apply Hlog; reflexivity].
Defined.

Section Selectors.
Context `{Kernels} `{ReportLab} `{Platform}.

(** C6 (amended): for every request whose upload is accepted, parsed and
    sanitised, an output format outside pdf, csv and excel is answered with
    the 400 error [Invalid output format selected], and no report is
    generated; a report type outside summary and full_data is not rejected
    with 400: with pdf the answer is the 500 error
    [Failed to generate report] (no report is generated), with csv the
    full-data report is sent, and so it is with excel unless the frame does
    not fit on a sheet, which is answered with a 500 error.  Output format
    and report type are the form's fields (by default pdf and summary) in
    lower case. *)
Theorem invalid_selectors (req : request) (file : upload) (l : list event)
    (fname stem : str) (df : DataFrame) :
  method req = POST ->
  files_file req = Some file ->
  allowed_file (filename file) = true ->
  ingest file [] = (l, Next (fname, stem, df)) ->
  ~ In Generate l
  /\ (valid_output_format (selected (form_output_format req) "pdf") = false ->
      upload_and_analyze req
      = (l, Json 400 "Invalid output format selected"))
  /\ (selected (form_output_format req) "pdf" = lit "pdf" ->
      valid_report_type (selected (form_report_type req) "summary") = false ->
      upload_and_analyze req = (l, Json 500 "Failed to generate report"))
  /\ (selected (form_output_format req) "pdf" = lit "csv" ->
      valid_report_type (selected (form_report_type req) "summary") = false ->
      upload_and_analyze req
      = (l ++ [Generate],
         SendFile (CsvReport (to_csv df)) (stem ++ lit "_full_data.csv")
                  "text/csv"))
  /\ (selected (form_output_format req) "pdf" = lit "excel" ->
      valid_report_type (selected (form_report_type req) "summary") = false ->
      upload_and_analyze req
      = if sheet_too_large df
        then (l ++ [Generate],
              Json 500 (lit "An unexpected error occurred: "
                        ++ exn_msg (sheet_error df)))
        else (l ++ [Generate],
              SendFile (ExcelReport "Full Data" df)
                       (stem ++ lit "_full_data.xlsx")
                       "application/vnd.openxmlformats-officedocument.spreadsheetml.sheet")).
Proof.
  intros Em Ef Ea Ei.
  pose proof (handler_accepted req Em Ef Ea Ei) as Hh.
  rewrite <- selected_output_format, <- selected_report_type.
  split; [|split; [|split; [|split]]].
  - destruct (ingest_cases file []) as (l0 & o & Ei0 & Hev & _).
    rewrite Ei in Ei0. cbn [app] in Ei0. inversion Ei0; subst l0 o.
    intros Hin. unfold only_ingest_events in Hev.
    rewrite Forall_forall in Hev. apply Hev in Hin.
    destruct Hin as [E | [E | E]]; discriminate.
  - intros Hv. rewrite Hh. now rewrite respond_invalid_format.
  - intros Efmt Hv. rewrite Hh. now rewrite respond_pdf_invalid_type.
  - intros Efmt Hv. rewrite Hh.
    apply valid_report_type_false in Hv.
    now rewrite respond_csv_not_summary.
  - intros Efmt Hv. rewrite Hh.
    apply valid_report_type_false in Hv.
    rewrite respond_excel_not_summary by tauto.
    destruct (sheet_too_large df); reflexivity.
Qed.
End Selectors.

(** C6 (as written) fails for the report type: on an accepted upload, the
    unknown report type [weekly] gives the 500 error with pdf, and the
    full-data report with csv. *)
Lemma invalid_report_type_not_rejected :
  valid_report_type "weekly" = false
  /\ snd (@upload_and_analyze example_kernels example_layout example_platform
            (example_request "weekly" "pdf" None))
     = Json 500 "Failed to generate report"
  /\ snd (@upload_and_analyze example_kernels example_layout example_platform
            (example_request "weekly" "csv" None))
     = SendFile (CsvReport (@to_csv example_kernels
                              (set_columns (as_parsed mixed_frame)
                                           normalize)))
                "data_full_data.csv" "text/csv".
Proof. repeat split; reflexivity. Qed.

(** An accepted upload with the output format [XML], and with the report
    type [weekly] as a sheet. *)
Lemma invalid_selectors_witness :
  valid_output_format "xml" = false
  /\ @upload_and_analyze example_kernels example_layout example_platform
       (example_request "summary" "XML" None)
     = ([FileRead; ParseCsv], Json 400 "Invalid output format selected")
  /\ @upload_and_analyze example_kernels example_layout example_platform
       (example_request "weekly" "excel" None)
     = ([FileRead; ParseCsv; Generate],
        SendFile (ExcelReport "Full Data"
                              (set_columns (as_parsed mixed_frame) normalize))
                 "data_full_data.xlsx"
                 "application/vnd.openxmlformats-officedocument.spreadsheetml.sheet").
Proof.
  split; [reflexivity|]. split.
  - destruct (@invalid_selectors example_kernels example_layout
                example_platform
                (example_request "summary" "XML" None) example_upload
                [FileRead; ParseCsv] "data.csv" "data"
                (set_columns (as_parsed mixed_frame) normalize)
                eq_refl eq_refl eq_refl eq_refl) as (_ & Hfmt & _).
    apply Hfmt. reflexivity.
  - destruct (@invalid_selectors example_kernels example_layout
                example_platform
                (example_request "weekly" "excel" None) example_upload
                [FileRead; ParseCsv] "data.csv" "data"
                (set_columns (as_parsed mixed_frame) normalize)
                eq_refl eq_refl eq_refl eq_refl)
      as (_ & _ & _ & _ & Hxl).
    apply Hxl; reflexivity.
Defined.

(** ** Page sizes *)



Lemma full_data_pdf_no_columns `{Kernels} `{ReportLab} (now filename : str)
    (page_size : pagesize) (df : DataFrame) :
  series df = [] ->
  generate_full_data_pdf now df filename page_size
  = Raise (Exn ValueError "must have at least a row and column").
Proof.
  intros E. unfold generate_full_data_pdf, columns. now rewrite E.
Qed.


Section PageSize.
Context `{Kernels} `{ReportLab} `{Platform}.






End PageSize.


(** ** CSV: writing a frame and reading it back *)

Example read_example_csv :
  read_csv_raw example_csv
  = Ok {| raw_names := [lit "city"; lit "temp"];
          raw_rows := [ [lit "Oslo"; lit "4.5"]; [lit "Lima"; lit "19"] ] |}.
Proof. reflexivity. Qed.

Example write_mixed_frame :
  @to_csv example_kernels mixed_frame
  = lit "city,temp" ++ [newline] ++ lit "Oslo,0.0" ++ [newline]
    ++ lit "Lima,0.0" ++ [newline].
Proof. reflexivity. Qed.

(** C9 (as written) fails: the text of a frame with a repeated column name
    reads back with the second name changed; an empty column name reads
    back as [Unnamed: 0]; and in a frame of one text column a cell of one
    space is read as a blank line, so a row is lost. *)
Lemma csv_round_trip_fails :
  (csv_header repeated_name_frame = [lit "a_b"; lit "a_b"]
   /\ read_csv_raw (@to_csv example_kernels repeated_name_frame)
      = Ok {| raw_names := [lit "a_b"; lit "a_b.1"];
              raw_rows := [ [lit "1"; lit "2"] ] |})
  /\ read_csv_raw (@to_csv example_kernels empty_name_frame)
     = Ok {| raw_names := [lit "Unnamed: 0"; lit "b"];
             raw_rows := [ [lit "1"; lit "2"] ] |}
  /\ (len blank_cell_frame = 3
      /\ read_csv_raw (@to_csv example_kernels blank_cell_frame)
         = Ok {| raw_names := [lit "note"];
                 raw_rows := [ [lit "x"]; [lit "y"] ] |}).
Proof. repeat split; reflexivity. Qed.

Lemma run_app (p : parser) (s1 s2 : str) :
  run p (s1 ++ s2) = (p' <- run p s1 ;; run p' s2).
Proof.
  revert p. induction s1 as [|c t IH]; intros p; simpl; [reflexivity|].
  destruct (step p c) as [p'|e]; simpl; [apply IH | reflexivity].
Qed.

Lemma plain_inv (c : ascii) :
  plain c = true ->
  is_newline c = false /\ is_cr c = false /\ is_comma c = false
  /\ is_quote c = false.
Proof.
  unfold plain, needs_quoting.
  destruct (is_comma c), (is_quote c), (is_newline c), (is_cr c);
    simpl; intros E; try discriminate; tauto.
Qed.

Lemma run_in_field (f fld : str) (line : list str) (L : list (list str))
    (n : nat) :
  forallb plain f = true ->
  run (Build_parser IN_FIELD fld line L n) f
  = Ok (Build_parser IN_FIELD (rev f ++ fld) line L n).
Proof.
  revert fld. induction f as [|c t IH]; intros fld Hf; [reflexivity|].
  simpl in Hf. apply andb_true_iff in Hf. destruct Hf as [Hc Ht].
  apply plain_inv in Hc. destruct Hc as (En & Er & Ec & _).
  cbn [run]. unfold step, step_in_field. cbn [state].
  rewrite En, Er, Ec. cbn [rbind]. unfold push_char. cbn [cur_field cur_line
                                             done_lines file_lines].
  rewrite IH by exact Ht. cbn [rev]. now rewrite <- app_assoc.
Qed.

(** Inside quotes every character is kept; a doubled quote is one quote. *)
Lemma run_in_quotes (f fld : str) (line : list str) (L : list (list str))
    (n : nat) :
  run (Build_parser IN_QUOTED_FIELD fld line L n) (escape_quotes f)
  = Ok (Build_parser IN_QUOTED_FIELD (rev f ++ fld) line L n).
Proof.
  revert fld. induction f as [|c t IH]; intros fld; [reflexivity|].
  unfold escape_quotes. cbn [flat_map]. fold (escape_quotes t).
  destruct (is_quote c) eqn:Eq.
  - cbn [app run]. unfold step at 1. cbn [state]. rewrite Eq. cbn [rbind].
    unfold set_state. cbn [cur_field cur_line done_lines file_lines].
    unfold step at 1. cbn [state]. rewrite Eq. cbn [rbind].
    unfold push_char. cbn [cur_field cur_line done_lines file_lines].
    rewrite IH. cbn [rev]. now rewrite <- app_assoc.
  - cbn [app run]. unfold step at 1. cbn [state]. rewrite Eq. cbn [rbind].
    unfold push_char. cbn [cur_field cur_line done_lines file_lines].
    rewrite IH. cbn [rev]. now rewrite <- app_assoc.
Qed.

Lemma run_closing_quote (fld : str) (line : list str) (L : list (list str))
    (n : nat) :
  run (Build_parser IN_QUOTED_FIELD fld line L n) [dquote]
  = Ok (Build_parser QUOTE_IN_QUOTED_FIELD fld line L n).
Proof. reflexivity. Qed.

Lemma unquoted_plain (f : str) :
  existsb needs_quoting f = false -> no_cr f = true -> forallb plain f = true.
Proof.
  unfold no_cr. induction f as [|c t IH]; simpl; [reflexivity|].
  rewrite orb_false_iff, !andb_true_iff. intros [Hq Ht] [Hc Hr].
  unfold plain at 1. rewrite Hq, Hc. split; [reflexivity | now apply IH].
Qed.

Lemma run_opening_quote (line : list str) (L : list (list str)) (n : nat) :
  run (Build_parser START_FIELD [] line L n) [dquote]
  = Ok (Build_parser IN_QUOTED_FIELD [] line L n).
Proof. reflexivity. Qed.

Lemma run_opening_quote_first (L : list (list str)) (n : nat) :
  run (Build_parser START_RECORD [] [] L n) [dquote]
  = Ok (Build_parser IN_QUOTED_FIELD [] [] L n).
Proof. reflexivity. Qed.

Lemma run_field (f : str) (line : list str) (L : list (list str)) (n : nat) :
  no_cr f = true ->
  run (Build_parser START_FIELD [] line L n) (write_field f)
  = Ok (Build_parser (end_state_field f) (rev f) line L n).
Proof.
  intros Hcr. unfold write_field, end_state_field.
  destruct (existsb needs_quoting f) eqn:Eq.
  - change (dquote :: escape_quotes f ++ [dquote])
      with ([dquote] ++ escape_quotes f ++ [dquote]).
    rewrite run_app, run_opening_quote. cbn [rbind].
    rewrite run_app, run_in_quotes. cbn [rbind].
    rewrite app_nil_r. apply run_closing_quote.
  - pose proof (unquoted_plain f Eq Hcr) as Hp.
    destruct f as [|c t]; [reflexivity|].
    simpl in Hp. apply andb_true_iff in Hp. destruct Hp as [Hc Ht].
    apply plain_inv in Hc. destruct Hc as (En & Er & Ec & Equ).
    cbn [run]. unfold step, step_start_field. cbn [state].
    rewrite En, Er, Equ, Ec. cbn [rbind]. unfold push_char.
    cbn [cur_field cur_line done_lines file_lines].
    rewrite run_in_field by exact Ht. cbn [rev]. reflexivity.
Qed.

Lemma run_whitespace_line (f fld : str) (line : list str)
    (L : list (list str)) (n : nat) :
  forallb plain f = true ->
  run (Build_parser WHITESPACE_LINE fld line L n) f
  = Ok (Build_parser (if forallb is_blank f then WHITESPACE_LINE else IN_FIELD)
                     (rev f ++ fld) line L n).
Proof.
  revert fld. induction f as [|c t IH]; intros fld Hf; [reflexivity|].
  simpl in Hf. apply andb_true_iff in Hf. destruct Hf as [Hc Ht].
  apply plain_inv in Hc. destruct Hc as (En & Er & Ec & _).
  cbn [run forallb]. unfold step. cbn [state]. rewrite En, Er.
  destruct (is_blank c) eqn:Eb.
  - cbn [rbind andb]. unfold push_char.
    cbn [cur_field cur_line done_lines file_lines].
    rewrite IH by exact Ht. cbn [rev]. now rewrite <- app_assoc.
  - unfold step_in_field. rewrite En, Er, Ec. cbn [rbind andb].
    unfold push_char. cbn [cur_field cur_line done_lines file_lines].
    rewrite run_in_field by exact Ht. cbn [rev]. now rewrite <- app_assoc.
Qed.

Lemma run_first_field (f : str) (L : list (list str)) (n : nat) :
  no_cr f = true ->
  run (Build_parser START_RECORD [] [] L n) (write_field f)
  = Ok (Build_parser (end_state_first f) (rev f) [] L n).
Proof.
  intros Hcr. unfold write_field, end_state_first.
  destruct (existsb needs_quoting f) eqn:Eq.
  - change (dquote :: escape_quotes f ++ [dquote])
      with ([dquote] ++ escape_quotes f ++ [dquote]).
    rewrite run_app, run_opening_quote_first. cbn [rbind].
    rewrite run_app, run_in_quotes. cbn [rbind].
    rewrite app_nil_r. apply run_closing_quote.
  - pose proof (unquoted_plain f Eq Hcr) as Hp.
    destruct f as [|c t]; [reflexivity|].
    simpl in Hp. apply andb_true_iff in Hp. destruct Hp as [Hc Ht].
    apply plain_inv in Hc. destruct Hc as (En & Er & Ec & Equ).
    cbn [run forallb]. unfold step, step_start_record. cbn [state].
    rewrite En, Er. destruct (is_blank c) eqn:Eb.
    + cbn [rbind andb]. unfold push_char.
      cbn [cur_field cur_line done_lines file_lines].
      rewrite run_whitespace_line by exact Ht. cbn [rev]. reflexivity.
    + unfold step_start_field. rewrite En, Er, Equ, Ec. cbn [rbind andb].
      unfold push_char. cbn [cur_field cur_line done_lines file_lines].
      rewrite run_in_field by exact Ht. cbn [rev]. reflexivity.
Qed.

Lemma step_comma (s : tok_state) (fld : str) (line : list str)
    (L : list (list str)) (n : nat) :
  s <> IN_QUOTED_FIELD -> s <> EAT_CRNL -> s <> EAT_CRNL_NOP ->
  step (Build_parser s fld line L n) comma
  = Ok (Build_parser START_FIELD [] (rev fld :: line) L n).
Proof. destruct s; intros H1 H2 H3; try reflexivity; congruence. Qed.

Lemma end_line_ok (s : tok_state) (fld : str) (line : list str)
    (L : list (list str)) (n : nat) :
  match L with
  | prev :: _ => length prev = length line
  | [] => True
  end ->
  end_line (Build_parser s fld line L n) START_RECORD
  = Ok (Build_parser START_RECORD [] [] (rev line :: L) (S n)).
Proof.
  intros HL. unfold end_line. cbn [cur_line done_lines].
  destruct L as [|prev L']; [reflexivity|].
  rewrite HL, Nat.ltb_irrefl, !andb_false_r. reflexivity.
Qed.

Lemma step_newline (s : tok_state) (fld : str) (line : list str)
    (L : list (list str)) (n : nat) :
  s = START_FIELD \/ s = IN_FIELD \/ s = QUOTE_IN_QUOTED_FIELD ->
  match L with
  | prev :: _ => length prev = S (length line)
  | [] => True
  end ->
  step (Build_parser s fld line L n) newline
  = Ok (Build_parser START_RECORD [] [] (rev (rev fld :: line) :: L) (S n)).
Proof.
  intros Hs HL.
  assert (E : step (Build_parser s fld line L n) newline
              = end_line (Build_parser s [] (rev fld :: line) L n) START_RECORD)
    by (destruct Hs as [-> | [-> | ->]]; reflexivity).
  rewrite E. now apply end_line_ok.
Qed.

Lemma end_state_field_cases (f : str) :
  end_state_field f = START_FIELD \/ end_state_field f = IN_FIELD
  \/ end_state_field f = QUOTE_IN_QUOTED_FIELD.
Proof.
  unfold end_state_field.
  destruct (existsb needs_quoting f); [tauto|]. destruct f; tauto.
Qed.

Lemma end_state_first_cases (f : str) :
  end_state_first f <> IN_QUOTED_FIELD /\ end_state_first f <> EAT_CRNL
  /\ end_state_first f <> EAT_CRNL_NOP.
Proof.
  unfold end_state_first.
  destruct (existsb needs_quoting f); [repeat split; discriminate|].
  destruct f; [repeat split; discriminate|].
  destruct (forallb is_blank (a :: f)); repeat split; discriminate.
Qed.

Lemma run_one (p : parser) (c : ascii) : run p [c] = step p c.
Proof. cbn [run]. now destruct (step p c). Qed.

(** The fields of a record after the first, up to the end of the line. *)
Lemma run_fields (fs line : list str) (L : list (list str)) (n : nat) :
  fs <> [] ->
  forallb no_cr fs = true ->
  match L with
  | prev :: _ => length prev = length fs + length line
  | [] => True
  end ->
  run (Build_parser START_FIELD [] line L n)
      (join comma (map write_field fs) ++ [newline])
  = Ok (Build_parser START_RECORD [] [] ((rev line ++ fs) :: L) (S n)).
Proof.
  revert line. induction fs as [|f fs IH]; intros line Hne Hcr HL;
    [congruence|].
  cbn [forallb] in Hcr. apply andb_true_iff in Hcr. destruct Hcr as [Hf Hfs].
  destruct fs as [|g more].
  - cbn [map join]. rewrite run_app, run_field by exact Hf. cbn [rbind].
    rewrite run_one, step_newline.
    + rewrite rev_involutive. cbn [rev]. reflexivity.
    + apply end_state_field_cases.
    + destruct L; [exact I|]. cbn [length] in HL. lia.
  - change (join comma (map write_field (f :: g :: more)))
      with (write_field f ++ comma :: join comma (map write_field (g :: more))).
    rewrite <- app_assoc, run_app, run_field by exact Hf. cbn [rbind].
    change ((comma :: join comma (map write_field (g :: more))) ++ [newline])
      with ([comma] ++ join comma (map write_field (g :: more)) ++ [newline]).
    rewrite run_app, run_one, step_comma.
    + cbn [rbind]. rewrite rev_involutive.
      rewrite IH; [|discriminate | exact Hfs |].
      * cbn [rev]. now rewrite <- app_assoc.
      * destruct L; [exact I|]. cbn [length] in *. lia.
    + destruct (end_state_field_cases f) as [-> | [-> | ->]]; discriminate.
    + destruct (end_state_field_cases f) as [-> | [-> | ->]]; discriminate.
    + destruct (end_state_field_cases f) as [-> | [-> | ->]]; discriminate.
Qed.

Lemma write_field_nil (f : str) : write_field f = [] -> f = [].
Proof.
  unfold write_field. destruct (existsb needs_quoting f); [discriminate|auto].
Qed.

(** One record, from the start of a line.  [single] says that the record
    has one field. *)
Lemma run_record (fs : list str) (L : list (list str)) (n : nat) :
  fs <> [] ->
  forallb (safe_text (length fs =? 1)) fs = true ->
  match L with
  | prev :: _ => length prev = length fs
  | [] => True
  end ->
  run (Build_parser START_RECORD [] [] L n) (writerow fs)
  = Ok (Build_parser START_RECORD [] [] (fs :: L) (S n)).
Proof.
  intros Hne Hsafe HL. destruct fs as [|f fs]; [congruence|].
  assert (Hcr : forallb no_cr (f :: fs) = true).
  { apply forallb_forall. intros x Hx.
    rewrite forallb_forall in Hsafe. apply Hsafe in Hx.
    unfold safe_text in Hx. now apply andb_true_iff in Hx. }
  cbn [forallb] in Hcr. apply andb_true_iff in Hcr. destruct Hcr as [Hf Hfs].
  destruct fs as [|g more].
  - unfold writerow. cbn [map join].
    cbn [forallb length Nat.eqb] in Hsafe. rewrite andb_true_r in Hsafe.
    unfold safe_text in Hsafe. apply andb_true_iff in Hsafe.
    destruct Hsafe as [_ Hblank]. cbn [negb orb] in Hblank.
    destruct (write_field f) as [|c t] eqn:Ew.
    + apply write_field_nil in Ew. subst f.
      change [dquote; dquote; newline]
        with ([dquote] ++ [dquote] ++ [newline]).
      rewrite run_app, run_opening_quote_first. cbn [rbind].
      rewrite run_app, run_closing_quote. cbn [rbind].
      rewrite run_one, step_newline; [reflexivity | tauto |].
      destruct L; [exact I | exact HL].
    + rewrite <- Ew. rewrite run_app, run_first_field by exact Hf.
      cbn [rbind]. rewrite run_one, step_newline.
      * rewrite rev_involutive. reflexivity.
      * unfold end_state_first.
        destruct (existsb needs_quoting f); [tauto|].
        destruct f as [|a f']; [discriminate Ew|].
        cbn [is_empty_str orb] in Hblank.
        apply negb_true_iff in Hblank. rewrite Hblank. tauto.
      * destruct L; [exact I | exact HL].
  - unfold writerow.
    change (join comma (map write_field (f :: g :: more)))
      with (write_field f ++ comma :: join comma (map write_field (g :: more))).
    destruct (write_field f ++ comma :: join comma (map write_field (g :: more)))
      as [|c t] eqn:Ew.
    { destruct (write_field f); discriminate. }
    rewrite <- Ew. clear Ew c t.
    rewrite <- app_assoc, run_app, run_first_field by exact Hf. cbn [rbind].
    change ((comma :: join comma (map write_field (g :: more))) ++ [newline])
      with ([comma] ++ join comma (map write_field (g :: more)) ++ [newline]).
    destruct (end_state_first_cases f) as (N1 & N2 & N3).
    rewrite run_app, run_one, step_comma by assumption.
    cbn [rbind]. rewrite rev_involutive.
    rewrite run_fields; [reflexivity | discriminate | exact Hfs |].
    destruct L; [exact I|]. cbn [length] in *. lia.
Qed.

Lemma run_records (k : nat) (rows : list (list str)) (L : list (list str))
    (n : nat) :
  k <> 0 ->
  Forall (fun r => length r = k /\ forallb (safe_text (k =? 1)) r = true)
         rows ->
  match L with
  | prev :: _ => length prev = k
  | [] => True
  end ->
  run (Build_parser START_RECORD [] [] L n) (flat_map writerow rows)
  = Ok (Build_parser START_RECORD [] [] (rev rows ++ L) (length rows + n)).
Proof.
  intros Hk Hrows. revert L n.
  induction Hrows as [|r rows [Hlen Hsafe] _ IH]; intros L n HL;
    [reflexivity|].
  cbn [flat_map]. rewrite run_app, run_record.
  - cbn [rbind]. rewrite IH by exact Hlen.
    cbn [rev length]. now rewrite <- app_assoc, Nat.add_succ_r.
  - destruct r; [simpl in Hlen; congruence | discriminate].
  - now rewrite Hlen.
  - destruct L; [exact I | congruence].
Qed.

(** The tokenizer gives back the records that the writer was given. *)
Lemma tokenize_written (header : list str) (rows : list (list str)) :
  header <> [] ->
  Forall (fun r => length r = length header
                   /\ forallb (safe_text (length header =? 1)) r = true)
         (header :: rows) ->
  tokenize (writerow header ++ flat_map writerow rows) = Ok (header :: rows).
Proof.
  intros Hne Hall. unfold tokenize, init_parser.
  change (writerow header ++ flat_map writerow rows)
    with (flat_map writerow (header :: rows)).
  rewrite (run_records (k := length header)); [| | exact Hall | exact I].
  - cbn [rbind handle_eof state done_lines]. rewrite app_nil_r.
    now rewrite rev_involutive.
  - destruct header; [congruence | discriminate].
Qed.

(** The messages of the tokenizer: the line number counts the skipped
    blank lines, and the row of an unclosed quote is the number of lines
    before it. *)
Lemma tokenize_messages :
  tokenize (lit "a,b" ++ [newline] ++ lit "1,2" ++ [newline] ++ [newline]
            ++ lit "3,4,5" ++ [newline])
  = Raise (Exn ParserError
             (lit "Error tokenizing data. C error: Expected 2 fields in line 4, saw 3"
              ++ [newline]))
  /\ tokenize (lit "a" ++ [newline] ++ [dquote] ++ lit "b")
     = Raise (Exn ParserError
                "Error tokenizing data. C error: EOF inside string starting at row 1").
Proof. split; reflexivity. Qed.

(** *** Header names *)

Lemma mapi_unnamed_nonempty (i : nat) (line : list str) :
  Forall (fun n => n <> []) line -> mapi_from unnamed i line = line.
Proof.
  intros H. revert i. induction H as [|n t Hn _ IH]; intros i;
    [reflexivity|].
  cbn [mapi_from]. rewrite IH. destruct n; [congruence | reflexivity].
Qed.

Lemma filter_nonempty_idx (line : list str) (idx : list nat) :
  Forall (fun n => n <> []) line ->
  Forall (fun i => i < length line) idx ->
  filter (fun i => is_empty_str (nth i line [])) idx = []
  /\ filter (fun i => negb (is_empty_str (nth i line []))) idx = idx.
Proof.
  intros Hl Hidx. rewrite Forall_forall in Hl.
  induction Hidx as [|i t Hi _ [IH1 IH2]]; [split; reflexivity|].
  cbn [filter].
  assert (E : is_empty_str (nth i line []) = false).
  { pose proof (Hl _ (nth_In line [] Hi)) as Hn.
    destruct (nth i line []); [congruence | reflexivity]. }
  rewrite E. cbn [negb]. now rewrite IH1, IH2.
Qed.

Lemma counts_get_absent (counts : list (str * nat)) (k : str) :
  ~ In k (map fst counts) -> counts_get counts k = 0.
Proof.
  unfold counts_get. induction counts as [|[k' v] t IH]; [reflexivity|].
  cbn [map fst In find]. intros Hn.
  destruct (str_eqb k k') eqn:E.
  - apply str_eqb_eq in E. subst. tauto.
  - apply IH. tauto.
Qed.

Lemma set_nth_same {A} (l : list A) (i : nat) (d : A) :
  set_nth i (nth i l d) l = l.
Proof.
  revert i. induction l as [|a t IH]; intros [|i]; cbn; try reflexivity.
  now rewrite IH.
Qed.

Lemma nth_not_in_firstn {A} (l : list A) (i : nat) (d : A) :
  NoDup l -> i < length l -> ~ In (nth i l d) (firstn i l).
Proof.
  intros Hnd. revert i. induction Hnd as [|a t Ha _ IH]; intros i Hi.
  - simpl in Hi. lia.
  - destruct i as [|i]; [cbn; tauto|].
    cbn [nth firstn In length] in *. intros [E | Hin].
    + apply Ha. rewrite E. apply nth_In. lia.
    + apply (IH i); [lia | exact Hin].
Qed.

Lemma in_firstn_S {A} (l : list A) (i : nat) (d : A) (x : A) :
  i < length l ->
  x = nth i l d \/ In x (firstn i l) -> In x (firstn (S i) l).
Proof.
  revert i. induction l as [|a t IH]; intros i Hi.
  - simpl in Hi. lia.
  - destruct i as [|i].
    + cbn. intros [-> | []]. now left.
    + cbn [nth firstn In length] in *.
      intros [E | [E | Hin]]; [right | now left | right].
      * apply IH; [lia | now left].
      * apply IH; [lia | now right].
Qed.

Lemma counts_set_keys (counts : list (str * nat)) (k : str) (v : nat)
    (x : str) :
  In x (map fst (counts_set counts k v)) -> x = k \/ In x (map fst counts).
Proof.
  unfold counts_set. cbn [map fst In]. intros [E | Hin]; [now left|].
  right. apply in_map_iff in Hin. destruct Hin as [kv [<- Hkv]].
  apply filter_In in Hkv. apply in_map. tauto.
Qed.

(** Distinct names are left as they are. *)
Lemma dedup_names_distinct (header : list str) :
  NoDup header ->
  forall m i counts,
    i + m = length header ->
    (forall k, In k (map fst counts) -> In k (firstn i header)) ->
    dedup_names (seq i m) header counts = Some header.
Proof.
  intros Hnd. induction m as [|m IH]; intros i counts Hlen Hkeys;
    [reflexivity|].
  cbn [seq dedup_names].
  assert (Hi : i < length header) by lia.
  rewrite counts_get_absent.
  2:{ intros Hin. apply Hkeys in Hin.
      now apply (nth_not_in_firstn [] Hnd Hi). }
  cbn [dedup_loop]. rewrite set_nth_same.
  apply IH; [lia|].
  intros k Hk. apply counts_set_keys in Hk.
  apply in_firstn_S with (d := []); [exact Hi|].
  destruct Hk as [-> | Hk]; [now left | right; now apply Hkeys].
Qed.

Lemma header_names_distinct (line : list str) :
  NoDup line -> Forall (fun n => n <> []) line ->
  header_names line = Some line.
Proof.
  intros Hnd Hne. unfold header_names.
  rewrite (mapi_unnamed_nonempty 0 Hne).
  destruct (filter_nonempty_idx (idx := seq 0 (length line)) Hne)
    as [E1 E2].
  { apply Forall_forall. intros i Hi. apply in_seq in Hi. lia. }
  rewrite E1, E2, app_nil_r.
  apply dedup_names_distinct; [exact Hnd | reflexivity |].
  intros k [].
Qed.

(** *** The text of cells *)

Lemma quiet_safe (single : bool) (f : str) :
  Forall quiet f -> safe_text single f = true.
Proof.
  intros Hq. unfold safe_text. apply andb_true_iff. split.
  - apply forallb_forall. intros c Hc. rewrite Forall_forall in Hq.
    destruct (Hq c Hc) as [E _]. now rewrite E.
  - destruct f as [|c t]; [now rewrite orb_true_r|].
    inversion Hq as [|? ? [_ Eb] _]; subst. cbn [forallb]. rewrite Eb.
    now rewrite orb_true_r.
Qed.

Lemma uint_text_quiet (u : Decimal.uint) :
  Forall quiet (lit (NilEmpty.string_of_uint u)).
Proof.
  induction u; cbn [NilEmpty.string_of_uint lit list_ascii_of_string];
    try constructor; try (split; reflexivity); assumption.
Qed.

Lemma str_of_Z_quiet (n : Z) : Forall quiet (str_of_Z n).
Proof.
  unfold str_of_Z. destruct (Z.to_int n) as [u|u];
    cbn [NilEmpty.string_of_int lit list_ascii_of_string].
  - apply uint_text_quiet.
  - constructor; [split; reflexivity | apply uint_text_quiet].
Qed.

Lemma float_char_quiet (c : ascii) : is_float_char c = true -> quiet c.
Proof.
  unfold is_float_char, quiet, in_range, is_cr, is_blank.
  rewrite orb_true_iff, andb_true_iff, !N.leb_le. intros [[Hlo Hhi] | Hin].
  - repeat rewrite orb_false_iff. repeat split; apply N.eqb_neq; lia.
  - apply existsb_exists in Hin. destruct Hin as [x [Hx E]].
    apply Ascii.eqb_eq in E. subst x.
    cbn in Hx. repeat (destruct Hx as [<- | Hx]; [split; reflexivity|]).
    destruct Hx.
Qed.

(** The text of a date begins with a digit and holds no carriage return. *)
Lemma date_text_safe (single : bool) (f : str) :
  is_date_text f = true -> safe_text single f = true.
Proof.
  destruct f as [|d rest]; [discriminate|]. cbn [is_date_text].
  rewrite andb_true_iff. intros [Hd Hrest].
  assert (Hcode : (48 <= code d <= 57)%N).
  { unfold in_range in Hd. apply andb_true_iff in Hd.
    rewrite !N.leb_le in Hd. exact Hd. }
  unfold safe_text. apply andb_true_iff. split.
  - cbn [forallb]. rewrite Hrest, andb_true_r.
    unfold is_cr. apply negb_true_iff, N.eqb_neq. lia.
  - cbn [is_empty_str forallb orb].
    assert (Eb : is_blank d = false).
    { unfold is_blank. rewrite orb_false_iff.
      split; apply N.eqb_neq; lia. }
    rewrite Eb. cbn [andb negb]. now rewrite orb_true_r.
Qed.

Lemma csv_field_safe `{Kernels} (single : bool) (c : Series) (v : cell) :
  safe_cell single v = true -> safe_text single (csv_field c v) = true.
Proof.
  destruct v as [n | x | b | s | t |]; cbn [safe_cell csv_field]; intros Hs.
  - apply quiet_safe, str_of_Z_quiet.
  - destruct (is_nan x); [apply quiet_safe; constructor|].
    apply quiet_safe. apply Forall_forall. intros a Ha.
    apply float_char_quiet.
    pose proof (float_repr_chars x) as Hall.
    rewrite forallb_forall in Hall. now apply Hall.
  - destruct b; apply quiet_safe; repeat constructor.
  - exact Hs.
  - apply date_text_safe, time_repr_text.
  - apply quiet_safe. constructor.
Qed.

Lemma csv_field_nan_cell `{Kernels} (c : Series) : csv_field c nan_cell = [].
Proof. reflexivity. Qed.


Lemma row_fields_safe `{Kernels} (df : DataFrame) (i : nat) :
  csv_safe df = true ->
  forallb (safe_text (length (series df) =? 1))
          (map (fun c => csv_field c (nth i (values c) nan_cell))
               (series df)) = true.
Proof.
  unfold csv_safe. cbv zeta.
  set (single := length (series df) =? 1). clearbody single.
  intros Hs. apply forallb_forall. intros f Hf.
  apply in_map_iff in Hf. destruct Hf as [c [<- Hc]].
  rewrite forallb_forall in Hs. apply Hs in Hc.
  apply andb_true_iff in Hc. destruct Hc as [_ Hvals].
  destruct (nth_in_or_default i (values c) nan_cell) as [Hin | Hd].
  - apply csv_field_safe. rewrite forallb_forall in Hvals. now apply Hvals.
  - rewrite Hd, csv_field_nan_cell. now apply quiet_safe.
Qed.

Lemma length_csv_header (df : DataFrame) :
  length (csv_header df) = length (series df).
Proof. unfold csv_header, columns. now rewrite !length_map. Qed.

Lemma length_csv_records `{Kernels} (df : DataFrame) :
  length (csv_records df) = len df.
Proof. unfold csv_records. now rewrite length_map, length_seq. Qed.

(** The tokenizer gives back the header and the records of a frame. *)
Lemma tokenize_to_csv `{Kernels} (df : DataFrame) :
  series df <> [] ->
  csv_safe df = true ->
  tokenize (to_csv df) = Ok (csv_header df :: csv_records df).
Proof.
  intros Hcols Hsafe.
  pose proof (length_csv_header df) as Hw.
  unfold to_csv. apply tokenize_written.
  - intros E. rewrite E in Hw. cbn [length] in Hw.
    destruct (series df); [congruence | discriminate].
  - rewrite Hw. constructor.
    + split; [exact Hw|].
      apply forallb_forall. intros n Hn. unfold csv_header, columns in Hn.
      rewrite map_map in Hn.
      apply in_map_iff in Hn. destruct Hn as [c [<- Hc]].
      unfold csv_safe in Hsafe. cbv zeta in Hsafe.
      rewrite forallb_forall in Hsafe. apply Hsafe in Hc.
      now apply andb_true_iff in Hc.
    + apply Forall_forall. intros r Hr. unfold csv_records in Hr.
      apply in_map_iff in Hr. destruct Hr as [i [<- _]]. split.
      * now rewrite length_map.
      * now apply row_fields_safe.
Qed.

(** C9 (amended): for every frame with at least one column, whose column
    names are non-empty and pairwise distinct, and whose column names and
    text values hold no carriage return and, when the frame has a single
    column, are not made of spaces and tabs only, writing the frame with
    the full-data CSV renderer (no index column) and reading the text back
    gives the same column names and the same number of rows.  (The column
    names are the texts of the header; a NaN label is written as the empty
    name.) *)
Theorem csv_round_trip `{Kernels} (df : DataFrame) :
  series df <> [] ->
  NoDup (csv_header df) ->
  Forall (fun n => n <> []) (csv_header df) ->
  csv_safe df = true ->
  generate_csv_report df "full_data" = Ok (CsvReport (to_csv df))
  /\ exists raw,
       read_csv_raw (to_csv df) = Ok raw
       /\ raw_names raw = csv_header df
       /\ length (raw_rows raw) = len df.
Proof.
  intros Hcols Hnd Hne Hsafe. split; [reflexivity|].
  exists {| raw_names := csv_header df; raw_rows := csv_records df |}.
  split; [|split; [reflexivity|]].
  - unfold read_csv_raw. rewrite (tokenize_to_csv df Hcols Hsafe).
    cbn [rbind]. now rewrite (header_names_distinct Hnd Hne).
  - cbn [raw_rows]. apply length_csv_records.
Qed.

(** A frame with a text column holding a comma, a quote and a line break,
    and a numeric column with a missing value. *)
Lemma csv_round_trip_witness :
  csv_safe quoted_frame = true
  /\ exists raw,
       read_csv_raw (@to_csv example_kernels quoted_frame) = Ok raw
       /\ raw_names raw = [lit "remark"; lit "n"]
       /\ length (raw_rows raw) = 3.
Proof.
  split; [reflexivity|].
  destruct (@csv_round_trip example_kernels quoted_frame)
    as (_ & raw & Hread & Hnames & Hrows).
  - discriminate.
  - repeat constructor; cbn; intuition discriminate.
  - repeat constructor; discriminate.
  - reflexivity.
  - exists raw. split; [exact Hread|]. split; [exact Hnames | exact Hrows].
Defined.

(** *** The renaming of header names always ends *)

Lemma str_of_nat_inj (a b : nat) : str_of_nat a = str_of_nat b -> a = b.
Proof.
  unfold str_of_nat, lit. intros E.
  apply (f_equal string_of_list_ascii) in E.
  rewrite !string_of_list_ascii_of_string in E.
  apply (f_equal NilEmpty.uint_of_string) in E.
  rewrite !NilEmpty.usu in E. inversion E as [E'].
  apply (f_equal Nat.of_uint) in E'. now rewrite !Unsigned.of_to in E'.
Qed.

Lemma mangled_inj (old : str) (a b : nat) :
  mangled old a = mangled old b -> a = b.
Proof.
  unfold mangled. intros E. apply app_inv_head in E.
  inversion E as [E']. now apply str_of_nat_inj.
Qed.

Lemma mangled_neq_old (old : str) (k : nat) : mangled old k <> old.
Proof.
  unfold mangled. intros E. apply (f_equal (@length ascii)) in E.
  rewrite length_app in E. cbn [length] in E. lia.
Qed.

(** At most [length header] consecutive candidates can be taken. *)
Lemma taken_candidates_bound (old : str) (header : list str) (lo hi : nat) :
  (forall k, lo <= k < hi -> In (mangled old k) header) ->
  hi - lo <= length header.
Proof.
  intros Hin.
  assert (Hnd : NoDup (map (mangled old) (seq lo (hi - lo)))).
  { apply NoDup_map_NoDup_ForallPairs; [|apply seq_NoDup].
    intros a b _ _. apply mangled_inj. }
  apply NoDup_incl_length with (l' := header) in Hnd.
  - now rewrite length_map, length_seq in Hnd.
  - intros x Hx. apply in_map_iff in Hx. destruct Hx as [k [<- Hk]].
    apply in_seq in Hk. apply Hin. lia.
Qed.

Lemma counts_get_present (counts : list (str * nat)) (k : str) :
  counts_get counts k <> 0 -> In k (map fst counts).
Proof.
  intros Hn. destruct (in_dec (list_eq_dec ascii_dec) k (map fst counts))
    as [Hin | Hout]; [exact Hin|].
  now rewrite counts_get_absent in Hn.
Qed.

Lemma dedup_loop_total (old : str) (header : list str) :
  In old header ->
  forall fuel col cur cur0 counts,
    (forall k, In k (map fst counts) -> In k header) ->
    cur0 <= cur ->
    (forall k, cur0 <= k < cur -> In (mangled old k) header) ->
    length header < fuel + (cur - cur0) ->
    exists col' counts',
      dedup_loop fuel old col cur header counts = Some (col', 0, counts')
      /\ (forall k, In k (map fst counts') ->
                    k = old \/ In k (map fst counts))
      /\ (cur = 0 -> col' = col /\ counts' = counts).
Proof.
  intros Hold. induction fuel as [|fuel IH];
    intros col cur cur0 counts Hkeys Hle Htaken Hfuel.
  - destruct cur as [|c].
    + exists col, counts. cbn. repeat split; auto.
    + exfalso.
      pose proof (@taken_candidates_bound old header cur0 (S c) Htaken). lia.
  - destruct cur as [|c].
    + exists col, counts. cbn. repeat split; auto.
    + cbn [dedup_loop].
      set (counts1 := counts_set counts old (S c + 1)).
      assert (Hkeys1 : forall k, In k (map fst counts1) ->
                                 k = old \/ In k (map fst counts))
        by (intros k Hk; now apply counts_set_keys in Hk).
      destruct (mem_str (mangled old (S c)) header) eqn:Emem.
      * apply mem_str_In in Emem.
        destruct (IH (mangled old (S c)) (S c + 1) cur0 counts1)
          as (col' & counts' & E & Hk' & _).
        -- intros k Hk. destruct (Hkeys1 k Hk) as [-> | Hin]; auto.
        -- lia.
        -- intros k Hk. destruct (Nat.eq_dec k (S c)) as [-> | Hne];
             [exact Emem | apply Htaken; lia].
        -- lia.
        -- exists col', counts'. split; [exact E|]. split; [|discriminate].
           intros k Hk. destruct (Hk' k Hk) as [-> | Hin]; [now left|].
           now apply Hkeys1.
      * apply mem_str_false in Emem.
        rewrite counts_get_absent.
        2:{ intros Hin. destruct (Hkeys1 _ Hin) as [E | Hin'].
            - now apply mangled_neq_old in E.
            - apply Emem. now apply Hkeys. }
        exists (mangled old (S c)), counts1.
        split; [destruct fuel; reflexivity|]. split; [exact Hkeys1|].
        discriminate.
Qed.

Lemma length_set_nth {A} (i : nat) (x : A) (l : list A) :
  length (set_nth i x l) = length l.
Proof.
  revert i. induction l as [|a t IH]; intros [|i]; cbn; auto.
Qed.

Lemma nth_set_nth_eq {A} (i : nat) (x d : A) (l : list A) :
  i < length l -> nth i (set_nth i x l) d = x.
Proof.
  revert i. induction l as [|a t IH]; intros [|i] Hi; cbn in *; try lia;
    [reflexivity | apply IH; lia].
Qed.

Lemma nth_set_nth_neq {A} (i j : nat) (x d : A) (l : list A) :
  i <> j -> nth j (set_nth i x l) d = nth j l d.
Proof.
  revert i j. induction l as [|a t IH]; intros [|i] [|j] Hne; cbn;
    try reflexivity; try congruence.
  apply IH. congruence.
Qed.

Lemma dedup_names_total (order : list nat) :
  NoDup order ->
  forall (header : list str) (counts : list (str * nat))
         (processed : list nat),
    (forall i, In i order -> i < length header /\ ~ In i processed) ->
    (forall k, In k (map fst counts) ->
               exists j, In j processed /\ j < length header
                         /\ nth j header [] = k) ->
    exists names, dedup_names order header counts = Some names.
Proof.
  induction 1 as [|i rest Hi _ IH]; intros header counts processed Hord Hinv.
  - now exists header.
  - cbn [dedup_names]. cbv zeta.
    destruct (Hord i (or_introl eq_refl)) as [Hlt Hnew].
    remember (@nth str i header []) as col eqn:Ecol.
    assert (Hcol : In col header) by (subst col; now apply nth_In).
    assert (Hkeys : forall k, In k (map fst counts) -> In k header).
    { intros k Hk. destruct (Hinv k Hk) as (j & _ & Hj & <-).
      now apply nth_In. }
    destruct (@dedup_loop_total col header Hcol
                (S (@length str header)) col (counts_get counts col)
                (counts_get counts col) counts Hkeys (Nat.le_refl _))
      as (col' & counts' & E & Hk' & Hzero);
      [intros k Hk; lia
      | rewrite Nat.sub_diag, Nat.add_0_r; apply Nat.lt_succ_diag_r |].
    rewrite E.
    apply (IH _ _ (i :: processed)).
    + intros i' Hi'. destruct (Hord i' (or_intror Hi')) as [Hlt' Hnew'].
      rewrite length_set_nth. split; [exact Hlt'|].
      intros [-> | Hp]; [exact (Hi Hi') | exact (Hnew' Hp)].
    + intros k Hk. apply counts_set_keys in Hk. rewrite length_set_nth.
      assert (Hold : In k (map fst counts) ->
                     exists j, In j (i :: processed) /\ j < length header
                               /\ nth j (set_nth i col' header) [] = k).
      { intros Hin. destruct (Hinv k Hin) as (j & Hj & Hjl & Hnth).
        exists j. split; [now right|]. split; [exact Hjl|].
        rewrite nth_set_nth_neq; [exact Hnth|].
        intros ->. exact (Hnew Hj). }
      destruct Hk as [-> | Hk].
      * exists i. split; [now left|]. split; [exact Hlt|].
        now apply nth_set_nth_eq.
      * destruct (Hk' k Hk) as [-> | Hin]; [|now apply Hold].
        destruct (Nat.eq_dec (counts_get counts col) 0) as [Ez | Enz].
        -- destruct (Hzero Ez) as [_ ->]. now apply Hold.
        -- apply Hold. now apply counts_get_present.
Qed.

Lemma length_mapi_from {A B} (f : nat -> A -> B) (i : nat) (l : list A) :
  length (mapi_from f i l) = length l.
Proof.
  revert i. induction l as [|a t IH]; intros i; cbn; [reflexivity|].
  now rewrite IH.
Qed.

Lemma NoDup_partition {A} (p : A -> bool) (l : list A) :
  NoDup l -> NoDup (filter (fun x => negb (p x)) l ++ filter p l).
Proof.
  intros Hnd. apply NoDup_app.
  - now apply NoDup_filter.
  - now apply NoDup_filter.
  - intros x Hx Hx'. apply filter_In in Hx. apply filter_In in Hx'.
    destruct Hx as [_ E], Hx' as [_ E']. rewrite E' in E. discriminate.
Qed.

(** Every header line gets its names: the fuel of the renaming loop is
    never used up. *)
Lemma header_names_total (line : list str) :
  exists names, header_names line = Some names.
Proof.
  unfold header_names.
  apply dedup_names_total with (processed := []).
  - apply (NoDup_partition (fun i => is_empty_str (nth i line []))).
    apply seq_NoDup.
  - intros i Hi. rewrite length_mapi_from. split; [|tauto].
    apply in_app_or in Hi. destruct Hi as [Hi | Hi];
      apply filter_In in Hi; destruct Hi as [Hi _];
      apply in_seq in Hi; lia.
  - intros k [].
Qed.

(** ** File names and column names, further properties *)

Lemma is_dot_eq (c : ascii) : is_dot c = true <-> c = dot.
Proof.
  unfold is_dot, code. rewrite N.eqb_eq. split.
  - intros E. rewrite <- (ascii_N_embedding c), E. reflexivity.
  - now intros ->.
Qed.

Lemma rsplit_dot_none (s : str) :
  rsplit_dot s = None <-> existsb is_dot s = false.
Proof.
  induction s as [|c t IH]; cbn [rsplit_dot existsb]; [tauto|].
  destruct (rsplit_dot t) as [[pre post]|].
  - split; [discriminate|]. rewrite orb_false_iff. intros [_ E].
    apply IH in E. discriminate.
  - destruct (is_dot c); cbn [orb]; [split; discriminate|].
    split; intros _; [now apply IH | reflexivity].
Qed.

(** [rsplit('.', 1)] splits at the last dot. *)
Lemma rsplit_dot_some (s pre post : str) :
  rsplit_dot s = Some (pre, post)
  <-> s = pre ++ dot :: post /\ existsb is_dot post = false.
Proof.
  revert pre. induction s as [|c t IH]; intros pre; cbn [rsplit_dot].
  - split; [discriminate|]. intros [E _]. destruct pre; discriminate.
  - destruct (rsplit_dot t) as [[pre' post']|] eqn:Et.
    + split.
      * intros E. inversion E; subst.
        destruct (proj1 (IH pre') eq_refl) as [-> Hp]. now split.
      * intros [E Hp]. destruct pre as [|a pre].
        -- cbn in E. inversion E; subst.
           assert (Hnone : rsplit_dot post = None) by now apply rsplit_dot_none.
           congruence.
        -- cbn in E. inversion E; subst.
           assert (Hs : Some (pre', post') = Some (pre, post))
             by (apply IH; now split).
           now inversion Hs.
    + apply rsplit_dot_none in Et. destruct (is_dot c) eqn:Ec.
      * apply is_dot_eq in Ec. subst c. split.
        -- intros E. inversion E; subst. now split.
        -- intros [E Hp]. destruct pre as [|a pre].
           ++ cbn in E. now inversion E.
           ++ cbn in E. inversion E; subst.
              rewrite existsb_app in Et. cbn in Et.
              rewrite orb_true_r in Et. discriminate.
      * split; [discriminate|]. intros [E Hp]. destruct pre as [|a pre].
        -- cbn in E. inversion E; subst. discriminate.
        -- cbn in E. inversion E; subst.
           rewrite existsb_app in Et. cbn in Et.
           rewrite orb_true_r in Et. discriminate.
Qed.

(** A file name is allowed exactly when it is [stem.ext] with no dot in
    [ext] and [ext], in any letter case, being csv or xlsx; a name without
    a dot is never allowed. *)
Theorem allowed_file_iff (name : str) :
  allowed_file name = true
  <-> exists stem ext,
        name = stem ++ dot :: ext
        /\ existsb is_dot ext = false
        /\ (lower ext = lit "csv" \/ lower ext = lit "xlsx").
Proof.
  unfold allowed_file. split.
  - intros E. apply andb_true_iff in E. destruct E as [_ E].
    destruct (rsplit_dot name) as [[stem ext]|] eqn:Es; [|discriminate].
    apply rsplit_dot_some in Es. destruct Es as [-> Hd].
    exists stem, ext. split; [reflexivity|]. split; [exact Hd|].
    apply mem_str_In in E. cbn in E. intuition.
  - intros (stem & ext & -> & Hd & Hext).
    assert (Es : rsplit_dot (stem ++ dot :: ext) = Some (stem, ext))
      by (apply rsplit_dot_some; now split).
    rewrite Es. apply andb_true_iff. split.
    + rewrite existsb_app. cbn. now rewrite orb_true_r.
    + apply mem_str_In. cbn. intuition.
Qed.

Lemma is_underscore_eq (c : ascii) : is_underscore c = true <-> c = underscore.
Proof.
  unfold is_underscore, code. rewrite N.eqb_eq. split.
  - intros E. rewrite <- (ascii_N_embedding c), E. reflexivity.
  - now intros ->.
Qed.

Lemma in_range_spec (lo hi : N) (c : ascii) :
  in_range lo hi c = true <-> (lo <= code c <= hi)%N.
Proof. unfold in_range. rewrite andb_true_iff, !N.leb_le. tauto. Qed.

Lemma in_range_false (lo hi : N) (c : ascii) :
  (code c < lo \/ hi < code c)%N -> in_range lo hi c = false.
Proof.
  intros H. destruct (in_range lo hi c) eqn:E; [|reflexivity].
  apply in_range_spec in E. lia.
Qed.

Lemma word_code (c : ascii) :
  is_word c = true ->
  (97 <= code c <= 122 \/ 48 <= code c <= 57 \/ code c = 95)%N.
Proof.
  unfold is_word, is_lower_alnum, is_underscore.
  rewrite !orb_true_iff, !in_range_spec, N.eqb_eq. tauto.
Qed.

Lemma word_not_space (c : ascii) : is_word c = true -> is_space c = false.
Proof.
  intros H. apply word_code in H. unfold is_space.
  rewrite !orb_false_iff. repeat split;
    try (apply in_range_false; lia); apply N.eqb_neq; lia.
Qed.

Lemma word_lower_char (c : ascii) : is_word c = true -> lower_char c = c.
Proof.
  intros H. apply word_code in H. unfold lower_char.
  rewrite (@in_range_false 65%N 90%N c) by lia.
  rewrite (@in_range_false 192%N 222%N c) by lia. reflexivity.
Qed.

Lemma lstrip_word (s : str) : forallb is_word s = true -> lstrip s = s.
Proof.
  destruct s as [|c t]; [reflexivity|]. cbn [forallb lstrip].
  intros H. apply andb_true_iff in H. destruct H as [Hc _].
  now rewrite (word_not_space c Hc).
Qed.

Lemma strip_word (s : str) : forallb is_word s = true -> strip s = s.
Proof.
  intros H. unfold strip, rstrip. rewrite (lstrip_word s H).
  rewrite lstrip_word by now rewrite forallb_rev.
  apply rev_involutive.
Qed.

Lemma lower_word (s : str) : forallb is_word s = true -> lower s = s.
Proof.
  unfold lower. induction s as [|c t IH]; cbn [forallb map]; [reflexivity|].
  intros H. apply andb_true_iff in H. destruct H as [Hc Ht].
  now rewrite (word_lower_char c Hc), IH.
Qed.

Lemma re_sub_each_word (s : str) :
  forallb is_word s = true -> re_sub_each not_word [underscore] s = s.
Proof.
  induction s as [|c t IH]; cbn [forallb re_sub_each]; [reflexivity|].
  intros H. apply andb_true_iff in H. destruct H as [Hc Ht].
  assert (E : not_word c = false) by (unfold not_word; now rewrite Hc).
  rewrite E. cbn [app]. now rewrite IH.
Qed.

(** One scan over a class that holds the underscore leaves no two
    underscores in a row. *)
Lemma scan_no_adjacent (p : ascii -> bool) (b : bool) (s : str) :
  p underscore = true ->
  no_adjacent_underscores (re_sub_scan p [underscore] b s) = true
  /\ (b = true -> head_not_underscore (re_sub_scan p [underscore] b s)).
Proof.
  intros Hp. revert b. induction s as [|c t IH]; intros b;
    cbn [re_sub_scan]; [split; [reflexivity | intros _; exact I]|].
  destruct (p c) eqn:Ec.
  - destruct (IH true) as [Hna Hhd]. specialize (Hhd eq_refl).
    destruct b; cbn [app]; [split; [exact Hna | intros _; exact Hhd]|].
    split; [|discriminate].
    cbn [no_adjacent_underscores]. rewrite Hna, andb_true_r.
    destruct (re_sub_scan p [underscore] true t) as [|d u]; [reflexivity|].
    cbn in Hhd. rewrite Hhd. now rewrite andb_false_r.
  - assert (Hu : is_underscore c = false).
    { destruct (is_underscore c) eqn:E; [|reflexivity].
      apply is_underscore_eq in E. congruence. }
    destruct (IH false) as [Hna _]. split; [|intros _; exact Hu].
    cbn [no_adjacent_underscores]. rewrite Hna, andb_true_r, Hu.
    now destruct (re_sub_scan p [underscore] false t).
Qed.

Lemma scan_underscores_id (s : str) (b : bool) :
  no_adjacent_underscores s = true ->
  (b = true -> head_not_underscore s) ->
  re_sub_scan is_underscore [underscore] b s = s.
Proof.
  revert b. induction s as [|c t IH]; intros b Hna Hhd; [reflexivity|].
  cbn [no_adjacent_underscores] in Hna. apply andb_true_iff in Hna.
  destruct Hna as [Hcd Ht]. cbn [re_sub_scan].
  destruct (is_underscore c) eqn:Ec.
  - destruct b; [specialize (Hhd eq_refl); cbn in Hhd; congruence|].
    apply is_underscore_eq in Ec. subst c. cbn [app]. f_equal.
    apply IH; [exact Ht|]. intros _.
    destruct t as [|d u]; [exact I|]. cbn.
    cbn in Hcd. now apply negb_true_iff in Hcd.
  - f_equal. apply IH; [exact Ht | discriminate].
Qed.

Lemma normalize_no_adjacent (name : str) :
  no_adjacent_underscores (normalize name) = true.
Proof.
  rewrite normalize_one_scan. unfold re_sub_runs.
  now apply scan_no_adjacent.
Qed.

(** Sanitising a column name twice is the same as sanitising it once: a
    sanitised name is left unchanged. *)
Theorem normalize_idempotent (name : str) :
  normalize (normalize name) = normalize name.
Proof.
  pose proof (normalize_word_chars name) as Hw.
  pose proof (normalize_no_adjacent name) as Hna.
  set (o := normalize name) in *. unfold normalize.
  rewrite (strip_word o Hw), (lower_word o Hw), (re_sub_each_word o Hw).
  unfold re_sub_runs. apply scan_underscores_id; [exact Hna | discriminate].
Qed.

Lemma length_re_sub_each (p : ascii -> bool) (s : str) :
  length (re_sub_each p [underscore] s) = length s.
Proof.
  induction s as [|c t IH]; cbn [re_sub_each length]; [reflexivity|].
  rewrite length_app, IH. now destruct (p c).
Qed.

Lemma length_re_sub_scan (p : ascii -> bool) (b : bool) (s : str) :
  length (re_sub_scan p [underscore] b s) <= length s.
Proof.
  revert b. induction s as [|c t IH]; intros b; cbn [re_sub_scan length];
    [lia|].
  destruct (p c).
  - rewrite length_app. specialize (IH true). destruct b; cbn [length]; lia.
  - cbn [length]. specialize (IH false). lia.
Qed.

Lemma in_re_sub_each (p : ascii -> bool) (s : str) (c : ascii) :
  In c (re_sub_each p [underscore] s) -> c = underscore \/ In c s.
Proof.
  induction s as [|d t IH]; cbn [re_sub_each]; [tauto|].
  intros Hin. apply in_app_or in Hin. destruct Hin as [Hd | Ht].
  - destruct (p d); destruct Hd as [<- | []]; [now left | right; now left].
  - destruct (IH Ht) as [E | Hin]; [now left | right; now right].
Qed.

Lemma in_re_sub_scan (p : ascii -> bool) (b : bool) (s : str) (c : ascii) :
  In c (re_sub_scan p [underscore] b s) -> c = underscore \/ In c s.
Proof.
  revert b. induction s as [|d t IH]; intros b; cbn [re_sub_scan]; [tauto|].
  destruct (p d).
  - intros Hin. apply in_app_or in Hin. destruct Hin as [Hd | Ht].
    + destruct b; [destruct Hd|]. destruct Hd as [<- | []]. now left.
    + destruct (IH _ Ht) as [E | Hin]; [now left | right; now right].
  - intros [<- | Ht]; [right; now left|].
    destruct (IH _ Ht) as [E | Hin]; [now left | right; now right].
Qed.

(** The shape of a sanitised column name: it never holds two underscores
    in a row; it is not longer than the trimmed and lowercased name it is
    made from; and each of its characters is an underscore or a character
    of that name. *)
Theorem normalize_shape (name : str) :
  no_adjacent_underscores (normalize name) = true
  /\ length (normalize name) <= length (lower (strip name))
  /\ (forall c, In c (normalize name) ->
                c = underscore \/ In c (lower (strip name))).
Proof.
  split; [apply normalize_no_adjacent|]. split.
  - unfold normalize, re_sub_runs.
    pose proof (length_re_sub_scan is_underscore false
                  (re_sub_each not_word [underscore]
                     (lower (strip name)))) as H1.
    now rewrite length_re_sub_each in H1.
  - intros c Hin. unfold normalize, re_sub_runs in Hin.
    apply in_re_sub_scan in Hin. destruct Hin as [E | Hin]; [now left|].
    now apply in_re_sub_each in Hin.
Qed.

(** ** The summary frame, further properties *)

Lemma names_of_described {B} (g : Series -> B) (f : Series * B -> Series)
    (l : list Series) :
  (forall cd, name (f cd) = name (fst cd)) ->
  map name (map f (combine l (map g l))) = map name l.
Proof.
  intros Hf. induction l as [|c t IH]; [reflexivity|].
  cbn [map combine]. now rewrite Hf, IH.
Qed.

Lemma describe_names `{Kernels} (df : DataFrame) (d : Described) :
  describe df = Ok d ->
  map name (d_series d) = map name (select_data (series df)).
Proof.
  unfold describe. destruct (series df) as [|c0 cols] eqn:Es; [discriminate|].
  rewrite <- Es. cbv zeta. intros E. inversion E; subst d; clear E.
  cbn [d_series]. now apply names_of_described.
Qed.

Lemma describe_raises `{Kernels} (df : DataFrame) :
  series df = [] ->
  describe df
  = Raise (Exn ValueError "Cannot describe a DataFrame without columns").
Proof. intros E. unfold describe. now rewrite E. Qed.

Lemma describe_succeeds `{Kernels} (df : DataFrame) :
  series df <> [] -> exists d, describe df = Ok d.
Proof.
  intros Hne. unfold describe. destruct (series df); [congruence|].
  now eexists.
Qed.

Lemma reset_index_raises (d : Described) (e : exn) :
  reset_index d = Raise e ->
  exn_kind e = ValueError
  /\ In (Text "index") (map name (d_series d))
  /\ In (Text "level_0") (map name (d_series d)).
Proof.
  unfold reset_index. cbv zeta.
  destruct (mem_label "index" (map name (d_series d))) eqn:Ei.
  - destruct (mem_label "level_0" (map name (d_series d))) eqn:El;
      [|discriminate].
    intros E. inversion E. split; [reflexivity|].
    split; now apply mem_label_In.
  - rewrite Ei. discriminate.
Qed.

Lemma reset_index_clash (d : Described) :
  In (Text "index") (map name (d_series d)) ->
  In (Text "level_0") (map name (d_series d)) ->
  reset_index d
  = Raise (Exn ValueError "cannot insert level_0, already exists").
Proof.
  intros Hi Hl. apply mem_label_In in Hi. apply mem_label_In in Hl.
  unfold reset_index. cbv zeta. rewrite Hi, Hl. reflexivity.
Qed.

(** The summary computation raises exactly for a frame without columns and
    for a frame whose described columns (the numeric and the date columns,
    or all columns when there is none of them) include both the names
    [index] and [level_0]; what it raises is a [ValueError]. *)
Theorem generate_summary_df_raises_iff `{Kernels} (df : DataFrame) :
  (forall e, generate_summary_df df = Raise e -> exn_kind e = ValueError)
  /\ ((exists e, generate_summary_df df = Raise e)
      <-> series df = []
          \/ (In (Text "index") (map name (select_data (series df)))
              /\ In (Text "level_0") (map name (select_data (series df))))).
Proof.
  unfold generate_summary_df.
  destruct (series df) as [|c0 cols] eqn:Es.
  - rewrite (describe_raises df Es). cbn [rbind]. split.
    + intros e E. now inversion E.
    + split; [now left | intros _; now eexists].
  - assert (Hne : series df <> []) by (rewrite Es; discriminate).
    destruct (describe_succeeds df Hne) as [d Hd].
    rewrite <- Es, Hd. cbn [rbind].
    pose proof (describe_names df Hd) as Hn. rewrite <- Hn.
    destruct (reset_index d) as [s|e0] eqn:Er; cbn [rbind].
    + split; [discriminate|]. split; [intros [e E]; discriminate|].
      intros [E | [Hi Hl]]; [congruence|].
      rewrite (reset_index_clash d Hi Hl) in Er. discriminate.
    + apply reset_index_raises in Er. destruct Er as (Hk & Hi & Hl).
      split; [intros e E; now inversion E; subst|].
      split; [intros _; right; now split | intros _; now eexists].
Qed.








Lemma filter_idempotent {A} (p : A -> bool) (l : list A) :
  filter p (filter p l) = filter p l.
Proof.
  induction l as [|a t IH]; cbn [filter]; [reflexivity|].
  destruct (p a) eqn:E; [|exact IH]. cbn [filter]. now rewrite E, IH.
Qed.

(** When a frame has a numeric or a date column, its other columns do not
    contribute to the summary: the frame and its numeric and date columns
    alone have the same summary (or fail alike). *)
Theorem summary_ignores_text_columns `{Kernels} (df : DataFrame) :
  filter is_described (series df) <> [] ->
  generate_summary_df df
  = generate_summary_df {| series := filter is_described (series df);
                           index_len := index_len df |}.
Proof.
  intros Hd.
  assert (Hsel : select_data (filter is_described (series df))
                 = select_data (series df)).
  { unfold select_data. rewrite filter_idempotent.
    now destruct (filter is_described (series df)). }
  assert (Hdesc : describe {| series := filter is_described (series df);
                              index_len := index_len df |}
                  = describe df).
  { unfold describe. cbn [series]. rewrite Hsel.
    destruct (series df) as [|c0 cols]; [now elim Hd|].
    destruct (filter is_described (c0 :: cols)); [now elim Hd|].
    reflexivity. }
  unfold generate_summary_df. now rewrite Hdesc.
Qed.

Lemma summary_ignores_text_columns_witness :
  filter is_described (series mixed_frame) <> []
  /\ @generate_summary_df example_kernels mixed_frame
     = @generate_summary_df example_kernels
         {| series := [ {| name := "temp"; dtype_of := Float64;
                           values := [CFloat 4.5; CFloat 19] |} ];
            index_len := 2 |}.
Proof.
  split; [discriminate|].
  apply (@summary_ignores_text_columns example_kernels mixed_frame).
  discriminate.
Defined.

(** *** Frames with date columns *)

Lemma insert_shorter (A B : list str) (a b : nat) :
  length A < length B ->
  insert_by_length A (repeat A a ++ repeat B b)
  = repeat A (S a) ++ repeat B b.
Proof.
  intros Hlt. induction a as [|a IH].
  - cbn [repeat app]. destruct b as [|b]; [reflexivity|].
    cbn [repeat insert_by_length].
    apply Nat.ltb_lt in Hlt. now rewrite Hlt.
  - cbn [repeat app insert_by_length]. rewrite Nat.ltb_irrefl, IH.
    reflexivity.
Qed.

Lemma insert_longer (A B : list str) (a b : nat) :
  length A < length B ->
  insert_by_length B (repeat A a ++ repeat B b)
  = repeat A a ++ repeat B (S b).
Proof.
  intros Hlt. induction a as [|a IH].
  - cbn [repeat app]. apply insert_same_length.
  - cbn [repeat app insert_by_length].
    assert (E : (length B <? length A) = false) by (apply Nat.ltb_ge; lia).
    now rewrite E, IH.
Qed.

Lemma described_labels `{Kernels} (c : Series) :
  is_described c = true ->
  map fst (d_items (describe_1d c))
  = if is_numeric c then numeric_labels else timestamp_labels.
Proof.
  unfold is_described, describe_1d.
  destruct (is_numeric c); [reflexivity|].
  destruct (is_datetime c); [reflexivity | discriminate].
Qed.

Lemma numeric_not_datetime (c : Series) :
  is_numeric c = true -> is_datetime c = false.
Proof. unfold is_numeric, is_datetime. now destruct (dtype_of c). Qed.

Lemma described_not_numeric (c : Series) :
  is_described c = true -> is_numeric c = false -> is_datetime c = true.
Proof.
  unfold is_described. intros E En. rewrite En in E. exact E.
Qed.

(** The label lists of the described columns, sorted by length: those of
    the date columns come first. *)
Lemma sort_dates_first `{Kernels} (data : list Series) :
  Forall (fun c => is_described c = true) data ->
  sort_by_length (map (fun c => map fst (d_items (describe_1d c))) data)
  = repeat timestamp_labels (length (filter is_datetime data))
    ++ repeat numeric_labels (length (filter is_numeric data)).
Proof.
  intros Hall. unfold sort_by_length.
  enough (G : forall a b,
             fold_left (fun acc x => insert_by_length x acc)
                       (map (fun c => map fst (d_items (describe_1d c))) data)
                       (repeat timestamp_labels a ++ repeat numeric_labels b)
             = repeat timestamp_labels
                      (a + length (filter is_datetime data))
               ++ repeat numeric_labels
                         (b + length (filter is_numeric data))).
  { exact (G 0 0). }
  assert (Hlt : length timestamp_labels < length numeric_labels)
    by (cbn; lia).
  induction Hall as [|c t Hc _ IH]; intros a b.
  - cbn [map fold_left filter length]. now rewrite !Nat.add_0_r.
  - cbn [map fold_left filter]. rewrite (described_labels c Hc).
    destruct (is_numeric c) eqn:En.
    + rewrite (numeric_not_datetime _ En).
      rewrite (@insert_longer _ _ a b Hlt), IH. cbn [length].
      now rewrite Nat.add_succ_r.
    + rewrite (described_not_numeric _ Hc En).
      rewrite (@insert_shorter _ _ a b Hlt), IH. cbn [length].
      now rewrite Nat.add_succ_r.
Qed.

Lemma merge_dates_first (a b : nat) :
  merge_labels (repeat timestamp_labels (S a) ++ repeat numeric_labels b)
  = timestamp_labels ++ (match b with
                         | 0 => []
                         | S _ => [lit "std"]
                         end).
Proof.
  unfold merge_labels. rewrite fold_left_app.
  set (step := fun names l =>
                 fold_left (fun names x => if mem_str x names then names
                                           else names ++ [x]) l names).
  assert (Ha : fold_left step (repeat timestamp_labels (S a)) []
               = timestamp_labels).
  { cbn [repeat fold_left].
    change (step [] timestamp_labels) with timestamp_labels.
    induction a as [|a IH]; [reflexivity|].
    cbn [repeat fold_left]. exact IH. }
  rewrite Ha. destruct b as [|b]; [now rewrite app_nil_r|].
  cbn [repeat fold_left].
  change (step timestamp_labels numeric_labels)
    with (timestamp_labels ++ [lit "std"]).
  induction b as [|b IH]; [reflexivity|].
  cbn [repeat fold_left]. exact IH.
Qed.

Lemma filter_described_all (cols : list Series) :
  Forall (fun c => is_described c = true) (filter is_described cols).
Proof. apply Forall_forall. intros c Hc. now apply filter_In in Hc. Qed.

Lemma filter_datetime_described (cols : list Series) :
  filter is_datetime (filter is_described cols) = filter is_datetime cols.
Proof.
  induction cols as [|c t IH]; [reflexivity|].
  cbn [filter]. unfold is_described at 1.
  destruct (is_datetime c) eqn:Ed.
  - rewrite orb_true_r. cbn [filter]. now rewrite Ed, IH.
  - rewrite orb_false_r. destruct (is_numeric c); [|exact IH].
    cbn [filter]. now rewrite Ed.
Qed.

Lemma filter_numeric_described (cols : list Series) :
  filter is_numeric (filter is_described cols) = filter is_numeric cols.
Proof.
  induction cols as [|c t IH]; [reflexivity|].
  cbn [filter]. unfold is_described at 1.
  destruct (is_numeric c) eqn:En.
  - cbn [orb filter]. now rewrite En, IH.
  - cbn [orb]. destruct (is_datetime c); [|exact IH].
    cbn [filter]. now rewrite En.
Qed.

Lemma existsb_filter_length {A} (p : A -> bool) (l : list A) :
  existsb p l = negb (length (filter p l) =? 0).
Proof.
  induction l as [|x t IH]; [reflexivity|].
  cbn [existsb filter]. destruct (p x); [reflexivity | exact IH].
Qed.

(** The row labels of [describe] for a frame with a date column. *)
Lemma describe_labels_dates `{Kernels} (df : DataFrame) (d : Described) :
  filter is_datetime (series df) <> [] ->
  describe df = Ok d ->
  d_index d = dated_rows (series df)
  /\ map name (d_series d) = map name (filter is_described (series df)).
Proof.
  intros Hdate E.
  assert (Hsel : select_data (series df) = filter is_described (series df)).
  { unfold select_data.
    destruct (filter is_described (series df)) eqn:Ef; [|reflexivity].
    exfalso. apply Hdate. rewrite <- filter_datetime_described, Ef.
    reflexivity. }
  split.
  - apply describe_ok in E. destruct E as [_ ->]. rewrite Hsel.
    unfold reorder_columns. rewrite map_map.
    rewrite (sort_dates_first (filter_described_all (series df))).
    rewrite filter_datetime_described, filter_numeric_described.
    destruct (filter is_datetime (series df)) as [|c t] eqn:Ed;
      [now elim Hdate|].
    cbn [length]. rewrite merge_dates_first. unfold dated_rows.
    rewrite existsb_filter_length.
    destruct (length (filter is_numeric (series df))); reflexivity.
  - rewrite (describe_names df E). now rewrite Hsel.
Qed.

Lemma reset_index_column (d : Described) (df : DataFrame) :
  reset_index d = Ok df ->
  exists label,
    series df = {| name := Text label; dtype_of := Object;
                   values := map CStr (d_index d) |} :: d_series d
    /\ index_len df = length (d_index d)
    /\ label = (if mem_label "index" (map name (d_series d))
                then lit "level_0" else lit "index").
Proof.
  unfold reset_index. cbv zeta.
  destruct (mem_label (if mem_label "index" (map name (d_series d))
                       then lit "level_0" else lit "index")
                      (map name (d_series d))); [discriminate|].
  intros E. inversion E; subst df; clear E. eexists.
  split; [reflexivity|]. split; reflexivity.
Qed.

Lemma round_frame_names (df : DataFrame) :
  map name (series (round_frame df)) = map name (series df).
Proof.
  unfold round_frame. cbn [series]. rewrite map_map. apply map_ext.
  intros c. now destruct (dtype_of c).
Qed.

(** When a frame has a date column, a summary that is produced describes
    the date columns together with the numeric ones and nothing else.  Its
    rows are count, mean, min, 25%, 50%, 75%, max, and after them std when
    the frame has a numeric column: a date column has no standard
    deviation, and the shorter list of labels comes first.  The row labels
    are the first column; after it comes one column per date or numeric
    source column, in source order and under the source's name (a column
    named [index] is renamed). *)
Theorem summary_rows_with_dates `{Kernels} (df summary : DataFrame) :
  filter is_datetime (series df) <> [] ->
  generate_summary_df df = Ok summary ->
  len summary = length (dated_rows (series df))
  /\ map values (firstn 1 (series summary))
     = [ str_cells (dated_rows (series df)) ]
  /\ map name (skipn 1 (series summary))
     = map (fun l => if label_is "index" l then Text "Statistic" else l)
           (map name (filter is_described (series df))).
Proof.
  intros Hdate E. unfold generate_summary_df in E.
  apply rbind_ok in E. destruct E as (d & Hd & E).
  apply rbind_ok in E. destruct E as (s0 & Hs0 & E).
  inversion E; subst summary; clear E.
  destruct (describe_labels_dates df Hdate Hd) as [Hidx Hnames].
  apply reset_index_column in Hs0.
  destruct Hs0 as (label & Hser & Hlen & _).
  split; [|split].
  - unfold len, round_frame, rename_index, rename_column.
    cbn [index_len]. now rewrite Hlen, Hidx.
  - unfold round_frame, rename_index, rename_column. cbn [series].
    rewrite Hser. cbn [map firstn dtype_of values]. now rewrite Hidx.
  - rewrite <- Hnames.
    assert (G : map name (series (round_frame (rename_index s0)))
                = map (fun l => if label_is "index" l
                                then Text "Statistic" else l)
                      (map name (series s0))).
    { rewrite round_frame_names. unfold rename_index, rename_column.
      cbn [series]. now rewrite !map_map. }
    rewrite <- (firstn_skipn 1 (series (round_frame (rename_index s0))))
      in G.
    rewrite Hser in G. cbn [map] in G.
    rewrite map_app in G.
    unfold round_frame at 1, rename_index at 1, rename_column at 1 in G.
    cbn [series] in G. rewrite Hser in G. cbn [map firstn app] in G.
    now inversion G.
Qed.

(** The sheet [dated_frame]: its summary has eight rows, [std] last, and
    describes the date and the numeric column. *)
Lemma summary_rows_with_dates_witness :
  exists summary,
    @generate_summary_df example_kernels dated_frame = Ok summary
    /\ len summary = 8
    /\ map values (firstn 1 (series summary))
       = [ str_cells [ lit "count"; lit "mean"; lit "min"; lit "25%";
                       lit "50%"; lit "75%"; lit "max"; lit "std" ] ]
    /\ columns summary = [ Text "Statistic"; Text "when"; Text "temp" ].
Proof.
  eexists. split; [reflexivity|].
  destruct (@summary_rows_with_dates example_kernels dated_frame _
              ltac:(discriminate) eq_refl) as (Hlen & Hrows & _).
  split; [exact Hlen|]. split; [exact Hrows | reflexivity].
Defined.

(** ** The renderers, further properties *)

Lemma chunks_of_width `{Kernels} (df : DataFrame) (d : list (list cell)) :
  In d (chunks_of df) ->
  Forall (fun r => length r = length (series df)) d.
Proof.
  intros Hin. unfold chunks_of in Hin. apply in_map_iff in Hin.
  destruct Hin as [k [<- _]]. apply Forall_slice, rows_of_frame_width.
Qed.

(** The flowables of the full-data PDF can be made exactly for the frames
    that have a column, however many rows they have: for such a frame the
    generator hands the title, the time, a spacer, the header table and the
    chunk tables to [doc.build], and the document is produced exactly when
    [doc.build] accepts them; what [doc.build] raises, the generator
    raises.  For a frame without columns the header table cannot be made,
    a [ValueError] is raised and [doc.build] is not reached. *)
Theorem full_data_pdf_succeeds_iff `{Kernels} `{ReportLab}
    (now filename : str) (page_size : pagesize) (df : DataFrame) :
  let doc := {| doc_pagesize := page_size;
                story := full_data_story now filename df |} in
  (series df = [] ->
   generate_full_data_pdf now df filename page_size
   = Raise (Exn ValueError "must have at least a row and column"))
  /\ (series df <> [] ->
      generate_full_data_pdf now df filename page_size = built doc)
  /\ (forall doc', generate_full_data_pdf now df filename page_size = Ok doc'
                   <-> series df <> [] /\ build doc = Ok tt /\ doc' = doc)
  /\ (forall e, generate_full_data_pdf now df filename page_size = Raise e
                <-> (series df = []
                     /\ e = Exn ValueError "must have at least a row and column")
                    \/ (series df <> [] /\ build doc = Raise e)).
Proof.
  cbv zeta.
  split; [apply full_data_pdf_no_columns|].
  split; [apply full_data_pdf_built|].
  destruct (series df) as [|c cols] eqn:Es.
  - rewrite (full_data_pdf_no_columns now filename page_size df Es). split.
    + intros doc'. split; [discriminate | intros [Hne _]; now elim Hne].
    + intros e. split.
      * intros E. inversion E. now left.
      * intros [[_ ->] | [Hne _]]; [reflexivity | now elim Hne].
  - assert (Hne : series df <> []) by (rewrite Es; discriminate).
    rewrite (full_data_pdf_built now filename page_size df Hne).
    unfold built.
    destruct (build {| doc_pagesize := page_size;
                       story := full_data_story now filename df |})
      as [[]|e0]; cbn [rbind].
    + split.
      * intros doc'. split.
        -- intros E. inversion E. repeat split. discriminate.
        -- intros (_ & _ & ->). reflexivity.
      * intros e. split; [discriminate|].
        intros [[E _] | [_ E]]; discriminate.
    + split.
      * intros doc'. split; [discriminate|]. intros (_ & E & _).
        discriminate.
      * intros e. split.
        -- intros E. inversion E. right. split; [discriminate | reflexivity].
        -- intros [[E _] | [_ E]]; [discriminate|]. now inversion E.
Qed.

Lemma full_data_pdf_succeeds_iff_witness :
  @generate_full_data_pdf example_kernels example_layout
     "now" (rows_frame 3) "f.csv" A4
  = Ok {| doc_pagesize := A4;
          story := @full_data_story example_kernels "now" "f.csv"
                     (rows_frame 3) |}
  /\ @generate_full_data_pdf example_kernels failing_layout
       "now" (rows_frame 3) "f.csv" A4
     = Raise (Exn LayoutError "Flowable too large on page")
  /\ @generate_full_data_pdf example_kernels example_layout
       "now" no_columns_frame "f.csv" A4
     = Raise (Exn ValueError "must have at least a row and column").
Proof.
  split; [|split].
  - destruct (@full_data_pdf_succeeds_iff example_kernels example_layout
                "now" "f.csv" A4 (rows_frame 3)) as (_ & _ & Hok & _).
    apply Hok. split; [discriminate | split; reflexivity].
  - destruct (@full_data_pdf_succeeds_iff example_kernels failing_layout
                "now" "f.csv" A4 (rows_frame 3)) as (_ & _ & _ & Hraise).
    apply Hraise. right. split; [discriminate | reflexivity].
  - destruct (@full_data_pdf_succeeds_iff example_kernels example_layout
                "now" "f.csv" A4 no_columns_frame) as (Hnone & _).
    apply Hnone. reflexivity.
Defined.

(** The story of a full-data PDF is the title, the line with the time, a
    spacer and the header table, followed by the chunk tables and nothing
    else: [4 + ceil(len / 5000)] flowables.  The document has the page size
    it was asked for, and every row of every table has one cell per
    column. *)
Theorem full_data_pdf_layout `{Kernels} `{ReportLab} (now filename : str)
    (page_size : pagesize) (df : DataFrame) (doc : pdf_document) :
  generate_full_data_pdf now df filename page_size = Ok doc ->
  doc_pagesize doc = page_size
  /\ story doc
     = [ Paragraph (lit "<b>Full Data Report: " ++ filename ++ lit "</b>")
                   "Title";
         Paragraph (lit "<i>Generated on: " ++ now ++ lit "</i>") "Normal";
         Spacer 1 12;
         Table [label_cells (columns df)] HeaderStyle ]
       ++ map (fun d => Table d ChunkStyle) (chunks_of df)
  /\ length (story doc) = 4 + (len df + (chunk_size - 1)) / chunk_size
  /\ Forall (fun f => Forall (fun r => length r = length (series df))
                             (rows_of f))
            (story doc).
Proof.
  intros E.
  assert (Hne : series df <> []).
  { intros Hnil.
    rewrite (full_data_pdf_no_columns now filename page_size df Hnil) in E.
    discriminate. }
  rewrite (full_data_pdf_built now filename page_size df Hne) in E.
  apply built_ok in E. destruct E as [-> _]. cbn [doc_pagesize story].
  split; [reflexivity|]. split; [reflexivity|]. split.
  - unfold full_data_story. rewrite length_app, length_map.
    unfold chunks_of. now rewrite length_map, length_seq.
  - unfold full_data_story. apply Forall_app. split.
    + repeat constructor. cbn [rows_of].
      unfold label_cells, columns. now rewrite !length_map.
    + apply Forall_forall. intros f Hf. apply in_map_iff in Hf.
      destruct Hf as [d [<- Hd]]. cbn [rows_of]. now apply chunks_of_width.
Qed.

Lemma full_data_pdf_layout_witness :
  exists doc,
    @generate_full_data_pdf example_kernels example_layout
       "now" (rows_frame 3) "f.csv" A4 = Ok doc
    /\ length (story doc) = 5
    /\ doc_pagesize doc = A4.
Proof.
  eexists. split; [reflexivity|].
  destruct (@full_data_pdf_layout example_kernels example_layout
              "now" "f.csv" A4 (rows_frame 3) _ eq_refl)
    as (Hps & _ & Hlen & _).
  split; [rewrite Hlen; reflexivity | exact Hps].
Defined.


(** The summary PDF: when the summary cannot be computed the generator
    fails with the summary's exception.  Otherwise it hands an A4 document
    of seven flowables to [doc.build] (title, time of generation, spacer,
    the record count of the whole frame, spacer, heading, and one table
    whose first row holds the summary's column names and whose other rows
    are the summary's rows) and the document is produced exactly when
    [doc.build] accepts it; what [doc.build] raises, the generator
    raises. *)
Theorem summary_pdf_layout `{Kernels} `{ReportLab} (now filename : str)
    (df : DataFrame) :
  match generate_summary_df df with
  | Ok summary =>
      let doc :=
        {| doc_pagesize := A4;
           story :=
             [ Paragraph (lit "<b>Data Analysis Report: " ++ filename
                          ++ lit "</b>") "Title";
               Paragraph (lit "<i>Generated on: " ++ now ++ lit "</i>")
                         "Normal";
               Spacer 1 12;
               Paragraph (lit "<b>Total Records:</b> "
                          ++ str_of_nat (len df)) "Normal";
               Spacer 1 24;
               Paragraph "<b>Numeric Column Statistics:</b>" "h2";
               Table (label_cells (columns summary)
                      :: values_tolist summary) SummaryStyle ] |} in
      match build doc with
      | Ok _ => generate_reportlab_pdf now df filename = Ok doc
      | Raise e => generate_reportlab_pdf now df filename = Raise e
      end
  | Raise e => generate_reportlab_pdf now df filename = Raise e
  end.
Proof.
  destruct (generate_summary_df df) as [summary|e] eqn:Es.
  - cbv zeta. rewrite (summary_pdf_built now filename df Es).
    unfold built, summary_story.
    destruct (build _) as [[]|e]; reflexivity.
  - now apply summary_pdf_fails.
Qed.

(** ** The request handler, further properties *)


Lemma on_exception_other (e : exn) :
  is_parser_error (exn_kind e) = false ->
  on_exception e
  = Json 500 (lit "An unexpected error occurred: " ++ exn_msg e).
Proof.
  intros E. unfold on_exception.
  destruct (exn_kind e); try reflexivity; discriminate.
Qed.

Lemma built_raises `{ReportLab} (doc : pdf_document) (e : exn) :
  built doc = Raise e -> is_parser_error (exn_kind e) = false.
Proof.
  unfold built. destruct (build doc) as [[]|e0] eqn:Eb; cbn [rbind];
    [discriminate|].
  intros E. inversion E; subst. now apply build_raises in Eb.
Qed.

Section Generators.
Context `{Kernels} `{ReportLab}.

Lemma summary_raises (df : DataFrame) (e : exn) :
  generate_summary_df df = Raise e -> exn_kind e = ValueError.
Proof.
  unfold generate_summary_df.
  destruct (describe df) as [d|e0] eqn:Ed; cbn [rbind].
  - destruct (reset_index d) as [s|e1] eqn:Er; cbn [rbind]; [discriminate|].
    intros E. inversion E; subst. now apply reset_index_raises in Er.
  - intros E. inversion E; subst. unfold describe in Ed.
    destruct (series df); [|discriminate]. now inversion Ed.
Qed.

Lemma summary_pdf_raises (now filename : str) (df : DataFrame) (e : exn) :
  generate_reportlab_pdf now df filename = Raise e ->
  is_parser_error (exn_kind e) = false.
Proof.
  destruct (generate_summary_df df) as [s|e0] eqn:Es.
  - rewrite (summary_pdf_built now filename df Es). apply built_raises.
  - rewrite (summary_pdf_fails now filename df Es).
    intros E. inversion E; subst. now rewrite (summary_raises _ Es).
Qed.

Lemma full_data_pdf_raises (now filename : str) (page_size : pagesize)
    (df : DataFrame) (e : exn) :
  generate_full_data_pdf now df filename page_size = Raise e ->
  is_parser_error (exn_kind e) = false.
Proof.
  destruct (series df) as [|c cols] eqn:Es.
  - rewrite (full_data_pdf_no_columns now filename page_size df Es).
    intros E. now inversion E.
  - assert (Hne : series df <> []) by (rewrite Es; discriminate).
    rewrite (full_data_pdf_built now filename page_size df Hne).
    apply built_raises.
Qed.

Lemma csv_report_raises (df : DataFrame) (report_type : str) (e : exn) :
  generate_csv_report df report_type = Raise e -> exn_kind e = ValueError.
Proof.
  unfold generate_csv_report. destruct (str_eqb report_type "summary");
    [|discriminate].
  destruct (generate_summary_df df) as [s|e0] eqn:Es; cbn [rbind];
    [discriminate|].
  intros E. inversion E; subst. now apply summary_raises in Es.
Qed.

Lemma to_excel_raises (frame : DataFrame) (sheet : str) (e : exn) :
  to_excel frame sheet = Raise e -> exn_kind e = ValueError.
Proof.
  unfold to_excel. destruct (sheet_too_large frame); [|discriminate].
  intros E. now inversion E.
Qed.

Lemma excel_report_raises (df : DataFrame) (report_type : str) (e : exn) :
  generate_excel_report df report_type = Raise e -> exn_kind e = ValueError.
Proof.
  unfold generate_excel_report. destruct (str_eqb report_type "summary");
    [|apply to_excel_raises].
  destruct (generate_summary_df df) as [s|e0] eqn:Es; cbn [rbind];
    [apply to_excel_raises|].
  intros E. inversion E; subst. now apply summary_raises in Es.
Qed.

Context `{Platform}.

(** What [respond] can do: answer without calling a generator (with one of
    two messages), or call one generator and then send its file or pass on
    what the generator raised, which is no parser error. *)
Lemma respond_outcomes (form : request) (fname stem : str) (df : DataFrame)
    (log : list event) :
  (exists r, respond form fname stem df log = (log, Return r)
             /\ (r = Json 400 "Invalid output format selected"
                 \/ r = Json 500 "Failed to generate report"))
  \/ (exists body name mime,
        respond form fname stem df log
        = (log ++ [Generate], Next (SendFile body name mime)))
  \/ (exists e, respond form fname stem df log = (log ++ [Generate], Throw e)
                /\ is_parser_error (exn_kind e) = false).
Proof.
  unfold respond. cbv zeta.
  destruct (str_eqb (output_format_of form) "pdf").
  - destruct (str_eqb (report_type_of form) "summary"); hsimp.
    + destruct (generate_reportlab_pdf now df fname) as [doc|e] eqn:E; hsimp.
      * right; left. now do 3 eexists.
      * right; right. exists e. split; [reflexivity|].
        now apply summary_pdf_raises in E.
    + destruct (str_eqb (report_type_of form) "full_data"); hsimp.
      * destruct (generate_full_data_pdf _ _ _ _) as [doc|e] eqn:E; hsimp.
        -- right; left. now do 3 eexists.
        -- right; right. exists e. split; [reflexivity|].
           now apply full_data_pdf_raises in E.
      * left. eexists. split; [reflexivity | now right].
  - destruct (str_eqb (output_format_of form) "csv"); hsimp.
    + destruct (generate_csv_report df (report_type_of form)) as [rep|e] eqn:E;
        hsimp.
      * right; left. now do 3 eexists.
      * right; right. exists e. split; [reflexivity|].
        apply csv_report_raises in E. now rewrite E.
    + destruct (str_eqb (output_format_of form) "excel"); hsimp.
      * destruct (generate_excel_report df (report_type_of form))
          as [rep|e] eqn:E; hsimp.
        -- right; left. now do 3 eexists.
        -- right; right. exists e. split; [reflexivity|].
           apply excel_report_raises in E. now rewrite E.
      * left. eexists. split; [reflexivity | now left].
Qed.

Lemma on_exception_value_error (e : exn) :
  exn_kind e = ValueError ->
  on_exception e
  = Json 500 (lit "An unexpected error occurred: " ++ exn_msg e).
Proof. intros E. apply on_exception_other. now rewrite E. Qed.

End Generators.

Ltac log_cases :=
  cbn; repeat split; auto 10; try discriminate;
  try (let Hin := fresh "Hin" in intros Hin; intuition discriminate).

Section Requests.
Context `{Kernels} `{ReportLab} `{Platform}.

(** What a request leaves behind.  The log of a request is one of: nothing;
    the read of the upload; the read and one parse; the read, one parse and
    one generator call.  The upload form is the answer to GET alone, and to
    it nothing is logged.  A file is sent only after read, parse and
    generator call, in this order.  An error is a 400 or a 500 with a
    message, and it is a 500 whenever a generator was called. *)
Theorem request_log_and_response (req : request) :
  In (fst (upload_and_analyze req)) request_logs
  /\ match snd (upload_and_analyze req) with
     | Page => method req = GET /\ fst (upload_and_analyze req) = []
     | SendFile _ _ _ =>
         method req = POST
         /\ (fst (upload_and_analyze req) = [FileRead; ParseCsv; Generate]
             \/ fst (upload_and_analyze req)
                = [FileRead; ParseExcel; Generate])
     | Json code msg =>
         method req = POST
         /\ (code = 400 \/ code = 500)%Z
         /\ msg <> []
         /\ (In Generate (fst (upload_and_analyze req)) -> code = 500%Z)
     end.
Proof.
  unfold upload_and_analyze, request_logs.
  destruct (method req) eqn:Em; [cbn; auto|].
  destruct (files_file req) as [file|]; [|log_cases].
  destruct (is_empty_str (filename file)); [log_cases|].
  destruct (negb (allowed_file (filename file))); [log_cases|].
  unfold handle_upload, hbind. rewrite ingest_spec. cbn [app].
  destruct (Z.of_nat (length (content file)) >? MAX_FILE_SIZE)%Z;
    [log_cases|].
  destruct (rsplit_dot (secure_filename (filename file))) as [[stem ext]|];
    [|log_cases].
  destruct (str_eqb (lower ext) "csv").
  - destruct (read_csv (content file)) as [df|e]; [|log_cases].
    destruct (respond_outcomes req (secure_filename (filename file)) stem
                               (set_columns df normalize)
                               [FileRead; ParseCsv])
      as [(r & -> & [-> | ->]) | [(b & n & m & ->) | (e & -> & Hk)]];
      try rewrite (on_exception_other e Hk); log_cases.
  - destruct (str_eqb (lower ext) "xlsx"); [|log_cases].
    destruct (read_excel (content file)) as [df|e]; [|log_cases].
    destruct (sanitize_columns df) as [df'|e] eqn:Esan.
    + destruct (respond_outcomes req (secure_filename (filename file)) stem
                                 df' [FileRead; ParseExcel])
        as [(r & -> & [-> | ->]) | [(b & n & m & ->) | (e & -> & Hk)]];
        try rewrite (on_exception_other e Hk); log_cases.
    + apply sanitize_raises in Esan.
      rewrite (on_exception_other e) by now rewrite Esan.
      log_cases.
Qed.

(** A parser that raises, whatever it raises, is answered with a 400 that
    names the format and carries the parser's message; no generator is
    called.  (The handler's own clause for pandas' parser errors is not the
    one that answers.) *)
Theorem parse_failure_is_400 (req : request) (file : upload)
    (stem ext : str) (e : exn) :
  method req = POST ->
  files_file req = Some file ->
  allowed_file (filename file) = true ->
  (Z.of_nat (length (content file)) <= MAX_FILE_SIZE)%Z ->
  rsplit_dot (secure_filename (filename file)) = Some (stem, ext) ->
  (lower ext = lit "csv" ->
   read_csv (content file) = Raise e ->
   upload_and_analyze req
   = ([FileRead; ParseCsv],
      Json 400 (lit "Failed to parse CSV file: " ++ exn_msg e)))
  /\ (lower ext = lit "xlsx" ->
      read_excel (content file) = Raise e ->
      upload_and_analyze req
      = ([FileRead; ParseExcel],
         Json 400 (lit "Failed to parse Excel file: " ++ exn_msg e))).
Proof.
  intros Em Ef Ea Hsize Hsplit.
  rewrite (handler_post req Em Ef Ea).
  unfold handle_upload, hbind. rewrite ingest_spec, Hsplit.
  assert (Hs : (Z.of_nat (length (content file)) >? MAX_FILE_SIZE)%Z = false)
    by (rewrite Z.gtb_ltb; apply Z.ltb_ge; exact Hsize).
  rewrite Hs. split; intros -> ->; reflexivity.
Qed.

(** The extension that selects the parser is the one of the secured name,
    not of the uploaded name that was checked.  When the secured name has
    no dot, or its extension is neither csv nor xlsx, the upload is read
    but not parsed, and the answer is a 500 with the interpreter's message
    for the failed lookup. *)
Theorem secured_name_without_extension (req : request) (file : upload) :
  method req = POST ->
  files_file req = Some file ->
  allowed_file (filename file) = true ->
  (Z.of_nat (length (content file)) <= MAX_FILE_SIZE)%Z ->
  (rsplit_dot (secure_filename (filename file)) = None ->
   upload_and_analyze req
   = ([FileRead],
      Json 500 "An unexpected error occurred: list index out of range"))
  /\ (forall stem ext,
        rsplit_dot (secure_filename (filename file)) = Some (stem, ext) ->
        lower ext <> lit "csv" ->
        lower ext <> lit "xlsx" ->
        upload_and_analyze req
        = ([FileRead],
           Json 500 "An unexpected error occurred: 'NoneType' object has no attribute 'columns'")).
Proof.
  intros Em Ef Ea Hsize.
  rewrite (handler_post req Em Ef Ea).
  unfold handle_upload, hbind. rewrite ingest_spec.
  assert (Hs : (Z.of_nat (length (content file)) >? MAX_FILE_SIZE)%Z = false)
    by (rewrite Z.gtb_ltb; apply Z.ltb_ge; exact Hsize).
  rewrite Hs. split.
  - intros ->. reflexivity.
  - intros stem ext -> Hc Hx.
    destruct (str_eqb (lower ext) "csv") eqn:E1;
      [apply str_eqb_eq in E1; contradiction|].
    destruct (str_eqb (lower ext) "xlsx") eqn:E2;
      [apply str_eqb_eq in E2; contradiction|].
    reflexivity.
Qed.


(** The size message is the answer exactly to the POST requests whose file
    has an allowed name and a content longer than the ceiling; a content
    of exactly the ceiling's length is not too large. *)
Theorem too_large_iff (req : request) :
  snd (upload_and_analyze req) = Json 400 too_large_message
  <-> exists file,
        method req = POST
        /\ files_file req = Some file
        /\ allowed_file (filename file) = true
        /\ (MAX_FILE_SIZE < Z.of_nat (length (content file)))%Z.
Proof.
  split.
  - unfold upload_and_analyze.
    destruct (method req) eqn:Em; [discriminate|].
    destruct (files_file req) as [file|]; [|discriminate].
    destruct (is_empty_str (filename file)); [discriminate|].
    destruct (allowed_file (filename file)) eqn:Ea; [|discriminate].
    cbn [negb]. unfold handle_upload, hbind. rewrite ingest_spec.
    cbn [app].
    destruct (Z.of_nat (length (content file)) >? MAX_FILE_SIZE)%Z eqn:Es.
    { intros _. exists file. repeat split; auto.
      rewrite Z.gtb_ltb in Es. apply Z.ltb_lt in Es. exact Es. }
    destruct (rsplit_dot (secure_filename (filename file)))
      as [[stem ext]|]; [|discriminate].
    destruct (str_eqb (lower ext) "csv").
    + destruct (read_csv (content file)) as [df|e]; [|discriminate].
      destruct (respond_outcomes req (secure_filename (filename file)) stem
                                 (set_columns df normalize)
                                 [FileRead; ParseCsv])
        as [(r & -> & [-> | ->]) | [(b & n & m & ->) | (e & -> & Hk)]];
        try rewrite (on_exception_other e Hk); discriminate.
    + destruct (str_eqb (lower ext) "xlsx"); [|discriminate].
      destruct (read_excel (content file)) as [df|e]; [|discriminate].
      destruct (sanitize_columns df) as [df'|e] eqn:Esan.
      * destruct (respond_outcomes req (secure_filename (filename file)) stem
                                   df' [FileRead; ParseExcel])
          as [(r & -> & [-> | ->]) | [(b & n & m & ->) | (e & -> & Hk)]];
          try rewrite (on_exception_other e Hk); discriminate.
      * apply sanitize_raises in Esan.
        rewrite (on_exception_other e) by now rewrite Esan.
        discriminate.
  - intros (file & Em & Ef & Ea & Hbig).
    rewrite (handler_post req Em Ef Ea).
    unfold handle_upload, hbind. rewrite ingest_spec.
    assert (Hs : (Z.of_nat (length (content file)) >? MAX_FILE_SIZE)%Z = true)
      by (rewrite Z.gtb_ltb; apply Z.ltb_lt; exact Hbig).
    rewrite Hs. reflexivity.
Qed.

(** A generator that raises on a summary request is answered with a 500
    that carries the generator's message, after the upload was read and
    parsed: for every output format, when the summary of the parsed frame
    (with its sanitised column names) cannot be computed. *)
Theorem summary_failure_is_500 (req : request) (file : upload)
    (stem ext : str) (df : ParsedFrame) (e : exn) :
  method req = POST ->
  files_file req = Some file ->
  allowed_file (filename file) = true ->
  (Z.of_nat (length (content file)) <= MAX_FILE_SIZE)%Z ->
  rsplit_dot (secure_filename (filename file)) = Some (stem, ext) ->
  lower ext = lit "csv" ->
  read_csv (content file) = Ok df ->
  valid_output_format (output_format_of req) = true ->
  report_type_of req = lit "summary" ->
  generate_summary_df (set_columns df normalize) = Raise e ->
  upload_and_analyze req
  = ([FileRead; ParseCsv; Generate],
     Json 500 (lit "An unexpected error occurred: " ++ exn_msg e)).
Proof.
  intros Em Ef Ea Hsize Hsplit Hext Hread Hfmt Hrt Hsum.
  rewrite (handler_post req Em Ef Ea).
  unfold handle_upload, hbind. rewrite ingest_spec, Hsplit, Hext, Hread.
  assert (Hs : (Z.of_nat (length (content file)) >? MAX_FILE_SIZE)%Z = false)
    by (rewrite Z.gtb_ltb; apply Z.ltb_ge; exact Hsize).
  rewrite Hs. cbn [str_eqb lit].
  change (str_eqb (lit "csv") (lit "csv")) with true. cbv iota.
  pose proof (summary_raises _ Hsum) as Hk.
  unfold respond. cbv zeta. rewrite Hrt.
  unfold generate_reportlab_pdf, generate_csv_report, generate_excel_report.
  cbv zeta. change (str_eqb (lit "summary") (lit "summary")) with true.
  cbv iota. rewrite Hsum. cbn [rbind].
  unfold valid_output_format, mem_str in Hfmt. cbn [existsb] in Hfmt.
  destruct (str_eqb (output_format_of req) "pdf"); hsimp.
  { cbn [app]. now rewrite (on_exception_value_error e Hk). }
  destruct (str_eqb (output_format_of req) "csv"); hsimp.
  { cbn [app]. now rewrite (on_exception_value_error e Hk). }
  destruct (str_eqb (output_format_of req) "excel"); hsimp.
  { cbn [app]. now rewrite (on_exception_value_error e Hk). }
  discriminate.
Qed.

(** A spreadsheet that parses but has no text in its header (the header
    cells are all numbers, all booleans or all dates, or the sheet has no
    column at all) is answered with a 500 that carries the message of the
    [AttributeError] of line 205, after the upload was read and parsed:
    no generator is called, and the form is not looked at. *)
Theorem sheet_header_without_text (req : request) (file : upload)
    (stem ext : str) (df : ParsedFrame) :
  method req = POST ->
  files_file req = Some file ->
  allowed_file (filename file) = true ->
  (Z.of_nat (length (content file)) <= MAX_FILE_SIZE)%Z ->
  rsplit_dot (secure_filename (filename file)) = Some (stem, ext) ->
  lower ext = lit "xlsx" ->
  read_excel (content file) = Ok df ->
  forallb is_hnumber (p_labels df) = true
  \/ forallb is_hbool (p_labels df) = true
  \/ forallb is_hdate (p_labels df) = true
  \/ p_columns df = [] ->
  upload_and_analyze req
  = ([FileRead; ParseExcel],
     Json 500 (lit "An unexpected error occurred: "
               ++ accessor_message (p_labels df))).
Proof.
  intros Em Ef Ea Hsize Hsplit Hext Hread Hlabels.
  assert (Hno : str_accessor_ok (p_labels df) = false).
  { unfold str_accessor_ok. apply negb_false_iff.
    destruct Hlabels as [E | [E | [E | E]]].
    - now rewrite E.
    - rewrite E. now rewrite orb_true_r.
    - rewrite E. now rewrite orb_true_r.
    - unfold p_labels. now rewrite E. }
  rewrite (handler_post req Em Ef Ea).
  unfold handle_upload, hbind. rewrite ingest_spec, Hsplit, Hext, Hread.
  rewrite (size_within Hsize).
  change (str_eqb (lit "xlsx") (lit "csv")) with false.
  change (str_eqb (lit "xlsx") (lit "xlsx")) with true. cbv iota.
  unfold sanitize_columns. rewrite Hno. reflexivity.
Qed.

End Requests.

(** The upload [data.csv] on a platform whose CSV parser raises a
    [ParserError]. *)
Lemma parse_failure_is_400_witness :
  @read_csv failing_platform (content example_upload)
  = Raise (Exn ParserError "Error tokenizing data")
  /\ @upload_and_analyze example_kernels example_layout failing_platform
       (example_request "summary" "pdf" None)
     = ([FileRead; ParseCsv],
        Json 400 "Failed to parse CSV file: Error tokenizing data").
Proof.
  split; [reflexivity|].
  assert (Hsize : (Z.of_nat (length (content example_upload))
                   <= MAX_FILE_SIZE)%Z) by (vm_compute; discriminate).
  destruct (@parse_failure_is_400 example_kernels example_layout failing_platform
              (example_request "summary" "pdf" None) example_upload
              "data" "csv" (Exn ParserError "Error tokenizing data")
              eq_refl eq_refl eq_refl Hsize eq_refl) as [Hcsv _].
  apply Hcsv; reflexivity.
Defined.

(** An upload named [.csv]: the name is allowed, and the secured name
    [csv] has no dot. *)
Lemma secured_name_without_extension_witness :
  allowed_file ".csv" = true
  /\ rsplit_dot (@secure_filename dot_dropping_platform ".csv") = None
  /\ @upload_and_analyze example_kernels example_layout dot_dropping_platform
       (post_request {| filename := ".csv"; content := [] |} None None None)
     = ([FileRead],
        Json 500 "An unexpected error occurred: list index out of range").
Proof.
  split; [reflexivity|]. split; [reflexivity|].
  assert (Hsize : (Z.of_nat (@length Byte.byte []) <= MAX_FILE_SIZE)%Z)
    by (vm_compute; discriminate).
  destruct (@secured_name_without_extension example_kernels
              example_layout dot_dropping_platform
              (post_request {| filename := ".csv"; content := [] |}
                            None None None)
              {| filename := ".csv"; content := [] |}
              eq_refl eq_refl eq_refl Hsize) as [Hnone _].
  apply Hnone. reflexivity.
Defined.


(** An upload that parses to a frame with the columns [index] and
    [level_0]. *)
Lemma summary_failure_is_500_witness :
  @generate_summary_df example_kernels
    (set_columns (as_parsed index_names_frame) normalize)
  = Raise (Exn ValueError "cannot insert level_0, already exists")
  /\ @upload_and_analyze example_kernels example_layout index_names_platform
       (example_request "summary" "csv" None)
     = ([FileRead; ParseCsv; Generate],
        Json 500 "An unexpected error occurred: cannot insert level_0, already exists").
Proof.
  split; [reflexivity|].
  assert (Hsize : (Z.of_nat (length (content example_upload))
                   <= MAX_FILE_SIZE)%Z) by (vm_compute; discriminate).
  apply (@summary_failure_is_500 example_kernels example_layout
           index_names_platform
           (example_request "summary" "csv" None) example_upload
           "data" "csv" (as_parsed index_names_frame)
           (Exn ValueError "cannot insert level_0, already exists")
           eq_refl eq_refl eq_refl Hsize eq_refl eq_refl eq_refl eq_refl
           eq_refl eq_refl).
Defined.

(** A sheet whose header cells are the years 2020 and 2021, asked for an
    output format that does not exist: the answer is the 500 of line 205,
    not the 400 of the format. *)
Lemma sheet_header_without_text_witness :
  valid_output_format "xml" = false
  /\ @upload_and_analyze example_kernels example_layout year_sheet_platform
       (post_request example_sheet None (Some (lit "xml")) None)
     = ([FileRead; ParseExcel],
        Json 500 "An unexpected error occurred: Can only use .str accessor with string values!").
Proof.
  split; [reflexivity|].
  assert (Hsize : (Z.of_nat (length (content example_sheet))
                   <= MAX_FILE_SIZE)%Z) by (vm_compute; discriminate).
  apply (@sheet_header_without_text example_kernels example_layout
           year_sheet_platform
           (post_request example_sheet None (Some (lit "xml")) None)
           example_sheet "data" "xlsx" year_sheet
           eq_refl eq_refl eq_refl Hsize eq_refl eq_refl eq_refl
           (or_introl eq_refl)).
Defined.
(** ** The CSV report, further properties *)

Lemma word_needs_no_quoting (c : ascii) :
  is_word c = true -> needs_quoting c = false.
Proof.
  intros Hw. apply word_code in Hw.
  unfold needs_quoting, is_comma, is_quote, is_newline.
  rewrite !orb_false_iff. repeat split; apply N.eqb_neq; lia.
Qed.

Lemma write_field_word (f : str) :
  forallb is_word f = true -> write_field f = f.
Proof.
  intros Hw. unfold write_field.
  assert (E : existsb needs_quoting f = false).
  { induction f as [|c t IH]; [reflexivity|].
    cbn [forallb] in Hw. apply andb_true_iff in Hw. destruct Hw as [Hc Ht].
    cbn [existsb]. now rewrite (word_needs_no_quoting c Hc), (IH Ht). }
  now rewrite E.
Qed.

Lemma join_nil (sep : ascii) (l : list str) :
  join sep l = [] -> l = [] \/ l = [ [] ].
Proof.
  destruct l as [|x [|y t]]; cbn [join].
  - now left.
  - intros ->. now right.
  - intros E. apply app_eq_nil in E. destruct E as [_ E]. discriminate.
Qed.

(** The header line of names made of word characters: the names, separated
    by commas, none of them quoted. *)
Lemma writerow_words (names : list str) :
  Forall (fun n => forallb is_word n = true) names ->
  names <> [ [] ] ->
  writerow names = join comma names ++ [newline].
Proof.
  intros Hw.
  assert (E : map write_field names = names).
  { induction Hw as [|n t Hn Ht IH]; [reflexivity|].
    cbn [map]. now rewrite (write_field_word n Hn), IH. }
  intros Hne. unfold writerow. cbv zeta. rewrite E. destruct names as [|n t]; [reflexivity|].
  destruct (join comma (n :: t)) eqn:Ej; [|reflexivity].
  apply join_nil in Ej. destruct Ej; congruence.
Qed.

(** The header of a sanitised frame: word characters only. *)
Lemma sanitised_header_words (df : ParsedFrame) :
  Forall (fun n => forallb is_word n = true)
         (csv_header (set_columns df normalize)).
Proof.
  unfold csv_header. rewrite set_columns_labels, map_map.
  apply Forall_forall. intros n Hn. apply in_map_iff in Hn.
  destruct Hn as [h [<- _]].
  destruct h; cbn [str_method label_text]; try reflexivity.
  apply normalize_word_chars.
Qed.

Lemma sanitised_header_text (df : ParsedFrame) :
  text_labelled df ->
  Forall2 (fun h n => exists s, h = HText s /\ n = normalize s)
          (p_labels df) (csv_header (set_columns df normalize)).
Proof.
  intros [_ Ht]. unfold csv_header. rewrite set_columns_labels, map_map.
  induction (p_labels df) as [|h t IH]; [constructor|].
  cbn [forallb] in Ht. apply andb_true_iff in Ht. destruct Ht as [Hh Ht].
  cbn [map]. constructor; [|now apply IH].
  destruct h; try discriminate. now eexists.
Qed.

(** Writing a frame as CSV and reading the text back gives the header
    texts and, for every row, the text that was written for each cell:
    integers in decimal, floats by their [repr], booleans as True and
    False, dates in the format of their column, a missing value as the
    empty text, text as it is (commas, quotes and line breaks included);
    under the conditions on the frame under which the column names come
    back. *)
Theorem csv_cells_round_trip `{Kernels} (df : DataFrame) :
  series df <> [] ->
  NoDup (csv_header df) ->
  Forall (fun n => n <> []) (csv_header df) ->
  csv_safe df = true ->
  read_csv_raw (to_csv df)
  = Ok {| raw_names := csv_header df;
          raw_rows :=
            map (fun i => map (fun c => csv_field c (nth i (values c)
                                                         nan_cell))
                              (series df))
                (seq 0 (len df)) |}.
Proof.
  intros Hcols Hnd Hne Hsafe. unfold read_csv_raw.
  rewrite (tokenize_to_csv df Hcols Hsafe). cbn [rbind].
  now rewrite (header_names_distinct Hnd Hne).
Qed.

Lemma csv_cells_round_trip_witness :
  csv_safe quoted_frame = true
  /\ read_csv_raw (@to_csv example_kernels quoted_frame)
     = Ok {| raw_names := [lit "remark"; lit "n"];
             raw_rows :=
               [ [lit "a,b"; lit "0.0"];
                 [lit "say " ++ [dquote] ++ lit "hi" ++ [dquote]; []];
                 [lit "two" ++ [newline] ++ lit "lines"; lit "0.0"] ] |}.
Proof.
  split; [reflexivity|].
  apply (@csv_cells_round_trip example_kernels quoted_frame).
  - discriminate.
  - repeat constructor; cbn; intuition discriminate.
  - repeat constructor; discriminate.
  - reflexivity.
Defined.

Section Download.
Context `{Kernels} `{ReportLab} `{Platform}.

(** A full-data CSV request for a CSV upload that parses is answered with
    a file named after the secured name's stem, after read, parse and one
    generator call.  The text has the parsed frame's rows under a header
    of the sanitised column names; the header is the names separated by
    commas, none of them quoted (unless the frame's only column has an
    empty sanitised name). *)
Theorem full_data_csv_download (req : request) (file : upload)
    (stem ext : str) (df : ParsedFrame) :
  method req = POST ->
  files_file req = Some file ->
  allowed_file (filename file) = true ->
  (Z.of_nat (length (content file)) <= MAX_FILE_SIZE)%Z ->
  rsplit_dot (secure_filename (filename file)) = Some (stem, ext) ->
  lower ext = lit "csv" ->
  read_csv (content file) = Ok df ->
  output_format_of req = lit "csv" ->
  report_type_of req <> lit "summary" ->
  let names := csv_header (set_columns df normalize) in
  upload_and_analyze req
  = ([FileRead; ParseCsv; Generate],
     SendFile
       (CsvReport
          (writerow names
           ++ flat_map writerow (csv_records (set_columns df normalize))))
       (stem ++ lit "_full_data.csv") "text/csv")
  /\ Forall2 (fun h n => exists s, h = HText s /\ n = normalize s)
             (p_labels df) names
  /\ (names <> [ [] ] -> writerow names = join comma names ++ [newline]).
Proof.
  intros Em Ef Ea Hsize Hsplit Hext Hread Hfmt Hrt. cbv zeta. split.
  - rewrite (handler_post req Em Ef Ea).
    unfold handle_upload, hbind. rewrite ingest_spec, Hsplit, Hext, Hread.
    rewrite (size_within Hsize).
    change (str_eqb (lit "csv") (lit "csv")) with true.
    cbv iota.
    rewrite (respond_csv_not_summary req _ stem _ _ Hfmt
               (not_str_eqb Hrt)).
    reflexivity.
  - split.
    + apply sanitised_header_text. exact (read_csv_labels _ Hread).
    + intros Hne. apply writerow_words; [|exact Hne].
      apply sanitised_header_words.
Qed.

End Download.

(** The full-data CSV of the upload [data.csv]. *)
Lemma full_data_csv_download_witness :
  exists text,
    @upload_and_analyze example_kernels example_layout example_platform
      (example_request "full_data" "csv" None)
    = ([FileRead; ParseCsv; Generate],
       SendFile (CsvReport text) "data_full_data.csv" "text/csv")
    /\ firstn 10 text = lit "city,temp" ++ [newline].
Proof.
  assert (Hsize : (Z.of_nat (length (content example_upload))
                   <= MAX_FILE_SIZE)%Z) by (vm_compute; discriminate).
  destruct (@full_data_csv_download example_kernels example_layout
              example_platform
              (example_request "full_data" "csv" None) example_upload
              "data" "csv" (as_parsed mixed_frame)
              eq_refl eq_refl eq_refl Hsize eq_refl eq_refl eq_refl eq_refl)
    as (Hresp & _ & Hhead); [discriminate|].
  eexists. split; [exact Hresp|].
  rewrite Hhead by discriminate. reflexivity.
Defined.

(** A sheet whose header cells are a text and two years, as full-data CSV:
    the years have become NaN labels, written as empty names. *)
Lemma sheet_with_years_download :
  @upload_and_analyze example_kernels example_layout mixed_sheet_platform
    (post_request example_sheet (Some (lit "full_data")) (Some (lit "csv"))
                  None)
  = ([FileRead; ParseExcel; Generate],
     SendFile (CsvReport (lit "name,," ++ [newline]
                          ++ lit "Ada,3,0.0" ++ [newline]))
              "data_full_data.csv" "text/csv").
Proof. reflexivity. Qed.
